(** * BACnetIOHandler: registry, subscriber-id allocator and retry policy

    A shallow embedding of [BACnetIOHandler.py]: the device registry
    ([BACnetDeviceDict]), the subscriber-process-id tables ([assign_id],
    [unassign_id]), the request functions ([ReadPropertyMultiple],
    [COVSubscribe], [COVUnsubscribe]) and the callbacks ([do_IAmRequest],
    the two COV notification handlers, [on_ReadMultipleResult]).

    Python objects are mutated in place; here every method is a function
    on the handler state that also says whether it returned or raised.
    An exception leaves the mutations made before it in place, as in
    Python. *)

From stdpp Require Import gmap strings list fin_maps.
From Stdlib Require Import ZArith.

Local Open Scope string_scope.
Local Open Scope list_scope.
Local Open Scope Z_scope.

(** ** Identifiers *)

(** An object identifier is the tuple (object type, instance number); the
    handler reads the type as [objectIdentifier[0]]. *)
Abbreviation ObjectIdentifier := (string * Z)%type.
Abbreviation Address := string (only parsing).
Abbreviation PropertyIdentifier := string (only parsing).

(** The key of the id tables: [(objectID, self.addr_to_dev_id(address))],
    whose second component is [None] when no device has that address. *)
Abbreviation SubscriptionKey := (ObjectIdentifier * option ObjectIdentifier)%type.

(** ** Python dictionaries that are iterated

    [BACnetDeviceDict] is iterated by [update_object], [addr_to_dev_id] and
    [dev_id_to_addr], so its insertion order is kept: a list of items.
    [d[k]] reads the first item with key [k], [d[k] = v] replaces it in
    place or appends a new item. *)
Module PyDict.
Section Dict.
Context {K V : Type} `{EqDecision K}.

Fixpoint get (d : list (K * V)) (k : K) : option V :=
  match d with
  | [] => None
  | (k', v) :: d' => if decide (k' = k) then Some v else get d' k
  end.

Fixpoint set (d : list (K * V)) (k : K) (v : V) : list (K * V) :=
  match d with
  | [] => [(k, v)]
  | (k', v') :: d' =>
      if decide (k' = k) then (k', v) :: d' else (k', v') :: set d' k v
  end.

Definition contains (d : list (K * V)) (k : K) : bool :=
  bool_decide (is_Some (get d k)).

Definition keys (d : list (K * V)) : list K := d.*1.

End Dict.
End PyDict.

(** ** Exceptions and the method monad *)

Inductive Exn :=
| IndexError
| KeyError
| TypeError
| AttributeError (name : string)
| UnboundLocalError (name : string)
| ValueError (msg : string)
| Exception (msg : string).

Inductive outcome (A : Type) :=
| Return (a : A)
| Raise (e : Exn).
Arguments Return {A} a.
Arguments Raise {A} e.

(** A method on state [S]: it returns or raises, and leaves a state. *)
Definition Py (S A : Type) : Type := S → outcome A * S.

Definition raise {S A} (e : Exn) : Py S A := λ s, (Raise e, s).
Definition reads {S A} (f : S → A) : Py S A := λ s, (Return (f s), s).
Definition modify {S} (f : S → S) : Py S unit := λ s, (Return tt, f s).
(** [try: m except Exception: h] *)
Definition try_except {S A} (m : Py S A) (h : Exn → Py S A) : Py S A :=
  λ s, match m s with
       | (Return a, s') => (Return a, s')
       | (Raise e, s') => h e s'
       end.
(** A pure computation that may raise, run inside a method. *)
Definition lift {S A} (o : outcome A) : Py S A := λ s, (o, s).

#[export] Instance Py_ret {S} : MRet (Py S) := λ A a s, (Return a, s).
#[export] Instance Py_bind {S} : MBind (Py S) := λ A B f m s,
  match m s with
  | (Return a, s') => f a s'
  | (Raise e, s') => (Raise e, s')
  end.

(** ** [set.pop()]

    [available_ids] is a Python [set]; [pop()] removes and returns an
    arbitrary element. Which one is up to the interpreter, so the handler
    is parametrised by the choice, known only to pick a member. *)
Class SetPop := {
  set_pop : gset Z → Z;
  set_pop_elem_of : ∀ s : gset Z, s ≠ ∅ → set_pop s ∈ s
}.

(** ** Requests handed to [request_io] and responses handed to [response] *)

(** [PropertyReference(propertyIdentifier=PropertyIdentifier(name).value)] *)
Record PropertyReference := {
  propertyIdentifier : PropertyIdentifier
}.

Record ReadAccessSpecification := {
  objectIdentifier : ObjectIdentifier;
  listOfPropertyReferences : list PropertyReference
}.

Record ReadPropertyMultipleRequest := {
  listOfReadAccessSpecs : list ReadAccessSpecification;
  rpm_pduDestination : Address
}.

Record SubscribeCOVRequest := {
  subscriberProcessIdentifier : Z;
  monitoredObjectIdentifier : ObjectIdentifier;
  issueConfirmedNotifications : option string;
  lifetime : option Z;
  cov_pduDestination : Address
}.

(** What [request_io] receives: the request of the IOCB. The callback the
    handler adds is fixed by the kind of request ([on_ReadMultipleResult]
    for the first, [on_Subscribed] for the second). *)
Inductive Request :=
| ReadMultiple (r : ReadPropertyMultipleRequest)
| Subscribe (r : SubscribeCOVRequest).

#[export] Instance PropertyReference_eq_dec : EqDecision PropertyReference.
Proof. solve_decision. Defined.
#[export] Instance ReadAccessSpecification_eq_dec :
  EqDecision ReadAccessSpecification.
Proof. solve_decision. Defined.
#[export] Instance ReadPropertyMultipleRequest_eq_dec :
  EqDecision ReadPropertyMultipleRequest.
Proof. solve_decision. Defined.

(** ** Datatypes of the protocol stack

    [get_datatype(object_type, property)] gives a class or [None]; the
    handler only asks whether the class is a subclass of [Array], and
    reads [datatype.subtype] when it is. *)
Inductive Datatype :=
| Unsigned
| Atomic (name : string)
| ArrayOf (subtype : Datatype).

(** [issubclass(datatype, Array)]: a [TypeError] when [datatype] is [None],
    since the first argument must be a class. *)
Definition issubclass_Array (datatype : option Datatype) : outcome bool :=
  match datatype with
  | None => Raise TypeError
  | Some (ArrayOf _) => Return true
  | Some _ => Return false
  end.

(** [datatype.subtype] *)
Definition subtype_of (datatype : Datatype) : outcome Datatype :=
  match datatype with
  | ArrayOf t => Return t
  | _ => Raise (AttributeError "subtype")
  end.

#[export] Instance outcome_ret : MRet outcome := λ A a, Return a.
#[export] Instance outcome_bind : MBind outcome := λ A B f o,
  match o with
  | Return a => f a
  | Raise e => Raise e
  end.

(** [for x in l: body(x)] *)
Fixpoint for_each {S A} (l : list A) (body : A → Py S unit) : Py S unit :=
  match l with
  | [] => mret tt
  | x :: l' => body x ;; for_each l' body
  end.

(** ** The handler *)

Section BACnetIOHandler.

(** The protocol stack is a collaborator: encoded values ([Any]), decoded
    Python values ([Value]), the datatype table and [cast_out]. *)
Context {Any Value : Type}.
Variable get_datatype : string → PropertyIdentifier → option Datatype.
Variable cast_out : Any → Datatype → Value.
Context `{!SetPop}.

Abbreviation PropertyDict := (gmap PropertyIdentifier Value).

(** An entry of [BACnetDeviceDict]: the dict built by [do_IAmRequest] with
    the keys ["address"] and ["deviceIdentifier"], to which [update_object]
    adds one key per object identifier. *)
Record Device := {
  address : Address;
  deviceIdentifier : ObjectIdentifier;
  objects : gmap ObjectIdentifier PropertyDict
}.

Record IAmRequest := {
  iam_pduSource : Address;
  iAmDeviceIdentifier : ObjectIdentifier
}.

(** An element of [apdu.listOfValues] *)
Record ListValue := {
  lv_propertyIdentifier : PropertyIdentifier;
  lv_propertyArrayIndex : option Z;
  lv_value : Any
}.

Record COVNotificationRequest := {
  n_monitoredObjectIdentifier : ObjectIdentifier;
  n_initiatingDeviceIdentifier : ObjectIdentifier;
  listOfValues : list ListValue
}.

(** What [self.response] receives *)
Inductive Response :=
| SimpleAckPDU (context : COVNotificationRequest)
| RejectPDU (reason : Z) (context : COVNotificationRequest)
| AbortPDU (reason : Z) (context : COVNotificationRequest).

(** The class attributes of [BACnetIOHandler], with the requests passed to
    [request_io] and the responses passed to [response], oldest first. *)
Record Handler := {
  BACnetDeviceDict : list (ObjectIdentifier * Device);
  id_to_object : gmap Z SubscriptionKey;
  object_to_id : gmap SubscriptionKey Z;
  available_ids : gset Z;
  next_id : Z;
  updateEvent : bool;
  requests : list Request;
  responses : list Response
}.

Definition new_handler : Handler := {|
  BACnetDeviceDict := [];
  id_to_object := ∅;
  object_to_id := ∅;
  available_ids := ∅;
  next_id := 1;
  updateEvent := false;
  requests := [];
  responses := []
|}.

Definition set_BACnetDeviceDict (d : list (ObjectIdentifier * Device))
    (self : Handler) : Handler :=
  {| BACnetDeviceDict := d;
     id_to_object := id_to_object self; object_to_id := object_to_id self;
     available_ids := available_ids self; next_id := next_id self;
     updateEvent := updateEvent self;
     requests := requests self; responses := responses self |}.

Definition set_id_to_object (m : gmap Z SubscriptionKey)
    (self : Handler) : Handler :=
  {| BACnetDeviceDict := BACnetDeviceDict self;
     id_to_object := m; object_to_id := object_to_id self;
     available_ids := available_ids self; next_id := next_id self;
     updateEvent := updateEvent self;
     requests := requests self; responses := responses self |}.

Definition set_object_to_id (m : gmap SubscriptionKey Z)
    (self : Handler) : Handler :=
  {| BACnetDeviceDict := BACnetDeviceDict self;
     id_to_object := id_to_object self; object_to_id := m;
     available_ids := available_ids self; next_id := next_id self;
     updateEvent := updateEvent self;
     requests := requests self; responses := responses self |}.

Definition set_available_ids (s : gset Z) (self : Handler) : Handler :=
  {| BACnetDeviceDict := BACnetDeviceDict self;
     id_to_object := id_to_object self; object_to_id := object_to_id self;
     available_ids := s; next_id := next_id self;
     updateEvent := updateEvent self;
     requests := requests self; responses := responses self |}.

Definition set_next_id (n : Z) (self : Handler) : Handler :=
  {| BACnetDeviceDict := BACnetDeviceDict self;
     id_to_object := id_to_object self; object_to_id := object_to_id self;
     available_ids := available_ids self; next_id := n;
     updateEvent := updateEvent self;
     requests := requests self; responses := responses self |}.

Definition set_updateEvent (b : bool) (self : Handler) : Handler :=
  {| BACnetDeviceDict := BACnetDeviceDict self;
     id_to_object := id_to_object self; object_to_id := object_to_id self;
     available_ids := available_ids self; next_id := next_id self;
     updateEvent := b;
     requests := requests self; responses := responses self |}.

Definition set_requests (l : list Request) (self : Handler) : Handler :=
  {| BACnetDeviceDict := BACnetDeviceDict self;
     id_to_object := id_to_object self; object_to_id := object_to_id self;
     available_ids := available_ids self; next_id := next_id self;
     updateEvent := updateEvent self;
     requests := l; responses := responses self |}.

Definition set_responses (l : list Response) (self : Handler) : Handler :=
  {| BACnetDeviceDict := BACnetDeviceDict self;
     id_to_object := id_to_object self; object_to_id := object_to_id self;
     available_ids := available_ids self; next_id := next_id self;
     updateEvent := updateEvent self;
     requests := requests self; responses := l |}.

(** *** Helper functions *)

(** [self.BACnetDeviceDict[deviceID][objectID].update(new_val)]: a
    [KeyError] when either key is missing. *)
Definition update_existing (objectID deviceID : ObjectIdentifier)
    (new_val : PropertyDict) : Py Handler unit := λ self,
  match PyDict.get (BACnetDeviceDict self) deviceID with
  | None => (Raise KeyError, self)
  | Some device =>
      match objects device !! objectID with
      | None => (Raise KeyError, self)
      | Some old =>
          let device' :=
            {| address := address device;
               deviceIdentifier := deviceIdentifier device;
               objects := <[objectID := new_val ∪ old]> (objects device) |} in
          (Return tt,
           set_BACnetDeviceDict
             (PyDict.set (BACnetDeviceDict self) deviceID device') self)
      end
  end.

(** [self.BACnetDeviceDict[deviceID][objectID] = new_val]. Python stores
    the caller's dictionary itself, not a copy; the model stores its
    value, so it does not follow two objects that were created from one
    and the same dictionary object and are afterwards changed together. *)
Definition store_object (objectID deviceID : ObjectIdentifier)
    (new_val : PropertyDict) : Py Handler unit := λ self,
  match PyDict.get (BACnetDeviceDict self) deviceID with
  | None => (Raise KeyError, self)
  | Some device =>
      let device' :=
        {| address := address device;
           deviceIdentifier := deviceIdentifier device;
           objects := <[objectID := new_val]> (objects device) |} in
      (Return tt,
       set_BACnetDeviceDict
         (PyDict.set (BACnetDeviceDict self) deviceID device') self)
  end.

Definition update_object (objectID deviceID : ObjectIdentifier)
    (new_val : PropertyDict) : Py Handler unit :=
  devices ← reads (λ self, PyDict.keys (BACnetDeviceDict self));
  for_each devices (λ device,
    if decide (device = deviceID) then
      modify (set_updateEvent true);;
      try_except (update_existing objectID deviceID new_val)
                 (λ _, store_object objectID deviceID new_val)
    else mret tt).

Fixpoint first_with_address (items : list (ObjectIdentifier * Device))
    (a : Address) : option ObjectIdentifier :=
  match items with
  | [] => None
  | (key, value) :: items' =>
      if decide (address value = a) then Some key
      else first_with_address items' a
  end.

Definition addr_to_dev_id (self : Handler) (a : Address)
    : option ObjectIdentifier :=
  first_with_address (BACnetDeviceDict self) a.

Definition dev_id_to_addr (self : Handler) (deviceID : ObjectIdentifier)
    : option Address :=
  address <$> PyDict.get (BACnetDeviceDict self) deviceID.

Definition assign_id (obj : SubscriptionKey) : Py Handler Z := λ self,
  match object_to_id self !! obj with
  | Some i => (Return i, self)
  | None =>
      let '(new_id, self1) :=
        if decide (available_ids self ≠ ∅) then
          let i := set_pop (available_ids self) in
          (i, set_available_ids (available_ids self ∖ {[i]}) self)
        else
          (next_id self, set_next_id (next_id self + 1) self) in
      let self2 := set_id_to_object (<[new_id := obj]> (id_to_object self1)) self1 in
      let self3 := set_object_to_id (<[obj := new_id]> (object_to_id self2)) self2 in
      (Return new_id, self3)
  end.

Definition unassign_id (obj : SubscriptionKey) : Py Handler unit := λ self,
  match object_to_id self !! obj with
  | None => (Return tt, self)
  | Some obj_id =>
      match id_to_object self !! obj_id with
      | None => (Raise KeyError, self)
      | Some _ =>
          let self1 := set_id_to_object (delete obj_id (id_to_object self)) self in
          let self2 := set_object_to_id (delete obj (object_to_id self1)) self1 in
          (Return tt, set_available_ids ({[obj_id]} ∪ available_ids self2) self2)
      end
  end.

(** *** Request functions *)

Definition request_io (r : Request) : Py Handler unit :=
  modify (λ self, set_requests (requests self ++ [r]) self).

Definition ReadPropertyMultiple (objectList : list ObjectIdentifier)
    (propertyList : list PropertyReference) (a : Address)
    : Py Handler unit :=
  try_except
    (let readAccessList :=
       map (λ objects, {| objectIdentifier := objects;
                          listOfPropertyReferences := propertyList |})
           objectList in
     request_io (ReadMultiple {| listOfReadAccessSpecs := readAccessList;
                                 rpm_pduDestination := a |}))
    (λ _, mret tt).

(** The constructor [ObjectIdentifier] of the stack, which [COVSubscribe]
    calls on [objectID]: whether it accepts the tuple. For a tuple it does
    not accept (an instance number that is negative or above 4194303, an
    unknown type) it raises; what it raises is an [Exception], written
    [ValueError] here, and [COVSubscribe] catches it whatever it is. *)
Variable accepted : ObjectIdentifier → bool.

(** The keyword arguments of [SubscribeCOVRequest] are evaluated in order:
    the subscriber id is assigned before [ObjectIdentifier(objectID)] is
    built, so a [ValueError] of the latter leaves the id assigned; the
    [except] clause writes a message and the method returns. *)
Definition COVSubscribe (objectID : ObjectIdentifier)
    (confirmationType : bool) (a : Address) : Py Handler unit :=
  try_except
    (dev ← reads (λ self, addr_to_dev_id self a);
     process_id ← assign_id (objectID, dev);
     (if accepted objectID then mret tt
      else raise (ValueError "ObjectIdentifier"));;
     request_io (Subscribe
       {| subscriberProcessIdentifier := process_id;
          monitoredObjectIdentifier := objectID;
          issueConfirmedNotifications :=
            if confirmationType then Some "true" else None;
          lifetime := None;
          cov_pduDestination := a |}))
    (λ _, mret tt).

(** [self.unsubscribe_id]: the class defines [assign_id] and [unassign_id]
    but no [unsubscribe_id], and the methods its bases contribute, listed in
    the module docstring, have none either: the attribute lookup raises. *)
Definition unsubscribe_id (objectID : ObjectIdentifier) : Py Handler unit :=
  raise (AttributeError "unsubscribe_id").

Definition COVUnsubscribe (objectID : ObjectIdentifier)
    (confirmationType : bool) (a : Address) : Py Handler unit :=
  try_except
    (dev ← reads (λ self, addr_to_dev_id self a);
     process_id ← assign_id (objectID, dev);
     unsubscribe_id objectID;;
     request_io (Subscribe
       {| subscriberProcessIdentifier := process_id;
          monitoredObjectIdentifier := objectID;
          issueConfirmedNotifications :=
            if confirmationType then Some "true" else None;
          lifetime := Some 1;
          cov_pduDestination := a |}))
    (λ _, mret tt).

(** *** Property lists of the read requests *)

Definition property_references (names : list string) : list PropertyReference :=
  map (λ n, {| propertyIdentifier := n |}) names.

(** The list [do_IAmRequest] asks of a device object, which the error
    branch of [on_ReadMultipleResult] repeats for a single device. *)
Definition device_property_list : list PropertyReference :=
  property_references
    ["objectIdentifier"; "objectType"; "objectName"; "systemStatus";
     "vendorName"; "vendorIdentifier"; "objectList"; "description";
     "modelName"].

(** The list of the other error branch of [on_ReadMultipleResult] *)
Definition reduced_property_list : list PropertyReference :=
  property_references
    ["objectIdentifier"; "objectName"; "description"; "presentValue";
     "statusFlags"; "outOfService"; "units"; "reliability"].

(** *** Response functions *)

Definition do_IAmRequest (apdu : IAmRequest) : Py Handler unit :=
  let BACnetDevice :=
    {| address := iam_pduSource apdu;
       deviceIdentifier := iAmDeviceIdentifier apdu;
       objects := ∅ |} in
  known ← reads (λ self,
    PyDict.contains (BACnetDeviceDict self) (iAmDeviceIdentifier apdu));
  if negb known then
    modify (λ self,
      set_BACnetDeviceDict
        (PyDict.set (BACnetDeviceDict self) (iAmDeviceIdentifier apdu)
                    BACnetDevice) self);;
    ReadPropertyMultiple [deviceIdentifier BACnetDevice]
                         device_property_list
                         (address BACnetDevice)
  else mret tt.

(** The block under [# Array things]: index 0 of an array is its length,
    another index an element, anything else the declared datatype. *)
Definition cast_property (datatype : option Datatype)
    (propertyArrayIndex : option Z) (value : Any) : outcome Value :=
  is_array ← issubclass_Array datatype;
  if is_array && bool_decide (propertyArrayIndex ≠ None) then
    if bool_decide (propertyArrayIndex = Some 0) then
      mret (cast_out value Unsigned)
    else
      match datatype with
      | Some d => t ← subtype_of d; mret (cast_out value t)
      | None => Raise TypeError
      end
  else
    match datatype with
    | Some d => mret (cast_out value d)
    | None => Raise TypeError
    end.

(** The loop that both COV callbacks run over [apdu.listOfValues] *)
Fixpoint cov_property_dict (object_type : string) (values : list ListValue)
    (property_dict : PropertyDict) : outcome PropertyDict :=
  match values with
  | [] => mret property_dict
  | listvalue :: values' =>
      let datatype :=
        get_datatype object_type (lv_propertyIdentifier listvalue) in
      value ← cast_property datatype (lv_propertyArrayIndex listvalue)
                            (lv_value listvalue);
      cov_property_dict object_type values'
        (<[lv_propertyIdentifier listvalue := value]> property_dict)
  end.

(** The module-level [rsvp = (True, None, None)], never assigned again *)
Definition rsvp : bool * option Z * option Z := (true, None, None).

Definition truthy (reason : option Z) : bool :=
  match reason with
  | Some r => bool_decide (r ≠ 0)
  | None => false
  end.

Definition response (r : Response) : Py Handler unit :=
  modify (λ self, set_responses (responses self ++ [r]) self).

Definition do_ConfirmedCOVNotificationRequest (apdu : COVNotificationRequest)
    : Py Handler unit :=
  property_dict ← lift (cov_property_dict
                          (n_monitoredObjectIdentifier apdu).1
                          (listOfValues apdu) ∅);
  update_object (n_monitoredObjectIdentifier apdu)
                (n_initiatingDeviceIdentifier apdu) property_dict;;
  let '(succeed, reject, abort) := rsvp in
  if succeed then response (SimpleAckPDU apdu)
  else if truthy reject then response (RejectPDU (default 0 reject) apdu)
  else if truthy abort then response (AbortPDU (default 0 abort) apdu)
  else raise (UnboundLocalError "response").

Definition do_UnconfirmedCOVNotificationRequest (apdu : COVNotificationRequest)
    : Py Handler unit :=
  property_dict ← lift (cov_property_dict
                          (n_monitoredObjectIdentifier apdu).1
                          (listOfValues apdu) ∅);
  update_object (n_monitoredObjectIdentifier apdu)
                (n_initiatingDeviceIdentifier apdu) property_dict.

(** *** Read results *)

(** [readResult] is a choice: an access error or the encoded value. *)
Inductive ReadResult :=
| propertyAccessError
| propertyValue (value : Any).

Record ReadAccessResultElement := {
  e_propertyIdentifier : PropertyIdentifier;
  e_propertyArrayIndex : option Z;
  readResult : ReadResult
}.

Record ReadAccessResult := {
  r_objectIdentifier : ObjectIdentifier;
  listOfResults : list ReadAccessResultElement
}.

Record ReadPropertyMultipleACK := {
  listOfReadAccessResults : list ReadAccessResult;
  ack_pduSource : Address
}.

(** The inner loop of [return_value_read_multiple]: a property without a
    datatype is passed over by [continue]; an access error sets a local
    value that is not stored. *)
Fixpoint read_properties (object_type : string)
    (results : list ReadAccessResultElement) (propertydict : PropertyDict)
    : outcome PropertyDict :=
  match results with
  | [] => mret propertydict
  | properties :: results' =>
      let datatype :=
        get_datatype object_type (e_propertyIdentifier properties) in
      match datatype with
      | None => read_properties object_type results' propertydict
      | Some _ =>
          match readResult properties with
          | propertyAccessError =>
              read_properties object_type results' propertydict
          | propertyValue any =>
              value ← cast_property datatype
                        (e_propertyArrayIndex properties) any;
              read_properties object_type results'
                (<[e_propertyIdentifier properties := value]> propertydict)
          end
      end
  end.

Fixpoint read_objects (results : list ReadAccessResult)
    (objectdict : gmap ObjectIdentifier PropertyDict)
    : outcome (gmap ObjectIdentifier PropertyDict) :=
  match results with
  | [] => mret objectdict
  | objects :: results' =>
      let object_id := r_objectIdentifier objects in
      propertydict ← read_properties object_id.1 (listOfResults objects) ∅;
      read_objects results' (<[object_id := propertydict]> objectdict)
  end.

Definition return_value_read_multiple (response : ReadPropertyMultipleACK)
    : outcome (gmap ObjectIdentifier PropertyDict) :=
  read_objects (listOfReadAccessResults response) ∅.

Record ReadPropertyACK := {
  a_objectIdentifier : ObjectIdentifier;
  a_propertyIdentifier : PropertyIdentifier;
  a_propertyArrayIndex : option Z;
  a_propertyValue : Any
}.

Definition return_value_read (response : ReadPropertyACK)
    : outcome PropertyDict :=
  let datatype :=
    get_datatype (a_objectIdentifier response).1
                 (a_propertyIdentifier response) in
  match datatype with
  | None => Raise (Exception "Invalid datatype")
  | Some _ =>
      value ← cast_property datatype (a_propertyArrayIndex response)
                            (a_propertyValue response);
      mret {[a_propertyIdentifier response := value]}
  end.

(** The error of an IOCB; the handler reads its source address. *)
Record IOError := {
  err_pduSource : Address
}.

Inductive IOResponse :=
| MultipleACK (ack : ReadPropertyMultipleACK)
| OtherAPDU.

(** An IOCB given to [on_ReadMultipleResult]: [args[0]] is the request
    [ReadPropertyMultiple] made it from. *)
Record IOCB := {
  args0 : ReadPropertyMultipleRequest;
  ioError : option IOError;
  ioResponse : option IOResponse
}.

(** The branch [elif iocb.ioResponse:] of [on_ReadMultipleResult], which
    stores the decoded objects, reads the objects of a new device and
    subscribes. The properties below are about the error branch and hold
    whatever this one does. *)
Variable on_ReadMultipleResponse : IOResponse → Py Handler unit.

(** [l[0]] *)
Definition first {A} (l : list A) : outcome A :=
  match l with
  | x :: _ => Return x
  | [] => Raise IndexError
  end.

Definition on_ReadMultipleResult (iocb : IOCB) : Py Handler unit :=
  match ioError iocb with
  | Some error =>
      let specs := listOfReadAccessSpecs (args0 iocb) in
      spec0 ← lift (first specs);
      if bool_decide ((objectIdentifier spec0).1 = "device")
         && bool_decide (length specs = 1%nat) then
        ReadPropertyMultiple [objectIdentifier spec0]
                             device_property_list
                             (err_pduSource error)
      else
        let objectList := map objectIdentifier specs in
        ReadPropertyMultiple objectList
                             reduced_property_list
                             (err_pduSource error)
  | None =>
      match ioResponse iocb with
      | Some r => on_ReadMultipleResponse r
      | None => mret tt
      end
  end.

(** The rest of the [try] block of [on_ReadResult] after the decoding of a
    [ReadPropertyACK]; whatever it raises is caught with the rest. *)
Variable on_ReadResult_store : ReadPropertyACK → PropertyDict → Py Handler unit.

(** The branch [elif isinstance(iocb.ioResponse, ReadPropertyACK):] of
    [on_ReadResult] *)
Definition on_ReadPropertyACK (response : ReadPropertyACK) : Py Handler unit :=
  try_except
    (val_dict ← lift (return_value_read response);
     on_ReadResult_store response val_dict)
    (λ _, mret tt).

(** An attribute of an error that [on_Subscribed] concatenates to a
    [str]: a [str], a value of another type, or no such attribute (a
    [RejectPDU] or [AbortPDU] has neither [errorClass] nor [errorCode]). *)
Inductive Attribute :=
| Str (s : string)
| NotStr
| Missing.

(** [text + error.name] *)
Definition concatenate (name : string) (attribute : Attribute)
    : outcome unit :=
  match attribute with
  | Str _ => Return tt
  | NotStr => Raise TypeError
  | Missing => Raise (AttributeError name)
  end.

(** The error of an IOCB given to [on_Subscribed] *)
Record SubscribeError := {
  errorClass : Attribute;
  errorCode : Attribute
}.

(** An IOCB given to [on_Subscribed] *)
Record SubscribeIOCB := {
  s_args0 : SubscribeCOVRequest;
  s_ioError : option SubscribeError;
  s_ioResponse : bool
}.

(** The message of the error branch is built from [errorClass] and
    [errorCode] before [unassign_id] is called. *)
Definition on_Subscribed (iocb : SubscribeIOCB) : Py Handler unit :=
  if s_ioResponse iocb then mret tt
  else
    match s_ioError iocb with
    | Some error =>
        lift (concatenate "errorClass" (errorClass error));;
        lift (concatenate "errorCode" (errorCode error));;
        dev ← reads (λ self,
          addr_to_dev_id self (cov_pduDestination (s_args0 iocb)));
        unassign_id (monitoredObjectIdentifier (s_args0 iocb), dev)
    | None => mret tt
    end.

(** *** Scenarios *)

(** The IOCB of request [r] completed with an error from address [a] *)
Definition failed (r : ReadPropertyMultipleRequest) (a : Address) : IOCB :=
  {| args0 := r; ioError := Some {| err_pduSource := a |}; ioResponse := None |}.

(** The peer fails the read request handed over last, [n] times in a row:
    each time the stack calls [on_ReadMultipleResult] with the error. *)
Fixpoint fail_repeatedly (n : nat) : Py Handler unit :=
  match n with
  | O => mret tt
  | S n' =>
      pending ← reads (λ self, last (requests self));
      match pending with
      | Some (ReadMultiple r) =>
          on_ReadMultipleResult (failed r (rpm_pduDestination r));;
          fail_repeatedly n'
      | _ => mret tt
      end
  end.

(** The invariant of the id tables: the two dictionaries are inverse to
    each other, every id in use or in [available_ids] lies between 1 and
    [next_id], and the pool holds no id in use. *)
Record ids_consistent (self : Handler) : Prop := {
  ids_inverse : ∀ obj i,
    object_to_id self !! obj = Some i ↔ id_to_object self !! i = Some obj;
  ids_in_use_range : ∀ obj i,
    object_to_id self !! obj = Some i → 1 ≤ i < next_id self;
  ids_pool_range : ∀ i, i ∈ available_ids self → 1 ≤ i < next_id self;
  ids_pool_free : ∀ i, i ∈ available_ids self → id_to_object self !! i = None;
  ids_next_positive : 1 ≤ next_id self
}.

End BACnetIOHandler.

(** ** Sequences of allocator calls *)

(** A call of the id allocator. [Assign pop obj] is [assign_id(obj)]
    together with the choice [pop] that [set.pop()] makes if the call
    reaches it: the interpreter is free to choose anew at every call. *)
Inductive Call :=
| Assign (pop : SetPop) (obj : SubscriptionKey)
| Unassign (obj : SubscriptionKey).

(** Runs the calls in order and collects what the [assign_id] calls
    returned, oldest first. *)
Fixpoint run_calls {Any Value : Type} (calls : list Call)
    : Py (@Handler Any Value) (list Z) :=
  match calls with
  | [] => mret []
  | Assign pop obj :: calls' =>
      i ← assign_id (H := pop) obj; ids ← run_calls calls'; mret (i :: ids)
  | Unassign obj :: calls' =>
      unassign_id obj;; run_calls calls'
  end.

(** The keys that are live after the calls, each with the id it was
    handed: an [assign_id] call hands the key the id it returned, an
    [unassign_id] call ends the life of the key. [ids] are the ids the
    [assign_id] calls returned, in order. *)
Fixpoint live_ids (calls : list Call) (ids : list Z)
    (live : gmap SubscriptionKey Z) : gmap SubscriptionKey Z :=
  match calls, ids with
  | Assign _ obj :: calls', i :: ids' => live_ids calls' ids' (<[obj := i]> live)
  | Unassign obj :: calls', _ => live_ids calls' ids (delete obj live)
  | _, _ => live
  end.

(** ** One admissible [set.pop()]: the least element *)

Definition least (s : gset Z) : Z :=
  match elements s with
  | [] => 0
  | x :: l => foldr Z.min x l
  end.

Lemma foldr_min_elem_of (x : Z) (l : list Z) : foldr Z.min x l ∈ x :: l.
Proof.
  induction l as [|y l IH]; simpl.
  - apply list_elem_of_here.
  - destruct (Z.min_spec y (foldr Z.min x l)) as [[_ ->]|[_ ->]].
    + apply list_elem_of_further, list_elem_of_here.
    + apply elem_of_cons in IH as [->|IH].
      * apply list_elem_of_here.
      * by do 2 apply list_elem_of_further.
Qed.

Program Definition pop_least : SetPop := {| set_pop := least |}.
Next Obligation.
  intros s Hs. unfold least.
  destruct (elements s) as [|x l] eqn:E.
  - apply elements_empty_inv in E. by apply leibniz_equiv in E.
  - apply elem_of_elements. rewrite E. apply foldr_min_elem_of.
Qed.

(** ** Inputs of the examples

    The examples run the handler with encoded and decoded values that are
    integers, a [cast_out] that keeps the number, and [pop_least]. *)

Definition key_a : SubscriptionKey := (("analogInput", 1), Some ("device", 100)).
Definition key_b : SubscriptionKey := (("analogInput", 2), Some ("device", 100)).
Definition key_c : SubscriptionKey := (("analogInput", 3), Some ("device", 100)).

(** The handler after [key_a] and [key_b] were given the ids 1 and 2 and
    gave them back in that order. *)
Definition reclaimed_handler : @Handler Z Z :=
  (run_calls
     [Assign pop_least key_a; Assign pop_least key_b;
      Unassign key_a; Unassign key_b]
     new_handler).2.

(** ** What a merge leaves behind *)

(** The device entry after [new_val] was merged into its object
    [objectID]: the new entries win, the other keys keep their values, and
    an object that was absent starts from the empty dictionary. *)
Definition merged_device {Any Value : Type} (objectID : ObjectIdentifier)
    (new_val : gmap PropertyIdentifier Value) (device : @Device Value)
    : @Device Value :=
  {| address := address device;
     deviceIdentifier := deviceIdentifier device;
     objects :=
       <[objectID := new_val ∪ default ∅ (objects device !! objectID)]>
         (objects device) |}.

(** The handler after a merge into a device of the registry *)
Definition merged_handler {Any Value : Type} (objectID deviceID : ObjectIdentifier)
    (new_val : gmap PropertyIdentifier Value) (self : @Handler Any Value)
    : @Handler Any Value :=
  match PyDict.get (BACnetDeviceDict self) deviceID with
  | Some device =>
      set_BACnetDeviceDict
        (PyDict.set (BACnetDeviceDict self) deviceID
                    (merged_device (Any := Any) objectID new_val device))
        (set_updateEvent true self)
  | None => self
  end.

(** The announcement of device 100 from 192.168.1.20, and the handler that
    has received it. *)
Definition announcement : IAmRequest :=
  {| iam_pduSource := "192.168.1.20";
     iAmDeviceIdentifier := ("device", 100) |}.

Definition announced_handler : @Handler Z Z :=
  (do_IAmRequest announcement new_handler).2.

(** The read of two objects of the announced device that follows the read
    of its object list, and the request that the error branch of
    [on_ReadMultipleResult] makes of it. *)
Definition object_read : ReadPropertyMultipleRequest :=
  {| listOfReadAccessSpecs :=
       [{| objectIdentifier := ("analogInput", 1);
           listOfPropertyReferences := property_references ["all"] |};
        {| objectIdentifier := ("analogInput", 2);
           listOfPropertyReferences := property_references ["all"] |}];
     rpm_pduDestination := "192.168.1.20" |}.

Definition reduced_retry : ReadPropertyMultipleRequest :=
  {| listOfReadAccessSpecs :=
       [{| objectIdentifier := ("analogInput", 1);
           listOfPropertyReferences := reduced_property_list |};
        {| objectIdentifier := ("analogInput", 2);
           listOfPropertyReferences := reduced_property_list |}];
     rpm_pduDestination := "192.168.1.20" |}.

(** A read request without any object, as [on_ReadMultipleResult] makes
    for a device whose object list holds no object of a type in
    [objectFilter]. *)
Definition empty_read : ReadPropertyMultipleRequest :=
  {| listOfReadAccessSpecs := []; rpm_pduDestination := "192.168.1.20" |}.

(** The success branch of the examples: nothing is done. *)
Definition ignore_response : @IOResponse Z → Py (@Handler Z Z) unit :=
  λ _, mret tt.

(** A datatype table with three properties; every other property has no
    datatype. *)
Definition datatype_table (object_type : string) (property : PropertyIdentifier)
    : option Datatype :=
  if decide (property = "presentValue") then Some (Atomic "Real")
  else if decide (property = "statusFlags") then Some (Atomic "StatusFlags")
  else if decide (property = "priorityArray") then
    Some (ArrayOf (Atomic "PriorityValue"))
  else None.

Definition keep_value (value : Z) (datatype : Datatype) : Z := value.

(** A notification of device 100 about analog input 1 with a present
    value and a property that has no datatype. *)
Definition notification : @COVNotificationRequest Z :=
  {| n_monitoredObjectIdentifier := ("analogInput", 1);
     n_initiatingDeviceIdentifier := ("device", 100);
     listOfValues :=
       [{| lv_propertyIdentifier := "presentValue";
           lv_propertyArrayIndex := None; lv_value := 21 |};
        {| lv_propertyIdentifier := "vendorProperty";
           lv_propertyArrayIndex := None; lv_value := 7 |}] |}.

(** The same two properties as the result of a read of the object *)
Definition read_result : @ReadPropertyMultipleACK Z :=
  {| listOfReadAccessResults :=
       [{| r_objectIdentifier := ("analogInput", 1);
           listOfResults :=
             [{| e_propertyIdentifier := "presentValue";
                 e_propertyArrayIndex := None;
                 readResult := propertyValue 21 |};
              {| e_propertyIdentifier := "vendorProperty";
                 e_propertyArrayIndex := None;
                 readResult := propertyValue 7 |}] |}];
     ack_pduSource := "192.168.1.20" |}.

(** The request is for one object and that object is a device: the test
    of the error branch of [on_ReadMultipleResult]. *)
Definition single_device (r : ReadPropertyMultipleRequest) : Prop :=
  ∃ spec, listOfReadAccessSpecs r = [spec]
          ∧ (objectIdentifier spec).1 = "device".

(** The handler after [object_read] failed once: the reduced retry is the
    request made last. *)
Definition retrying_handler : @Handler Z Z :=
  (on_ReadMultipleResult ignore_response
     (failed object_read "192.168.1.20") announced_handler).2.

(** An [ObjectIdentifier] constructor that accepts the instance numbers
    from 0 to 4194303 *)
Definition in_range (objectID : ObjectIdentifier) : bool :=
  bool_decide (0 ≤ objectID.2 ≤ 4194303).

(** A notification with one decodable property from device 200, which the
    registry of [announced_handler] does not have *)
Definition stranger_notification : @COVNotificationRequest Z :=
  {| n_monitoredObjectIdentifier := ("analogInput", 1);
     n_initiatingDeviceIdentifier := ("device", 200);
     listOfValues :=
       [{| lv_propertyIdentifier := "presentValue";
           lv_propertyArrayIndex := None; lv_value := 21 |}] |}.

(** ** The success branch of [on_ReadMultipleResult] *)

(** The class attribute [objectFilter] *)
Definition objectFilter : list string :=
  ["accumulator"; "analogInput"; "analogOutput"; "analogValue"; "averaging";
   "binaryInput"; "binaryOutput"; "binaryValue"; "multiStateInput";
   "multiStateOutput"; "multiStateValue"; "largeAnalogValue"; "integerValue";
   "positiveIntegerValue"; "lightingOutput"].

(** [d[k]] of a dictionary read as an option: a [KeyError] without [k] *)
Definition subscript {A} (entry : option A) : outcome A :=
  match entry with
  | Some x => Return x
  | None => Raise KeyError
  end.

Section ReadMultipleACK.
Context {Any Value : Type}.
Variable get_datatype : string → PropertyIdentifier → option Datatype.
Variable cast_out : Any → Datatype → Value.

(** What [for object in value] yields for the decoded value of
    [objectList], or the exception of a value that is not iterable: the
    decoded values belong to the protocol stack. *)
Variable iter_objects : Value → outcome (list ObjectIdentifier).

(** The constructor [ObjectIdentifier] of the stack, as in [COVSubscribe] *)
Variable accepted : ObjectIdentifier → bool.

(** Whether the source of a response, given by its address, is a Python
    [str]. The sources the stack puts on the PDUs it receives are
    [Address] objects, which are not. *)
Variable is_str : Address → bool.

(** What the branch does with a response that is no
    [ReadPropertyMultipleACK]: it only writes a message built from
    attributes of the response, and returns or raises as those reads and
    concatenations do. *)
Variable other_apdu : outcome unit.
Context `{!SetPop}.

(** [self.BACnetDeviceDict[deviceID]] *)
Definition device_entry (deviceID : ObjectIdentifier)
    : Py (@Handler Any Value) (@Device Value) := λ self,
  (subscript (PyDict.get (BACnetDeviceDict self) deviceID), self).

(** [self.update_object(objectID, self.addr_to_dev_id(address), new_val)]:
    when no device has the address the device identifier is [None], which
    equals no key of the registry, and the loop of [update_object] does
    nothing. *)
Definition update_object_at (objectID : ObjectIdentifier) (a : Address)
    (new_val : gmap PropertyIdentifier Value)
    : Py (@Handler Any Value) unit :=
  deviceID ← reads (λ self, addr_to_dev_id self a);
  match deviceID with
  | Some d => update_object objectID d new_val
  | None => mret tt
  end.

(** The body of the loop over [response.listOfReadAccessResults] *)
Definition store_result (response : @ReadPropertyMultipleACK Any)
    (obj_dict : gmap ObjectIdentifier (gmap PropertyIdentifier Value))
    (result : @ReadAccessResult Any) : Py (@Handler Any Value) unit :=
  let oid := r_objectIdentifier result in
  if bool_decide (oid.1 = "device") then
    device ← device_entry oid;
    if negb (bool_decide (is_Some (objects device !! oid))) then
      new_val ← lift (subscript (obj_dict !! oid));
      update_object_at oid (ack_pduSource response) new_val;;
      device ← device_entry oid;
      properties ← lift (subscript (objects device !! oid));
      value ← lift (subscript (properties !! "objectList"));
      listed ← lift (iter_objects value);
      let objectList :=
        filter (λ object : ObjectIdentifier, object.1 ∈ objectFilter) listed in
      device ← device_entry oid;
      ReadPropertyMultiple objectList (property_references ["all"])
                           (address device)
    else
      new_val ← lift (subscript (obj_dict !! oid));
      update_object_at oid (ack_pduSource response) new_val
  else
    new_val ← lift (subscript (obj_dict !! oid));
    update_object_at oid (ack_pduSource response) new_val;;
    deviceID ← reads (λ self, addr_to_dev_id self (ack_pduSource response));
    subscribed ← reads (λ self,
      bool_decide (is_Some (object_to_id self !! (oid, deviceID))));
    if negb subscribed && bool_decide (oid.1 ∈ objectFilter) then
      COVSubscribe accepted oid true (ack_pduSource response)
    else mret tt.

(** The branch [elif isinstance(iocb.ioResponse, ReadPropertyMultipleACK):]
    of [on_ReadMultipleResult], which is reached after the message of the
    branch around it has been written *)
Definition on_ReadPropertyMultipleACK (response : @ReadPropertyMultipleACK Any)
    : Py (@Handler Any Value) unit :=
  obj_dict ← lift (return_value_read_multiple get_datatype cast_out response);
  for_each (listOfReadAccessResults response) (store_result response obj_dict).

(** The branch [elif iocb.ioResponse:] of [on_ReadMultipleResult]. Its
    first statement writes
    ["multi read response from: " + iocb.ioResponse.pduSource]: the
    concatenation raises [TypeError] unless the source is a [str]. *)
Definition on_ReadMultipleResponse (r : @IOResponse Any)
    : Py (@Handler Any Value) unit :=
  match r with
  | MultipleACK response =>
      (if is_str (ack_pduSource response) then mret tt
       else raise TypeError);;
      on_ReadPropertyMultipleACK response
  | OtherAPDU => lift other_apdu
  end.

(** The IOCB of request [r] completed with the response [response] *)
Definition answered (r : ReadPropertyMultipleRequest)
    (response : @ReadPropertyMultipleACK Any) : @IOCB Any :=
  {| args0 := r; ioError := None; ioResponse := Some (MultipleACK response) |}.
End ReadMultipleACK.

(** ** Well-formed registries and id tables *)

(** The keys of [BACnetDeviceDict] are distinct, as the keys of a Python
    dictionary are, and every entry carries its key as
    ["deviceIdentifier"]. *)
Definition registry_wf {Any Value : Type} (self : @Handler Any Value) : Prop :=
  NoDup (PyDict.keys (BACnetDeviceDict self))
  ∧ ∀ deviceID device,
      PyDict.get (BACnetDeviceDict self) deviceID = Some device →
      deviceIdentifier device = deviceID.

(** Every id below [next_id] is in use or in [available_ids]. *)
Definition ids_accounted {Any Value : Type} (self : @Handler Any Value) : Prop :=
  ∀ i, 1 ≤ i < next_id self →
       is_Some (id_to_object self !! i) ∨ i ∈ available_ids self.

(** A method keeps a property of the handler, whether it returns or
    raises. *)
Definition Preserves {S A : Type} (P : S → Prop) (m : Py S A) : Prop :=
  ∀ s, P s → P (m s).2.

(** ** What happens to a handler *)

(** The calls made on the handler and the callbacks of the stack, each
    with what it is given; a call that may reach [set.pop()] carries the
    choice it makes. *)
Inductive Event {Any Value : Type} :=
| IAm (apdu : IAmRequest)
| ConfirmedCOV (apdu : @COVNotificationRequest Any)
| UnconfirmedCOV (apdu : @COVNotificationRequest Any)
| ReadMultipleFailed (r : ReadPropertyMultipleRequest) (a : Address)
| ReadMultipleDone (pop : SetPop) (iocb : @IOCB Any)
| SubscribeCall (pop : SetPop) (objectID : ObjectIdentifier)
                (confirmationType : bool) (a : Address)
| UnsubscribeCall (pop : SetPop) (objectID : ObjectIdentifier)
                  (confirmationType : bool) (a : Address)
| ReadMultipleCall (objectList : list ObjectIdentifier)
                   (propertyList : list PropertyReference) (a : Address)
| SubscribeDone (iocb : SubscribeIOCB)
| Update (objectID deviceID : ObjectIdentifier)
         (new_val : gmap PropertyIdentifier Value).
Arguments Event : clear implicits.

Section Events.
Context {Any Value : Type}.
Variable get_datatype : string → PropertyIdentifier → option Datatype.
Variable cast_out : Any → Datatype → Value.
Variable iter_objects : Value → outcome (list ObjectIdentifier).
Variable accepted : ObjectIdentifier → bool.
Variable is_str : Address → bool.
Variable other_apdu : outcome unit.

Definition handle (e : Event Any Value) : Py (@Handler Any Value) unit :=
  match e with
  | IAm apdu => do_IAmRequest apdu
  | ConfirmedCOV apdu =>
      do_ConfirmedCOVNotificationRequest get_datatype cast_out apdu
  | UnconfirmedCOV apdu =>
      do_UnconfirmedCOVNotificationRequest get_datatype cast_out apdu
  | ReadMultipleFailed r a =>
      on_ReadMultipleResult (λ _, mret tt) (failed r a)
  | ReadMultipleDone pop iocb =>
      on_ReadMultipleResult
        (on_ReadMultipleResponse (H := pop) get_datatype cast_out iter_objects
                                 accepted is_str other_apdu)
        iocb
  | SubscribeCall pop objectID confirmationType a =>
      COVSubscribe (H := pop) accepted objectID confirmationType a
  | UnsubscribeCall pop objectID confirmationType a =>
      COVUnsubscribe (H := pop) objectID confirmationType a
  | ReadMultipleCall objectList propertyList a =>
      ReadPropertyMultiple objectList propertyList a
  | SubscribeDone iocb => on_Subscribed iocb
  | Update objectID deviceID new_val =>
      update_object objectID deviceID new_val
  end.

(** The handler after the events, in order; an event whose method raises
    leaves what the method had done until then. *)
Definition run_events (events : list (Event Any Value))
    (self : @Handler Any Value) : @Handler Any Value :=
  foldl (λ self e, (handle e self).2) self events.
End Events.

(** ** Inputs of the further examples *)

(** The handler after [key_a] was given id 1: the pool is empty. *)
Definition one_assigned_handler : @Handler Z Z :=
  (run_calls [Assign pop_least key_a] new_handler).2.

(** The handler after [new_val] was merged into object [objectID] of the
    device that has address [a], if there is one *)
Definition merged_at {Any Value : Type} (objectID : ObjectIdentifier)
    (a : Address) (new_val : gmap PropertyIdentifier Value)
    (self : @Handler Any Value) : @Handler Any Value :=
  match addr_to_dev_id self a with
  | Some d => merged_handler objectID d new_val self
  | None => self
  end.

(** The read of [objectList] with the one property [all] *)
Definition read_all (objectList : list ObjectIdentifier) (a : Address)
    : Request :=
  ReadMultiple
    {| listOfReadAccessSpecs :=
         map (λ objects, {| objectIdentifier := objects;
                            listOfPropertyReferences :=
                              property_references ["all"] |})
             objectList;
       rpm_pduDestination := a |}.

(** A property of the handler that survives each elementary change the
    methods make: a merge, a request handed over, a response handed over,
    an id assigned or unassigned, a new device appended. *)
Record Stable {Any Value : Type} (P : @Handler Any Value → Prop) : Prop := {
  stable_merge : ∀ objectID deviceID new_val self,
    P self → P (merged_handler objectID deviceID new_val self);
  stable_request : ∀ r self,
    P self → P (set_requests (requests self ++ [r]) self);
  stable_response : ∀ r self,
    P self → P (set_responses (responses self ++ [r]) self);
  stable_assign : ∀ (pop : SetPop) obj self,
    P self → P (assign_id (H := pop) obj self).2;
  stable_unassign : ∀ obj self, P self → P (unassign_id obj self).2;
  stable_announce : ∀ (apdu : IAmRequest) self,
    PyDict.get (BACnetDeviceDict self) (iAmDeviceIdentifier apdu) = None →
    P self →
    P (set_BACnetDeviceDict
         (BACnetDeviceDict self ++
          [(iAmDeviceIdentifier apdu,
            {| address := iam_pduSource apdu;
               deviceIdentifier := iAmDeviceIdentifier apdu;
               objects := ∅ |})]) self)
}.

(** Decoded values of the further examples: a number or a list of object
    identifiers, which is what the value of [objectList] iterates to. *)
Inductive PyValue :=
| VNum (n : Z)
| VObjects (l : list ObjectIdentifier).

Definition keep (value : PyValue) (datatype : Datatype) : PyValue := value.

Definition iterate (value : PyValue) : outcome (list ObjectIdentifier) :=
  match value with
  | VObjects l => Return l
  | VNum _ => Raise TypeError
  end.

(** [datatype_table] with the two device properties of the examples *)
Definition device_table (object_type : string) (property : PropertyIdentifier)
    : option Datatype :=
  if decide (property = "objectList") then
    Some (ArrayOf (Atomic "ObjectIdentifier"))
  else if decide (property = "vendorIdentifier") then Some Unsigned
  else datatype_table object_type property.

(** The handler that has received the announcement of device 100 *)
Definition announced : @Handler PyValue PyValue :=
  (do_IAmRequest announcement new_handler).2.

Definition element (property : PropertyIdentifier) (value : PyValue)
    : @ReadAccessResultElement PyValue :=
  {| e_propertyIdentifier := property;
     e_propertyArrayIndex := None;
     readResult := propertyValue value |}.



(** Results of the read of device 100: with an object list of four
    objects, without object list, and with an object list that holds no
    object of a type in [objectFilter]. *)
Definition device_result : @ReadAccessResult PyValue :=
  {| r_objectIdentifier := ("device", 100);
     listOfResults :=
       [element "vendorIdentifier" (VNum 15);
        element "objectList"
          (VObjects [("device", 100); ("analogInput", 1); ("file", 1);
                     ("binaryValue", 3)])] |}.

Definition device_result_bare : @ReadAccessResult PyValue :=
  {| r_objectIdentifier := ("device", 100);
     listOfResults := [element "vendorIdentifier" (VNum 15)] |}.

Definition device_result_unfiltered : @ReadAccessResult PyValue :=
  {| r_objectIdentifier := ("device", 100);
     listOfResults :=
       [element "objectList" (VObjects [("device", 100); ("file", 1)])] |}.

(** The response with the one result, from the address given *)
Definition ack_of (result : @ReadAccessResult PyValue) (a : Address)
    : @ReadPropertyMultipleACK PyValue :=
  {| listOfReadAccessResults := [result]; ack_pduSource := a |}.

(** The device entry of [announced] *)
Definition device_100 : @Device PyValue :=
  {| address := "192.168.1.20";
     deviceIdentifier := ("device", 100);
     objects := ∅ |}.


(** In the examples an [Address] object is written with the prefix
    ["Address:"]; every other address is a [str]. *)
Definition plain_str (a : Address) : bool :=
  negb (String.prefix "Address:" a).

(** The read of the device object that [do_IAmRequest] issues *)
Definition device_read : ReadPropertyMultipleRequest :=
  {| listOfReadAccessSpecs :=
       [{| objectIdentifier := ("device", 100);
           listOfPropertyReferences := device_property_list |}];
     rpm_pduDestination := "192.168.1.20" |}.

(** The callback of a read with the collaborators of the examples; a
    response that is no [ReadPropertyMultipleACK] is written without
    error. *)
Definition read_callback
    : @IOCB PyValue → Py (@Handler PyValue PyValue) unit :=
  on_ReadMultipleResult
    (on_ReadMultipleResponse (H := pop_least) device_table keep iterate
                             in_range plain_str (Return tt)).

(** * Properties *)

(** ** Ordered dictionaries *)

Section PyDictFacts.
Context {K V : Type} `{EqDecision K}.
Implicit Types (d : list (K * V)) (k : K) (v : V).

Lemma PyDict_get_set_eq d k v : PyDict.get (PyDict.set d k v) k = Some v.
Proof.
  induction d as [|[k' v'] d IH]; simpl.
  - by rewrite decide_True.
  - destruct (decide (k' = k)) as [->|Hne]; simpl.
    + by rewrite decide_True.
    + by rewrite decide_False.
Qed.

Lemma PyDict_get_set_ne d k k' v :
  k ≠ k' → PyDict.get (PyDict.set d k v) k' = PyDict.get d k'.
Proof.
  intros Hne. induction d as [|[k0 v0] d IH]; simpl.
  - by rewrite decide_False.
  - destruct (decide (k0 = k)) as [->|Hne0]; simpl.
    + by rewrite !decide_False.
    + destruct (decide (k0 = k')); [done | apply IH].
Qed.

Lemma PyDict_set_set d k v w :
  PyDict.set (PyDict.set d k v) k w = PyDict.set d k w.
Proof.
  induction d as [|[k0 v0] d IH]; simpl.
  - by rewrite decide_True.
  - destruct (decide (k0 = k)) as [->|Hne]; simpl.
    + by rewrite decide_True.
    + rewrite decide_False by done. by rewrite IH.
Qed.

Lemma PyDict_get_None_keys d k : PyDict.get d k = None ↔ k ∉ PyDict.keys d.
Proof.
  unfold PyDict.keys. induction d as [|[k0 v0] d IH]; simpl.
  - split; [intros _; apply not_elem_of_nil | done].
  - destruct (decide (k0 = k)) as [->|Hne].
    + split; [done | intros H'; destruct H'; apply list_elem_of_here].
    + rewrite IH, not_elem_of_cons. split; [by intros ? | by intros [_ ?]].
Qed.

End PyDictFacts.

(** ** The id allocator *)

Section AllocatorFacts.
Context {Any Value : Type} `{!SetPop}.
Implicit Types (self : @Handler Any Value) (obj : SubscriptionKey).

Lemma new_handler_ids_consistent : ids_consistent (@new_handler Any Value).
Proof. by split. Qed.

(** [assign_id] returns, keeps the tables consistent, and hands out an id
    that is at least 1 and now belongs to [obj]. *)
Lemma assign_id_consistent self obj :
  ids_consistent self →
  ∃ i self', assign_id obj self = (Return i, self')
    ∧ ids_consistent self' ∧ 1 ≤ i ∧ object_to_id self' !! obj = Some i.
Proof.
  intros [Hinv Huse Hpool Hfree Hpos]. unfold assign_id.
  destruct (object_to_id self !! obj) as [i|] eqn:Hobj.
  { exists i, self. split_and!; [done | by split | by apply (Huse obj) | done]. }
  assert (Hfresh : ∀ j, id_to_object self !! j = Some obj → False).
  { intros j Hj. apply Hinv in Hj. congruence. }
  destruct (decide (available_ids self ≠ ∅)) as [Hne|Hempty].
  - pose proof (set_pop_elem_of _ Hne) as Hin.
    set (i := set_pop (available_ids self)) in *.
    eexists i, _. split; [reflexivity |]. simpl.
    split_and!; [split; simpl | apply (Hpool i Hin) | by rewrite lookup_insert_eq].
    + intros obj' j. rewrite !lookup_insert. repeat case_decide; subst.
      * split; congruence.
      * split; [congruence |]. intros Hj. exfalso. by eapply Hfresh.
      * rewrite Hinv, (Hfree _ Hin). split; [done | congruence].
      * apply Hinv.
    + intros obj' j. rewrite lookup_insert. case_decide; subst.
      * intros [= <-]. by apply Hpool.
      * apply Huse.
    + intros j [Hj _]%elem_of_difference. by apply Hpool.
    + intros j [Hj Hji]%elem_of_difference.
      rewrite lookup_insert_ne; [by apply Hfree |].
      intros ->. by apply Hji, elem_of_singleton.
    + done.
  - assert (Hnext : id_to_object self !! next_id self = None).
    { destruct (id_to_object self !! next_id self) as [o|] eqn:E; [|done].
      apply Hinv, Huse in E. lia. }
    eexists (next_id self), _. split; [reflexivity |]. simpl.
    split_and!; [split; simpl | done | by rewrite lookup_insert_eq].
    + intros obj' j. rewrite !lookup_insert. repeat case_decide; subst.
      * split; congruence.
      * split; [congruence |]. intros Hj. exfalso. by eapply Hfresh.
      * rewrite Hinv, Hnext. split; [done | congruence].
      * apply Hinv.
    + intros obj' j. rewrite lookup_insert. case_decide; subst.
      * intros [= <-]. lia.
      * intros Hj. apply Huse in Hj. lia.
    + intros j Hj. apply Hpool in Hj. lia.
    + intros j Hj. rewrite lookup_insert_ne; [by apply Hfree |].
      apply Hpool in Hj. lia.
    + lia.
Qed.

(** [unassign_id] returns and keeps the tables consistent. *)
Lemma unassign_id_consistent self obj :
  ids_consistent self →
  ∃ self', unassign_id obj self = (Return tt, self') ∧ ids_consistent self'.
Proof.
  intros [Hinv Huse Hpool Hfree Hpos]. unfold unassign_id.
  destruct (object_to_id self !! obj) as [i|] eqn:Hobj; [|by eexists].
  pose proof Hobj as Hi. apply Hinv in Hi. rewrite Hi.
  eexists. split; [reflexivity |]. split; simpl.
  - intros obj' j. rewrite !lookup_delete. repeat case_decide; subst.
    + done.
    + split; [done |]. intros Hj. apply Hinv in Hj. congruence.
    + split; [|done]. intros Hj. apply Hinv in Hj. congruence.
    + apply Hinv.
  - intros obj' j. rewrite lookup_delete. case_decide; [done | apply Huse].
  - intros j [->%elem_of_singleton|Hj]%elem_of_union.
    + by apply (Huse obj).
    + by apply Hpool.
  - intros j [->%elem_of_singleton|Hj]%elem_of_union.
    + apply lookup_delete_eq.
    + rewrite lookup_delete_ne; [by apply Hfree |].
      intros ->. apply Hfree in Hj. congruence.
  - done.
Qed.

(** C9, as the code has it. With a non-empty pool, [assign_id] for a key
    that has no id returns a member of the pool, takes it out of the pool
    and leaves the counter [next_id] alone. Which member is the choice of
    [set.pop()]: the code keeps no order of reclaiming. *)
Theorem assign_id_takes_from_pool self obj :
  object_to_id self !! obj = None →
  available_ids self ≠ ∅ →
  ∃ i self', assign_id obj self = (Return i, self')
    ∧ i ∈ available_ids self
    ∧ available_ids self' = available_ids self ∖ {[i]}
    ∧ next_id self' = next_id self
    ∧ object_to_id self' !! obj = Some i
    ∧ id_to_object self' !! i = Some obj.
Proof.
  intros Hobj Hne. unfold assign_id. rewrite Hobj.
  rewrite decide_True by done.
  eexists _, _. split; [reflexivity |]. simpl.
  split_and!; [by apply set_pop_elem_of | done | done | |];
    by rewrite lookup_insert_eq.
Qed.
End AllocatorFacts.

Section RunFacts.
Context {Any Value : Type}.
Implicit Types (self : @Handler Any Value).

Lemma run_calls_consistent calls : ∀ self,
  ids_consistent self →
  ∃ ids self', run_calls calls self = (Return ids, self')
    ∧ ids_consistent self' ∧ Forall (λ i, 1 ≤ i) ids.
Proof.
  induction calls as [|[pop obj|obj] calls IH]; intros self Hself; simpl.
  - by exists [], self.
  - destruct (assign_id_consistent (H := pop) self obj Hself)
      as (i & self1 & Hrun & Hself1 & Hi & _).
    destruct (IH self1 Hself1) as (ids & self2 & Hrest & Hself2 & Hids).
    exists (i :: ids), self2. unfold mbind, Py_bind at 1.
    rewrite Hrun. unfold mbind, Py_bind at 1. rewrite Hrest.
    split_and!; [done | done | by constructor].
  - destruct (unassign_id_consistent self obj Hself)
      as (self1 & Hrun & Hself1).
    destruct (IH self1 Hself1) as (ids & self2 & Hrest & Hself2 & Hids).
    exists ids, self2. unfold mbind, Py_bind at 1. by rewrite Hrun.
Qed.

(** What the two calls do to [object_to_id] *)
Lemma assign_id_table (pop : SetPop) self obj :
  ∃ i self', assign_id (H := pop) obj self = (Return i, self')
    ∧ object_to_id self' = <[obj := i]> (object_to_id self).
Proof.
  unfold assign_id.
  destruct (object_to_id self !! obj) as [i|] eqn:Hobj.
  - exists i, self. split; [done |]. by rewrite insert_id.
  - destruct (decide (available_ids self ≠ ∅)); by eexists _, _.
Qed.

Lemma unassign_id_table self obj :
  ids_consistent self →
  ∃ self', unassign_id obj self = (Return tt, self')
    ∧ object_to_id self' = delete obj (object_to_id self).
Proof.
  intros [Hinv _ _ _ _]. unfold unassign_id.
  destruct (object_to_id self !! obj) as [i|] eqn:Hobj.
  - pose proof Hobj as Hi. apply Hinv in Hi. rewrite Hi. by eexists.
  - exists self. split; [done |]. by rewrite delete_id.
Qed.

Lemma run_calls_live calls : ∀ self,
  ids_consistent self →
  ∃ ids self', run_calls calls self = (Return ids, self')
    ∧ ids_consistent self'
    ∧ Forall (λ i, 1 ≤ i) ids
    ∧ object_to_id self' = live_ids calls ids (object_to_id self).
Proof.
  induction calls as [|[pop obj|obj] calls IH]; intros self Hself; simpl.
  - exists [], self. split_and!; [done | done | constructor | done].
  - destruct (assign_id_consistent (H := pop) self obj Hself)
      as (i & self1 & Hrun & Hself1 & Hi & _).
    destruct (assign_id_table pop self obj) as (i' & self1' & Hrun' & Htable).
    rewrite Hrun in Hrun'. injection Hrun' as <- <-.
    destruct (IH self1 Hself1) as (ids & self2 & Hrest & Hself2 & Hids & Hlive).
    exists (i :: ids), self2. unfold mbind, Py_bind at 1.
    rewrite Hrun. unfold mbind, Py_bind at 1. rewrite Hrest.
    split_and!; [done | done | by constructor |].
    simpl. by rewrite Hlive, Htable.
  - destruct (unassign_id_table self obj Hself) as (self1 & Hrun & Htable).
    destruct (unassign_id_consistent self obj Hself)
      as (self1' & Hrun' & Hself1).
    rewrite Hrun in Hrun'. injection Hrun' as <-.
    destruct (IH self1 Hself1) as (ids & self2 & Hrest & Hself2 & Hids & Hlive).
    exists ids, self2. unfold mbind, Py_bind at 1. rewrite Hrun.
    split_and!; [done | done | done |].
    rewrite Hlive, Htable. by destruct ids.
Qed.

(** C3. Whatever sequence of [assign_id] and [unassign_id] calls is run on
    a handler whose id tables are empty, and whatever [set.pop()] chooses
    at each call: every call returns; the keys that [object_to_id] holds
    afterwards are exactly the live keys, each with the id that its
    [assign_id] call returned; no two live keys were handed the same id;
    and every id an [assign_id] call returned is at least 1. Every prefix
    of a sequence is a sequence, so this holds at every moment. *)
Theorem live_ids_distinct_and_positive (calls : list Call) :
  ∃ ids (self : @Handler Any Value),
    run_calls calls new_handler = (Return ids, self)
    ∧ object_to_id self = live_ids calls ids ∅
    ∧ (∀ obj1 obj2 i,
         live_ids calls ids ∅ !! obj1 = Some i →
         live_ids calls ids ∅ !! obj2 = Some i → obj1 = obj2)
    ∧ Forall (λ i, 1 ≤ i) ids.
Proof.
  destruct (run_calls_live calls new_handler new_handler_ids_consistent)
    as (ids & self & Hrun & [Hinv _ _ _ _] & Hids & Hlive).
  exists ids, self. split_and!; [done | done | | done].
  simpl in Hlive. rewrite <- Hlive.
  intros obj1 obj2 i H1 H2. apply Hinv in H1, H2. congruence.
Qed.
End RunFacts.


Lemma assign_id_takes_from_pool_witness :
  ∃ i self',
    assign_id (H := pop_least) key_c reclaimed_handler = (Return i, self')
    ∧ i ∈ available_ids reclaimed_handler
    ∧ available_ids self' = available_ids reclaimed_handler ∖ {[i]}
    ∧ next_id self' = next_id reclaimed_handler
    ∧ object_to_id self' !! key_c = Some i
    ∧ id_to_object self' !! i = Some key_c.
Proof.
  apply (assign_id_takes_from_pool (H := pop_least) reclaimed_handler key_c).
  - vm_compute. reflexivity.
  - apply (bool_decide_unpack _). vm_compute. exact I.
Defined.

(** C9, counterexample. [key_a] gets id 1 and [key_b] id 2; [key_a] is
    unassigned first and [key_b] last, so 2 is the id reclaimed most
    recently. With the pool [{1, 2}] a [pop()] that yields the least
    element gives [key_c] the id 1: the id returned is not the one
    reclaimed last. *)
Lemma reclaimed_id_not_most_recent :
  run_calls
    [Assign pop_least key_a; Assign pop_least key_b;
     Unassign key_a; Unassign key_b]
    (@new_handler Z Z) = (Return [1; 2], reclaimed_handler)
  ∧ available_ids reclaimed_handler = {[1; 2]}
  ∧ (assign_id (H := pop_least) key_c reclaimed_handler).1 = Return 1
  ∧ (assign_id (H := pop_least) key_c reclaimed_handler).1 ≠ Return 2.
Proof.
  split_and!.
  - vm_compute. reflexivity.
  - apply (bool_decide_unpack _). vm_compute. exact I.
  - vm_compute. reflexivity.
  - vm_compute. discriminate.
Qed.

(** ** The device registry *)

Section RegistryFacts.
Context {Any Value : Type}.
Implicit Types (self : @Handler Any Value).
Implicit Types (objectID deviceID : ObjectIdentifier).
Implicit Types (new_val : gmap PropertyIdentifier Value).

(** The body of the loop of [update_object], run for a device that is in
    the registry. *)
Lemma update_object_body self objectID deviceID new_val :
  is_Some (PyDict.get (BACnetDeviceDict self) deviceID) →
  (modify (set_updateEvent true);;
   try_except (update_existing objectID deviceID new_val)
              (λ _, store_object objectID deviceID new_val)) self
  = (Return tt, merged_handler objectID deviceID new_val self).
Proof.
  intros [device Hdev].
  unfold mbind, Py_bind, modify, try_except, update_existing, store_object,
    merged_handler, merged_device.
  simpl. rewrite Hdev.
  destruct (objects device !! objectID) as [old|] eqn:Hobj; simpl; [done |].
  rewrite Hdev. by rewrite (right_id_L ∅ (∪)).
Qed.

Lemma merged_handler_known self objectID deviceID new_val :
  is_Some (PyDict.get (BACnetDeviceDict self) deviceID) →
  is_Some (PyDict.get
    (BACnetDeviceDict (merged_handler objectID deviceID new_val self))
    deviceID).
Proof.
  intros [device Hdev]. unfold merged_handler. rewrite Hdev. simpl.
  rewrite PyDict_get_set_eq. by eexists.
Qed.

(** Merging the same dictionary a second time changes nothing. *)
Lemma merged_handler_idemp self objectID deviceID new_val :
  merged_handler objectID deviceID new_val
    (merged_handler objectID deviceID new_val self)
  = merged_handler objectID deviceID new_val self.
Proof.
  unfold merged_handler at 2 3.
  destruct (PyDict.get (BACnetDeviceDict self) deviceID) as [device|] eqn:Hdev.
  - unfold merged_handler. simpl. rewrite PyDict_get_set_eq.
    unfold set_BACnetDeviceDict, set_updateEvent. simpl. f_equal.
    rewrite PyDict_set_set. f_equal.
    unfold merged_device. simpl. f_equal.
    rewrite lookup_insert_eq, insert_insert_eq. simpl.
    by rewrite (assoc_L (∪)), (idemp_L (∪)).
  - unfold merged_handler. by rewrite Hdev.
Qed.

Lemma update_object_loop objectID deviceID new_val (devices : list ObjectIdentifier) :
  ∀ self,
  is_Some (PyDict.get (BACnetDeviceDict self) deviceID) →
  for_each devices (λ device,
    if decide (device = deviceID) then
      modify (set_updateEvent true);;
      try_except (update_existing objectID deviceID new_val)
                 (λ _, store_object objectID deviceID new_val)
    else mret tt) self
  = (Return tt,
     if bool_decide (deviceID ∈ devices)
     then merged_handler objectID deviceID new_val self else self).
Proof.
  induction devices as [|device devices IH]; intros self Hknown; [done |].
  cbn [for_each]. unfold mbind at 1, Py_bind at 1.
  destruct (decide (device = deviceID)) as [->|Hne].
  - rewrite update_object_body by done.
    rewrite IH by by apply merged_handler_known.
    rewrite merged_handler_idemp.
    rewrite (bool_decide_eq_true_2 (deviceID ∈ deviceID :: devices))
      by apply list_elem_of_here.
    by case_bool_decide.
  - unfold mret at 1, Py_ret at 1. rewrite IH by done.
    f_equal.
    destruct (bool_decide (deviceID ∈ devices)) eqn:E.
    + apply bool_decide_eq_true_1 in E.
      by rewrite bool_decide_eq_true_2 by by apply list_elem_of_further.
    + apply bool_decide_eq_false_1 in E.
      rewrite bool_decide_eq_false_2; [done |].
      rewrite not_elem_of_cons. split; [congruence | done].
Qed.

(** [update_object] for a device of the registry: it returns, sets the
    change signal and merges [new_val] into the object. *)
Lemma update_object_known self objectID deviceID new_val :
  is_Some (PyDict.get (BACnetDeviceDict self) deviceID) →
  update_object objectID deviceID new_val self
  = (Return tt, merged_handler objectID deviceID new_val self).
Proof.
  intros Hknown. unfold update_object, mbind at 1, Py_bind at 1, reads.
  rewrite update_object_loop by done.
  rewrite bool_decide_eq_true_2; [done |].
  destruct (decide (deviceID ∈ PyDict.keys (BACnetDeviceDict self)))
    as [|Hnot]; [done |].
  apply PyDict_get_None_keys in Hnot. destruct Hknown as [? ?]. congruence.
Qed.

Lemma update_object_skip objectID deviceID new_val (devices : list ObjectIdentifier) :
  ∀ self, deviceID ∉ devices →
  for_each devices (λ device,
    if decide (device = deviceID) then
      modify (set_updateEvent true);;
      try_except (update_existing objectID deviceID new_val)
                 (λ _, store_object objectID deviceID new_val)
    else mret tt) self
  = (Return tt, self).
Proof.
  induction devices as [|device devices IH]; intros self Hnot; [done |].
  apply not_elem_of_cons in Hnot as [Hne Hnot].
  cbn [for_each]. unfold mbind at 1, Py_bind at 1.
  rewrite decide_False by done. unfold mret at 1, Py_ret at 1.
  by apply IH.
Qed.

(** [update_object] for a device the registry does not have *)
Lemma update_object_unknown self objectID deviceID new_val :
  PyDict.get (BACnetDeviceDict self) deviceID = None →
  update_object objectID deviceID new_val self = (Return tt, self).
Proof.
  intros Hnone. unfold update_object, mbind at 1, Py_bind at 1, reads.
  apply update_object_skip. by apply PyDict_get_None_keys.
Qed.
End RegistryFacts.

Section RegistryClaims.
Context {Any Value : Type}.
Implicit Types (self : @Handler Any Value).
Implicit Types (objectID deviceID : ObjectIdentifier).

(** C7. For a device that is in the registry, merging [{p: v}] and then
    [{q: w}] into the same object returns both times and leaves an object
    whose property map has [q] mapped to [w], has [p] mapped to [v] when
    [p] and [q] differ, and gives every other key the value it had before
    (none when the object or the key was absent). *)
Theorem update_object_twice self objectID deviceID (device : @Device Value)
    (p q : PropertyIdentifier) (v w : Value) :
  PyDict.get (BACnetDeviceDict self) deviceID = Some device →
  ∃ self' device' props,
    (update_object objectID deviceID {[p := v]};;
     update_object objectID deviceID {[q := w]}) self = (Return tt, self')
    ∧ PyDict.get (BACnetDeviceDict self') deviceID = Some device'
    ∧ objects device' !! objectID = Some props
    ∧ props !! q = Some w
    ∧ (p ≠ q → props !! p = Some v)
    ∧ (∀ r, r ≠ p → r ≠ q →
         props !! r = default ∅ (objects device !! objectID) !! r).
Proof.
  intros Hdev.
  assert (Hknown : is_Some (PyDict.get (BACnetDeviceDict self) deviceID))
    by by eexists.
  unfold mbind at 1, Py_bind at 1.
  rewrite update_object_known by done.
  rewrite update_object_known by by apply merged_handler_known.
  eexists _, _, _. split; [reflexivity |].
  unfold merged_handler at 1.
  unfold merged_handler at 1 2. rewrite Hdev. simpl.
  rewrite !PyDict_get_set_eq. simpl. rewrite PyDict_get_set_eq.
  split; [reflexivity |]. simpl.
  rewrite lookup_insert_eq. split; [reflexivity |].
  rewrite lookup_insert_eq. simpl.
  split_and!.
  - apply lookup_union_Some_l, lookup_singleton_eq.
  - intros Hne. rewrite lookup_union_r by by apply lookup_singleton_ne.
    apply lookup_union_Some_l, lookup_singleton_eq.
  - intros r Hp Hq.
    rewrite lookup_union_r by by apply lookup_singleton_ne.
    by rewrite lookup_union_r by by apply lookup_singleton_ne.
Qed.

(** C10, as the code has it. [update_object] for a device identifier that
    the registry does not have returns without raising and leaves the
    whole handler as it was: no device or object entry appears or changes
    and the change signal is not set. A COV notification from such a
    device whose properties all have a datatype is therefore dropped by
    the unconfirmed callback without any effect; the confirmed callback
    stores nothing either, but it still answers: its one effect is the
    [SimpleAckPDU] for the notification. *)
Theorem unknown_device_update_dropped
    (get_datatype : string → PropertyIdentifier → option Datatype)
    (cast_out : Any → Datatype → Value)
    self objectID deviceID (new_val : gmap PropertyIdentifier Value)
    (apdu : @COVNotificationRequest Any) :
  PyDict.get (BACnetDeviceDict self) deviceID = None →
  update_object objectID deviceID new_val self = (Return tt, self)
  ∧ (n_initiatingDeviceIdentifier apdu = deviceID →
     Forall (λ lv, get_datatype (n_monitoredObjectIdentifier apdu).1
                                (lv_propertyIdentifier lv) ≠ None)
            (listOfValues apdu) →
     do_UnconfirmedCOVNotificationRequest get_datatype cast_out apdu self
     = (Return tt, self)
     ∧ do_ConfirmedCOVNotificationRequest get_datatype cast_out apdu self
       = (Return tt,
          set_responses (responses self ++ [SimpleAckPDU apdu]) self)).
Proof.
  intros Hnone. split; [by apply update_object_unknown |].
  intros Hdev Hall. subst deviceID.
  assert (Hdecoded : ∃ property_dict,
    cov_property_dict get_datatype cast_out
      (n_monitoredObjectIdentifier apdu).1 (listOfValues apdu) ∅
    = Return property_dict).
  { generalize (∅ : gmap PropertyIdentifier Value).
    induction Hall as [|lv values Hlv _ IH]; intros property_dict; simpl;
      [by eexists |].
    destruct (get_datatype _ (lv_propertyIdentifier lv)) as [dt|]; [|done].
    unfold cast_property.
    destruct dt; simpl; try apply IH.
    destruct (bool_decide (lv_propertyArrayIndex lv ≠ None)); simpl;
      [|apply IH].
    destruct (bool_decide (lv_propertyArrayIndex lv = Some 0)); apply IH. }
  destruct Hdecoded as [property_dict Hd].
  unfold do_UnconfirmedCOVNotificationRequest,
    do_ConfirmedCOVNotificationRequest, lift.
  split.
  - unfold mbind at 1, Py_bind at 1. rewrite Hd.
    by apply update_object_unknown.
  - unfold mbind at 1, Py_bind at 1. rewrite Hd.
    unfold mbind at 1, Py_bind at 1.
    by rewrite update_object_unknown.
Qed.

End RegistryClaims.

Lemma update_object_twice_witness :
  ∃ (self' : @Handler Z Z) device' props,
    (update_object ("analogInput", 1) ("device", 100) {[ "presentValue" := 21 ]};;
     update_object ("analogInput", 1) ("device", 100) {[ "statusFlags" := 0 ]})
      announced_handler = (Return tt, self')
    ∧ PyDict.get (BACnetDeviceDict self') ("device", 100) = Some device'
    ∧ objects device' !! ("analogInput", 1) = Some props
    ∧ props !! "statusFlags" = Some 0
    ∧ ("presentValue" ≠ "statusFlags" → props !! "presentValue" = Some 21)
    ∧ (∀ r, r ≠ "presentValue" → r ≠ "statusFlags" →
         props !! r = default ∅ (@objects Z
           {| address := "192.168.1.20";
              deviceIdentifier := ("device", 100);
              objects := ∅ |} !! ("analogInput", 1)) !! r).
Proof.
  apply (update_object_twice announced_handler ("analogInput", 1)
           ("device", 100)
           {| address := "192.168.1.20";
              deviceIdentifier := ("device", 100);
              objects := ∅ |}
           "presentValue" "statusFlags" 21 0).
  reflexivity.
Defined.

Lemma unknown_device_update_dropped_witness :
  update_object ("analogInput", 1) ("device", 200) {[ "presentValue" := 21 ]}
    announced_handler = (Return tt, announced_handler)
  ∧ do_UnconfirmedCOVNotificationRequest datatype_table keep_value
      stranger_notification announced_handler
    = (Return tt, announced_handler).
Proof.
  destruct (unknown_device_update_dropped datatype_table keep_value
              announced_handler ("analogInput", 1) ("device", 200)
              {[ "presentValue" := 21 ]} stranger_notification eq_refl)
    as [Hupdate Hcov].
  split; [exact Hupdate |].
  apply Hcov; [reflexivity |].
  repeat constructor. discriminate.
Defined.

(** C10, counterexample. Device 200 is not in the registry; a confirmed
    notification that names it as initiating device has an effect that
    can be observed: the callback hands a [SimpleAckPDU] to [response]. *)
Lemma unknown_device_notification_acknowledged :
  PyDict.get (BACnetDeviceDict announced_handler) ("device", 200) = None
  ∧ do_ConfirmedCOVNotificationRequest datatype_table keep_value
      stranger_notification announced_handler
    = (Return tt,
       set_responses
         (responses announced_handler ++ [SimpleAckPDU stranger_notification])
         announced_handler)
  ∧ responses
      (do_ConfirmedCOVNotificationRequest datatype_table keep_value
         stranger_notification announced_handler).2
    ≠ responses announced_handler.
Proof.
  split_and!; [reflexivity | reflexivity |].
  vm_compute. discriminate.
Qed.


(** ** The error branch of [on_ReadMultipleResult] *)

Section RetryFacts.
Context {Any Value : Type}.
Variable on_ReadMultipleResponse : @IOResponse Any → Py (@Handler Any Value) unit.
Implicit Types (self : @Handler Any Value) (r : ReadPropertyMultipleRequest).
Implicit Types (iocb : @IOCB Any) (spec : ReadAccessSpecification).

Lemma ReadPropertyMultiple_run self (objectList : list ObjectIdentifier)
    (propertyList : list PropertyReference) (a : Address) :
  ReadPropertyMultiple objectList propertyList a self
  = (Return tt,
     set_requests
       (requests self ++
        [ReadMultiple
           {| listOfReadAccessSpecs :=
                map (λ objects,
                       {| objectIdentifier := objects;
                          listOfPropertyReferences := propertyList |})
                    objectList;
              rpm_pduDestination := a |}]) self).
Proof. reflexivity. Qed.

(** C5. When a read of exactly one object, a device, completes with an
    error, [on_ReadMultipleResult] returns after issuing one request: a
    [ReadPropertyMultiple] for that same object, sent to the source of the
    error, with the nine device properties; this list is not the reduced
    one. *)
Theorem failed_device_read_retry self iocb (error : IOError) spec :
  ioError iocb = Some error →
  listOfReadAccessSpecs (args0 iocb) = [spec] →
  (objectIdentifier spec).1 = "device" →
  on_ReadMultipleResult on_ReadMultipleResponse iocb self
  = (Return tt,
     set_requests
       (requests self ++
        [ReadMultiple
           {| listOfReadAccessSpecs :=
                [{| objectIdentifier := objectIdentifier spec;
                    listOfPropertyReferences :=
                      property_references
                        ["objectIdentifier"; "objectType"; "objectName";
                         "systemStatus"; "vendorName"; "vendorIdentifier";
                         "objectList"; "description"; "modelName"] |}];
              rpm_pduDestination := err_pduSource error |}]) self)
  ∧ property_references
      ["objectIdentifier"; "objectType"; "objectName"; "systemStatus";
       "vendorName"; "vendorIdentifier"; "objectList"; "description";
       "modelName"] ≠ reduced_property_list.
Proof.
  intros Herr Hspecs Hdev. split; [|discriminate].
  unfold on_ReadMultipleResult. rewrite Herr, Hspecs.
  unfold mbind, Py_bind, lift. simpl.
  by rewrite bool_decide_eq_true_2.
Qed.

(** The retry of the other branch, for a request that names an object *)
Lemma failed_read_reduced self iocb (error : IOError) :
  ioError iocb = Some error →
  listOfReadAccessSpecs (args0 iocb) ≠ [] →
  ¬ single_device (args0 iocb) →
  on_ReadMultipleResult on_ReadMultipleResponse iocb self
  = (Return tt,
     set_requests
       (requests self ++
        [ReadMultiple
           {| listOfReadAccessSpecs :=
                map (λ objects,
                       {| objectIdentifier := objects;
                          listOfPropertyReferences := reduced_property_list |})
                    (map objectIdentifier
                         (listOfReadAccessSpecs (args0 iocb)));
              rpm_pduDestination := err_pduSource error |}]) self).
Proof.
  intros Herr Hne Hnot. unfold on_ReadMultipleResult. rewrite Herr.
  destruct (listOfReadAccessSpecs (args0 iocb)) as [|spec0 specs] eqn:Hspecs;
    [done |].
  unfold mbind, Py_bind, lift. cbn [first].
  destruct (bool_decide ((objectIdentifier spec0).1 = "device")
            && bool_decide (length (spec0 :: specs) = 1%nat)) eqn:Hcond;
    [|done].
  apply andb_prop in Hcond as [Hdev%bool_decide_eq_true_1
                                 Hlen%bool_decide_eq_true_1].
  destruct specs; [|done]. exfalso. apply Hnot. by exists spec0.
Qed.

(** C6, as the code has it. When a read that names at least one object
    and is not a read of a single device completes with an error,
    [on_ReadMultipleResult] returns after issuing one request: a
    [ReadPropertyMultiple] to the source of the error for the same objects
    in the same order, each with the reduced property list, which is not
    the device property list. *)
Theorem failed_object_read_retry self iocb (error : IOError) :
  ioError iocb = Some error →
  listOfReadAccessSpecs (args0 iocb) ≠ [] →
  ¬ single_device (args0 iocb) →
  ∃ r,
    on_ReadMultipleResult on_ReadMultipleResponse iocb self
    = (Return tt, set_requests (requests self ++ [ReadMultiple r]) self)
    ∧ rpm_pduDestination r = err_pduSource error
    ∧ map objectIdentifier (listOfReadAccessSpecs r)
      = map objectIdentifier (listOfReadAccessSpecs (args0 iocb))
    ∧ Forall (λ spec,
        listOfPropertyReferences spec
        = property_references
            ["objectIdentifier"; "objectName"; "description";
             "presentValue"; "statusFlags"; "outOfService"; "units";
             "reliability"]
        ∧ listOfPropertyReferences spec ≠ device_property_list)
        (listOfReadAccessSpecs r).
Proof.
  intros Herr Hne Hnot. eexists. split; [by apply failed_read_reduced |].
  simpl. split; [done |]. split.
  - rewrite map_map. simpl. apply map_id.
  - apply List.Forall_map, Forall_true. intros oid. simpl. by split.
Qed.

Lemma reduced_specs_fixed (specs : list ReadAccessSpecification) :
  Forall (λ spec, listOfPropertyReferences spec = reduced_property_list) specs →
  map (λ spec, {| objectIdentifier := objectIdentifier spec;
                  listOfPropertyReferences := reduced_property_list |}) specs
  = specs.
Proof.
  induction 1 as [|[oid props] specs Hprops _ IH]; [done |].
  simpl in *. subst props. by rewrite IH.
Qed.

(** A failed reduced read of objects is made again as it was. *)
Lemma failed_reduced_read_again self r (a : Address) :
  listOfReadAccessSpecs r ≠ [] →
  ¬ single_device r →
  Forall (λ spec, listOfPropertyReferences spec = reduced_property_list)
         (listOfReadAccessSpecs r) →
  on_ReadMultipleResult on_ReadMultipleResponse (failed r a) self
  = (Return tt,
     set_requests
       (requests self ++
        [ReadMultiple {| listOfReadAccessSpecs := listOfReadAccessSpecs r;
                         rpm_pduDestination := a |}]) self).
Proof.
  intros Hne Hnot Hreduced.
  rewrite (failed_read_reduced self (failed r a) {| err_pduSource := a |})
    by done.
  simpl. rewrite map_map. simpl. by rewrite reduced_specs_fixed.
Qed.

Lemma fail_repeatedly_reduced (n : nat) r : ∀ self,
  listOfReadAccessSpecs r ≠ [] →
  ¬ single_device r →
  Forall (λ spec, listOfPropertyReferences spec = reduced_property_list)
         (listOfReadAccessSpecs r) →
  last (requests self) = Some (ReadMultiple r) →
  fail_repeatedly on_ReadMultipleResponse n self
  = (Return tt,
     set_requests (requests self ++ replicate n (ReadMultiple r)) self).
Proof.
  intros self Hne Hnot Hreduced. revert self.
  induction n as [|n IH]; intros self Hlast; simpl.
  - rewrite app_nil_r. by destruct self.
  - unfold mbind at 1, Py_bind at 1, reads. rewrite Hlast.
    unfold mbind at 1, Py_bind at 1.
    rewrite failed_reduced_read_again by done.
    assert (Hr : {| listOfReadAccessSpecs := listOfReadAccessSpecs r;
                    rpm_pduDestination := rpm_pduDestination r |} = r)
      by by destruct r.
    rewrite Hr, IH by (simpl; apply last_snoc).
    simpl. unfold set_requests. simpl. by rewrite <- app_assoc.
Qed.

(** C1, as the code has it. The handler keeps no stage of a read: when a
    reduced read of objects (what the spec calls the stage-2 retry) fails,
    [on_ReadMultipleResult] makes the same request again, to the source of
    the error; and when the request made last is such a read and it fails
    [n] times in a row, every callback returns and [n] further copies of
    it have been issued, for every [n]. *)
Theorem failed_retry_is_retried self r (n : nat) :
  listOfReadAccessSpecs r ≠ [] →
  ¬ single_device r →
  Forall (λ spec, listOfPropertyReferences spec = reduced_property_list)
         (listOfReadAccessSpecs r) →
  last (requests self) = Some (ReadMultiple r) →
  (∀ a : Address,
     on_ReadMultipleResult on_ReadMultipleResponse (failed r a) self
     = (Return tt,
        set_requests
          (requests self ++
           [ReadMultiple {| listOfReadAccessSpecs := listOfReadAccessSpecs r;
                            rpm_pduDestination := a |}]) self))
  ∧ fail_repeatedly on_ReadMultipleResponse n self
    = (Return tt,
       set_requests (requests self ++ replicate n (ReadMultiple r)) self).
Proof.
  intros Hne Hnot Hreduced Hlast. split.
  - intros a. by apply failed_reduced_read_again.
  - by apply fail_repeatedly_reduced.
Qed.
End RetryFacts.

(** C1, counterexample. The read of two analog inputs fails and the
    reduced retry is issued; the reduced retry fails too, and the handler
    issues it once more instead of stopping. *)
Lemma reduced_retry_failure_not_terminal :
  on_ReadMultipleResult ignore_response
    (failed object_read "192.168.1.20") announced_handler
  = (Return tt, retrying_handler)
  ∧ last (requests retrying_handler) = Some (ReadMultiple reduced_retry)
  ∧ (on_ReadMultipleResult ignore_response
       (failed reduced_retry "192.168.1.20") retrying_handler).1 = Return tt
  ∧ requests
      (on_ReadMultipleResult ignore_response
         (failed reduced_retry "192.168.1.20") retrying_handler).2
    = requests retrying_handler ++ [ReadMultiple reduced_retry]
  ∧ requests
      (on_ReadMultipleResult ignore_response
         (failed reduced_retry "192.168.1.20") retrying_handler).2
    ≠ requests retrying_handler.
Proof.
  split_and!; try reflexivity.
  vm_compute. discriminate.
Qed.

Lemma reduced_retry_not_single_device : ¬ single_device reduced_retry.
Proof. intros (spec & Hspec & _). discriminate Hspec. Qed.

Lemma failed_retry_is_retried_witness :
  fail_repeatedly ignore_response 3 retrying_handler
  = (Return tt,
     set_requests
       (requests retrying_handler ++ replicate 3 (ReadMultiple reduced_retry))
       retrying_handler).
Proof.
  apply (failed_retry_is_retried ignore_response retrying_handler
           reduced_retry 3).
  - discriminate.
  - exact reduced_retry_not_single_device.
  - repeat constructor.
  - reflexivity.
Defined.

Lemma failed_device_read_retry_witness :
  on_ReadMultipleResult ignore_response
    (failed {| listOfReadAccessSpecs :=
                 [{| objectIdentifier := ("device", 100);
                     listOfPropertyReferences := device_property_list |}];
               rpm_pduDestination := "192.168.1.20" |} "192.168.1.20")
    announced_handler
  = (Return tt,
     set_requests
       (requests announced_handler ++
        [ReadMultiple
           {| listOfReadAccessSpecs :=
                [{| objectIdentifier := ("device", 100);
                    listOfPropertyReferences := device_property_list |}];
              rpm_pduDestination := "192.168.1.20" |}]) announced_handler).
Proof.
  apply (failed_device_read_retry ignore_response announced_handler
           (failed {| listOfReadAccessSpecs :=
                        [{| objectIdentifier := ("device", 100);
                            listOfPropertyReferences := device_property_list |}];
                      rpm_pduDestination := "192.168.1.20" |} "192.168.1.20")
           {| err_pduSource := "192.168.1.20" |}
           {| objectIdentifier := ("device", 100);
              listOfPropertyReferences := device_property_list |});
    reflexivity.
Defined.

Lemma object_read_not_single_device : ¬ single_device object_read.
Proof. intros (spec & Hspec & _). discriminate Hspec. Qed.

Lemma failed_object_read_retry_witness :
  ∃ r,
    on_ReadMultipleResult ignore_response
      (failed object_read "192.168.1.20") announced_handler
    = (Return tt,
       set_requests (requests announced_handler ++ [ReadMultiple r])
                    announced_handler)
    ∧ rpm_pduDestination r = "192.168.1.20"
    ∧ map objectIdentifier (listOfReadAccessSpecs r)
      = [("analogInput", 1); ("analogInput", 2)].
Proof.
  destruct (failed_object_read_retry ignore_response announced_handler
              (failed object_read "192.168.1.20")
              {| err_pduSource := "192.168.1.20" |}
              eq_refl
              ltac:(discriminate)
              object_read_not_single_device)
    as (r & Hrun & Hdest & Hobjects & _).
  exists r. split_and!; [exact Hrun | exact Hdest | exact Hobjects].
Defined.

(** C6, counterexample. A read without any object is not a read of a
    single device; when it fails, the test of the error branch reads the
    first of no specifications, the callback raises [IndexError] and no
    request is issued. *)
Lemma failed_empty_read_not_retried :
  listOfReadAccessSpecs empty_read = []
  ∧ ¬ single_device empty_read
  ∧ on_ReadMultipleResult ignore_response
      (failed empty_read "192.168.1.20") announced_handler
    = (Raise IndexError, announced_handler).
Proof.
  split_and!; [reflexivity | | reflexivity].
  intros (spec & Hspec & _). discriminate Hspec.
Qed.

(** ** Subscribing and unsubscribing *)

Section SubscribeFacts.
Context {Any Value : Type} `{!SetPop}.
Implicit Types (self : @Handler Any Value) (objectID : ObjectIdentifier).

(** [assign_id] always returns, and touches the id tables only. *)
Lemma assign_id_returns self (obj : SubscriptionKey) :
  ∃ i self', assign_id obj self = (Return i, self')
    ∧ requests self' = requests self
    ∧ responses self' = responses self
    ∧ BACnetDeviceDict self' = BACnetDeviceDict self
    ∧ updateEvent self' = updateEvent self
    ∧ object_to_id self' !! obj = Some i.
Proof.
  unfold assign_id.
  destruct (object_to_id self !! obj) as [i|] eqn:Hobj.
  - by exists i, self.
  - destruct (decide (available_ids self ≠ ∅)); eexists _, _;
      (split; [reflexivity |]); simpl; by rewrite lookup_insert_eq.
Qed.

(** [COVSubscribe] issues a [SubscribeCOVRequest] without lifetime for an
    identifier that [ObjectIdentifier] accepts. *)
Lemma COVSubscribe_issues_request (accepted : ObjectIdentifier → bool)
    self objectID (confirmationType : bool) (a : Address) :
  accepted objectID = true →
  ∃ i self',
    COVSubscribe accepted objectID confirmationType a self = (Return tt, self')
    ∧ requests self'
      = requests self ++
        [Subscribe
           {| subscriberProcessIdentifier := i;
              monitoredObjectIdentifier := objectID;
              issueConfirmedNotifications :=
                if confirmationType then Some "true" else None;
              lifetime := None;
              cov_pduDestination := a |}].
Proof.
  intros Hok.
  unfold COVSubscribe, try_except, mbind, Py_bind, reads, request_io, modify.
  destruct (assign_id_returns self (objectID, addr_to_dev_id self a))
    as (i & self1 & -> & Hreq & _).
  rewrite Hok. eexists i, _. split; [reflexivity |]. simpl. by rewrite Hreq.
Qed.

(** C2, what the code does. [COVUnsubscribe] gives the object a subscriber
    id and then calls [self.unsubscribe_id], which does not exist; the
    [AttributeError] is caught by [except Exception: pass], so the method
    returns before the request is handed to [request_io]. No request with
    lifetime 1, and no request at all, is issued; the id stays assigned. *)
Theorem COVUnsubscribe_issues_no_request self objectID
    (confirmationType : bool) (a : Address) :
  ∃ i self',
    COVUnsubscribe objectID confirmationType a self = (Return tt, self')
    ∧ requests self' = requests self
    ∧ object_to_id self' !! (objectID, addr_to_dev_id self a) = Some i.
Proof.
  unfold COVUnsubscribe, try_except, mbind, Py_bind, reads, unsubscribe_id,
    raise.
  destruct (assign_id_returns self (objectID, addr_to_dev_id self a))
    as (i & self1 & -> & Hreq & _ & _ & _ & Hid).
  by exists i, self1.
Qed.
End SubscribeFacts.

(** ** Decoding *)

Section DecodeFacts.
Context {Any Value : Type}.
Variable get_datatype : string → PropertyIdentifier → option Datatype.
Variable cast_out : Any → Datatype → Value.
Implicit Types (self : @Handler Any Value).

(** With a datatype the block under [# Array things] returns. *)
Lemma cast_property_returns (d : Datatype) (index : option Z) (value : Any) :
  ∃ v, cast_property cast_out (Some d) index value = Return v.
Proof.
  unfold cast_property.
  destruct d; simpl; try by eexists.
  destruct (bool_decide (index ≠ None)); simpl; [|by eexists].
  destruct (bool_decide (index = Some 0)); by eexists.
Qed.

(** Without a datatype it raises: [issubclass(None, Array)]. *)
Lemma cast_property_None (index : option Z) (value : Any) :
  cast_property cast_out None index value = Raise TypeError.
Proof. reflexivity. Qed.

(** The decoding of a read result returns whatever it is given. *)
Lemma read_properties_returns (object_type : string)
    (results : list (@ReadAccessResultElement Any)) :
  ∀ propertydict,
  ∃ d, read_properties get_datatype cast_out object_type results propertydict
       = Return d.
Proof.
  induction results as [|properties results IH]; intros propertydict; simpl.
  - by eexists.
  - destruct (get_datatype object_type (e_propertyIdentifier properties))
      as [d|]; [|apply IH].
    destruct (readResult properties) as [|any]; [apply IH |].
    destruct (cast_property_returns d (e_propertyArrayIndex properties) any)
      as [v ->].
    apply IH.
Qed.

(** A property without datatype is passed over by the read decoding: the
    result is the one of the list without it. *)
Lemma read_properties_skips (object_type : string)
    (before after : list (@ReadAccessResultElement Any))
    (properties : @ReadAccessResultElement Any) :
  get_datatype object_type (e_propertyIdentifier properties) = None →
  ∀ propertydict,
  read_properties get_datatype cast_out object_type
    (before ++ properties :: after) propertydict
  = read_properties get_datatype cast_out object_type
      (before ++ after) propertydict.
Proof.
  intros Hnone. induction before as [|e before IH]; intros propertydict; simpl.
  - by rewrite Hnone.
  - destruct (get_datatype object_type (e_propertyIdentifier e)); [|apply IH].
    destruct (readResult e) as [|any]; [apply IH |].
    destruct (cast_property _ _ _ _) as [v|]; [apply IH | done].
Qed.

Lemma return_value_read_multiple_returns (response : @ReadPropertyMultipleACK Any) :
  ∃ objectdict,
    return_value_read_multiple get_datatype cast_out response
    = Return objectdict.
Proof.
  unfold return_value_read_multiple.
  generalize (∅ : gmap ObjectIdentifier (gmap PropertyIdentifier Value)).
  induction (listOfReadAccessResults response) as [|objects results IH];
    intros objectdict; simpl.
  - by eexists.
  - destruct (read_properties_returns (r_objectIdentifier objects).1
                (listOfResults objects) ∅) as [d ->].
    apply IH.
Qed.

(** The read of one property raises for a property without datatype, and
    the [try] of [on_ReadResult] catches it: the callback returns and the
    handler is as before. *)
Lemma on_ReadPropertyACK_unknown_datatype
    (on_ReadResult_store :
       @ReadPropertyACK Any → gmap PropertyIdentifier Value
       → Py (@Handler Any Value) unit)
    (response : @ReadPropertyACK Any) self :
  get_datatype (a_objectIdentifier response).1 (a_propertyIdentifier response)
    = None →
  on_ReadPropertyACK get_datatype cast_out on_ReadResult_store response self
  = (Return tt, self).
Proof.
  intros Hnone.
  unfold on_ReadPropertyACK, try_except, mbind, Py_bind, lift,
    return_value_read.
  by rewrite Hnone.
Qed.

(** The loop of the COV callbacks raises at the first property without
    datatype. *)
Lemma cov_property_dict_unknown (object_type : string)
    (before after : list (@ListValue Any)) (listvalue : @ListValue Any) :
  get_datatype object_type (lv_propertyIdentifier listvalue) = None →
  Forall (λ lv, get_datatype object_type (lv_propertyIdentifier lv) ≠ None)
         before →
  ∀ property_dict,
  cov_property_dict get_datatype cast_out object_type
    (before ++ listvalue :: after) property_dict
  = Raise TypeError.
Proof.
  intros Hnone Hbefore.
  induction Hbefore as [|lv before Hlv _ IH]; intros property_dict; simpl.
  - by rewrite Hnone.
  - destruct (get_datatype object_type (lv_propertyIdentifier lv)) as [d|];
      [|done].
    destruct (cast_property_returns d (lv_propertyArrayIndex lv) (lv_value lv))
      as [v ->].
    simpl. apply IH.
Qed.
End DecodeFacts.

(** C8, where the code fails. Device 100 is in the registry and notifies
    a present value together with a property that has no datatype. Both
    COV callbacks raise [TypeError] at that property: nothing is merged,
    not even the present value, and the confirmed notification gets no
    acknowledgement. The read decoding of the same two properties returns
    and keeps the present value. *)
Theorem cov_unknown_datatype_raises :
  do_ConfirmedCOVNotificationRequest datatype_table keep_value
    notification announced_handler
  = (Raise TypeError, announced_handler)
  ∧ do_UnconfirmedCOVNotificationRequest datatype_table keep_value
      notification announced_handler
    = (Raise TypeError, announced_handler)
  ∧ return_value_read_multiple datatype_table keep_value read_result
    = Return {[ ("analogInput", 1) := {[ "presentValue" := 21 ]} ]}.
Proof.
  split_and!.
  - reflexivity.
  - reflexivity.
  - unfold return_value_read_multiple. simpl.
    by rewrite insert_empty.
Qed.

(** C2 on an example: unsubscribing analog input 1 of the announced
    device issues nothing, where subscribing issues the request. *)
Lemma COVUnsubscribe_example :
  requests (COVUnsubscribe (H := pop_least) ("analogInput", 1) true
              "192.168.1.20" announced_handler).2
  = requests announced_handler
  ∧ requests (COVSubscribe (H := pop_least) in_range ("analogInput", 1) true
                "192.168.1.20" announced_handler).2
    = requests announced_handler ++
      [Subscribe
         {| subscriberProcessIdentifier := 1;
            monitoredObjectIdentifier := ("analogInput", 1);
            issueConfirmedNotifications := Some "true";
            lifetime := None;
            cov_pduDestination := "192.168.1.20" |}].
Proof. split; vm_compute; reflexivity. Qed.

(** * Further properties *)

(** ** The id allocator, continued *)

Section AllocatorMore.
Context {Any Value : Type}.
Implicit Types (self : @Handler Any Value) (obj : SubscriptionKey).

(** X1. [assign_id] is idempotent: a second call for the same key returns
    the id of the first and changes nothing, whatever [set.pop()] would
    choose in either call. *)
Theorem assign_id_twice (pop1 pop2 : SetPop) self obj :
  ∃ i self',
    assign_id (H := pop1) obj self = (Return i, self')
    ∧ assign_id (H := pop2) obj self' = (Return i, self').
Proof.
  destruct (assign_id_returns (H := pop1) self obj)
    as (i & self' & Hrun & _ & _ & _ & _ & Hid).
  exists i, self'. split; [done |].
  unfold assign_id. by rewrite Hid.
Qed.

(** X2. Assigning an id to a key that has none and unassigning it again
    puts both dictionaries back as they were; the id ends up in the pool,
    and the counter has moved by one exactly when the id came from it. *)
Theorem assign_then_unassign (pop : SetPop) self obj :
  ids_consistent self →
  object_to_id self !! obj = None →
  ∃ i self1 self2,
    assign_id (H := pop) obj self = (Return i, self1)
    ∧ unassign_id obj self1 = (Return tt, self2)
    ∧ object_to_id self2 = object_to_id self
    ∧ id_to_object self2 = id_to_object self
    ∧ available_ids self2 = {[i]} ∪ available_ids self
    ∧ (if decide (available_ids self ≠ ∅)
       then i ∈ available_ids self ∧ next_id self2 = next_id self
       else i = next_id self ∧ next_id self2 = next_id self + 1).
Proof.
  intros [Hinv Huse Hpool Hfree Hpos] Hobj.
  unfold assign_id. rewrite Hobj.
  destruct (decide (available_ids self ≠ ∅)) as [Hne|Hempty].
  - pose proof (set_pop_elem_of _ Hne) as Hin.
    eexists _, _, _. split; [reflexivity |].
    unfold unassign_id. simpl. rewrite !lookup_insert_eq. simpl.
    split; [reflexivity |]. simpl.
    rewrite !delete_insert_id by (done || by apply Hfree).
    split_and!; try done.
    apply set_eq. intros j.
    rewrite !elem_of_union, elem_of_difference, !elem_of_singleton. split.
    + intros [?|[? _]]; [by left | by right].
    + intros [?|?]; [by left |].
      destruct (decide (j = set_pop (available_ids self))); [by left |].
      by right.
  - assert (Hnext : id_to_object self !! next_id self = None).
    { destruct (id_to_object self !! next_id self) as [o|] eqn:E; [|done].
      apply Hinv, Huse in E. lia. }
    eexists _, _, _. split; [reflexivity |].
    unfold unassign_id. simpl. rewrite !lookup_insert_eq. simpl.
    split; [reflexivity |]. simpl.
    by rewrite !delete_insert_id.
Qed.

(** X3. With an empty pool, the id given up by [unassign_id] is the one
    the next [assign_id] for a key without id returns, whatever
    [set.pop()] would choose; the pool is empty again and the counter has
    not moved. *)
Theorem unassigned_id_is_reused (pop : SetPop) self obj obj' (i : Z) :
  ids_consistent self →
  available_ids self = ∅ →
  object_to_id self !! obj = Some i →
  obj' = obj ∨ object_to_id self !! obj' = None →
  ∃ self1 self2,
    unassign_id obj self = (Return tt, self1)
    ∧ assign_id (H := pop) obj' self1 = (Return i, self2)
    ∧ available_ids self2 = ∅
    ∧ next_id self2 = next_id self.
Proof.
  intros [Hinv Huse Hpool Hfree Hpos] Hempty Hobj Hfresh.
  pose proof Hobj as Hi. apply Hinv in Hi.
  unfold unassign_id. rewrite Hobj, Hi.
  eexists _, _. split; [reflexivity |].
  unfold assign_id. simpl.
  assert (delete obj (object_to_id self) !! obj' = None) as ->.
  { destruct Hfresh as [->|Hnone]; [apply lookup_delete_eq |].
    rewrite lookup_delete_ne; [done | congruence]. }
  rewrite Hempty, (right_id_L ∅ (∪)).
  assert (Hne : ({[i]} : gset Z) ≠ ∅).
  { intros Heq. apply (not_elem_of_empty (C := gset Z) i).
    rewrite <- Heq. by apply elem_of_singleton. }
  rewrite decide_True by done.
  pose proof (set_pop_elem_of _ Hne) as Hin.
  apply elem_of_singleton in Hin. rewrite Hin. simpl.
  split_and!; [done | | done].
  simpl. apply set_eq. intros j. rewrite elem_of_difference.
  split; [by intros [? ?] | by intros ?%not_elem_of_empty].
Qed.
End AllocatorMore.

Lemma assign_then_unassign_witness :
  ∃ i (self1 self2 : @Handler Z Z),
    assign_id (H := pop_least) key_c reclaimed_handler = (Return i, self1)
    ∧ unassign_id key_c self1 = (Return tt, self2)
    ∧ object_to_id self2 = object_to_id reclaimed_handler
    ∧ id_to_object self2 = id_to_object reclaimed_handler
    ∧ available_ids self2 = {[i]} ∪ available_ids reclaimed_handler.
Proof.
  destruct (assign_then_unassign pop_least reclaimed_handler key_c)
    as (i & self1 & self2 & H1 & H2 & H3 & H4 & H5 & _).
  - destruct (run_calls_consistent
                [Assign pop_least key_a; Assign pop_least key_b;
                 Unassign key_a; Unassign key_b]
                (@new_handler Z Z) new_handler_ids_consistent)
      as (ids & self & Hrun & Hcons & _).
    unfold reclaimed_handler. by rewrite Hrun.
  - vm_compute. reflexivity.
  - exists i, self1, self2. split_and!; assumption.
Defined.

Lemma one_assigned_handler_consistent : ids_consistent one_assigned_handler.
Proof.
  destruct (run_calls_consistent [Assign pop_least key_a]
              (@new_handler Z Z) new_handler_ids_consistent)
    as (ids & self & Hrun & Hcons & _).
  unfold one_assigned_handler. by rewrite Hrun.
Qed.

Lemma unassigned_id_is_reused_witness :
  ∃ self1 self2 : @Handler Z Z,
    unassign_id key_a one_assigned_handler = (Return tt, self1)
    ∧ assign_id (H := pop_least) key_b self1 = (Return 1, self2)
    ∧ available_ids self2 = ∅
    ∧ next_id self2 = next_id one_assigned_handler.
Proof.
  apply (unassigned_id_is_reused pop_least one_assigned_handler key_a key_b 1).
  - exact one_assigned_handler_consistent.
  - vm_compute. reflexivity.
  - vm_compute. reflexivity.
  - right. vm_compute. reflexivity.
Defined.

Section AllocatorAccounting.
Context {Any Value : Type}.
Implicit Types (self : @Handler Any Value) (obj : SubscriptionKey).

Lemma new_handler_ids_accounted : ids_accounted (@new_handler Any Value).
Proof. intros i. simpl. lia. Qed.

Lemma assign_id_accounted (pop : SetPop) self obj :
  ids_accounted self →
  ∃ i self', assign_id (H := pop) obj self = (Return i, self')
    ∧ ids_accounted self'
    ∧ next_id self ≤ next_id self' ≤ next_id self + 1.
Proof.
  intros Hacc. unfold assign_id.
  destruct (object_to_id self !! obj) as [i|] eqn:Hobj.
  { exists i, self. split_and!; [done | done | lia | lia]. }
  destruct (decide (available_ids self ≠ ∅)) as [Hne|Hempty];
    eexists _, _; (split; [reflexivity |]); simpl; (split; [|lia]).
  - intros j Hj. simpl in *.
    destruct (decide (j = set_pop (available_ids self))) as [->|Hneq].
    + left. by rewrite lookup_insert_eq.
    + rewrite lookup_insert_ne by done.
      destruct (Hacc j Hj) as [?|?]; [by left | right].
      apply elem_of_difference. split; [done |].
      by rewrite elem_of_singleton.
  - intros j Hj. simpl in *.
    destruct (decide (j = next_id self)) as [->|Hneq].
    + left. by rewrite lookup_insert_eq.
    + rewrite lookup_insert_ne by done. apply Hacc. lia.
Qed.

Lemma unassign_id_accounted self obj :
  ids_consistent self →
  ids_accounted self →
  ∃ self', unassign_id obj self = (Return tt, self')
    ∧ ids_accounted self' ∧ next_id self' = next_id self.
Proof.
  intros [Hinv _ _ _ _] Hacc. unfold unassign_id.
  destruct (object_to_id self !! obj) as [i|] eqn:Hobj; [|by eexists].
  pose proof Hobj as Hi. apply Hinv in Hi. rewrite Hi.
  eexists. split; [reflexivity |]. simpl. split; [|done].
  intros j Hj. simpl in *.
  destruct (decide (j = i)) as [->|Hneq].
  - right. apply elem_of_union. left. by apply elem_of_singleton.
  - rewrite lookup_delete_ne by done.
    destruct (Hacc j Hj) as [?|?]; [by left | right].
    apply elem_of_union. by right.
Qed.

Lemma run_calls_accounted calls : ∀ self (k : Z),
  ids_consistent self →
  ids_accounted self →
  next_id self - 1 ≤ k →
  ∃ ids self', run_calls calls self = (Return ids, self')
    ∧ ids_consistent self' ∧ ids_accounted self'
    ∧ next_id self' - 1 ≤ k + Z.of_nat (length ids)
    ∧ Forall (λ i, i ≤ k + Z.of_nat (length ids)) ids.
Proof.
  induction calls as [|[pop obj|obj] calls IH]; intros self k Hcons Hacc Hk;
    simpl.
  - exists [], self. simpl. split_and!; [done | done | done | lia | constructor].
  - destruct (assign_id_consistent (H := pop) self obj Hcons)
      as (i & self1 & Hrun & Hcons1 & _ & Hid).
    destruct (assign_id_accounted pop self obj Hacc)
      as (i' & self1' & Hrun' & Hacc1 & Hnext).
    rewrite Hrun in Hrun'. injection Hrun' as <- <-.
    assert (Hi : i < next_id self1)
      by (destruct Hcons1 as [_ Huse _ _ _]; by apply (Huse obj)).
    destruct (IH self1 (k + 1) Hcons1 Hacc1 ltac:(lia))
      as (ids & self2 & Hrest & Hcons2 & Hacc2 & Hnext2 & Hids).
    exists (i :: ids), self2. unfold mbind, Py_bind at 1.
    rewrite Hrun. unfold mbind, Py_bind at 1. rewrite Hrest.
    simpl length.
    split_and!; [done | done | done | lia |].
    constructor; [lia |].
    eapply Forall_impl; [exact Hids |]. simpl. intros; lia.
  - destruct (unassign_id_consistent self obj Hcons)
      as (self1 & Hrun & Hcons1).
    destruct (unassign_id_accounted self obj Hcons Hacc)
      as (self1' & Hrun' & Hacc1 & Hnext).
    rewrite Hrun in Hrun'. injection Hrun' as <-.
    destruct (IH self1 k Hcons1 Hacc1 ltac:(lia))
      as (ids & self2 & Hrest & Hcons2 & Hacc2 & Hnext2 & Hids).
    exists ids, self2. unfold mbind, Py_bind at 1. by rewrite Hrun.
Qed.

(** X4. No id is lost and ids stay small. After any sequence of
    [assign_id] and [unassign_id] calls on empty tables, the ids from 1 up
    to [next_id - 1] are exactly those in use or in the pool (never both),
    and neither the counter nor any id returned exceeds the number of
    [assign_id] calls made. *)
Theorem ids_accounted_and_bounded (calls : list Call) :
  ∃ ids (self : @Handler Any Value),
    run_calls calls new_handler = (Return ids, self)
    ∧ (∀ i, 1 ≤ i < next_id self ↔
            is_Some (id_to_object self !! i) ∨ i ∈ available_ids self)
    ∧ (∀ i, i ∈ available_ids self → id_to_object self !! i = None)
    ∧ next_id self - 1 ≤ Z.of_nat (length ids)
    ∧ Forall (λ i, i ≤ Z.of_nat (length ids)) ids.
Proof.
  destruct (run_calls_accounted calls new_handler 0
              new_handler_ids_consistent new_handler_ids_accounted)
    as (ids & self & Hrun & [Hinv Huse Hpool Hfree Hpos] & Hacc & Hnext & Hids);
    [simpl; lia |].
  exists ids, self. split_and!; [done | | done | lia |].
  - intros i. split; [apply Hacc |].
    intros [[obj Hi]|Hi]; [|by apply Hpool].
    apply Hinv in Hi. by apply (Huse obj).
  - eapply Forall_impl; [exact Hids |]. simpl. intros; lia.
Qed.
End AllocatorAccounting.

(** ** The registry, continued *)

Section PyDictMore.
Context {K V : Type} `{EqDecision K}.
Implicit Types (d : list (K * V)) (k : K) (v : V).

Lemma PyDict_keys_set_present d k v :
  is_Some (PyDict.get d k) → PyDict.keys (PyDict.set d k v) = PyDict.keys d.
Proof.
  unfold PyDict.keys. induction d as [|[k0 v0] d IH]; simpl.
  - by intros [? ?].
  - destruct (decide (k0 = k)) as [->|Hne]; simpl; [done |].
    intros H'. f_equal. by apply IH.
Qed.

Lemma PyDict_set_absent d k v :
  PyDict.get d k = None → PyDict.set d k v = d ++ [(k, v)].
Proof.
  induction d as [|[k0 v0] d IH]; simpl; [done |].
  destruct (decide (k0 = k)); [done |]. intros H'. by rewrite IH.
Qed.

Lemma PyDict_get_elem_of d k v : PyDict.get d k = Some v → (k, v) ∈ d.
Proof.
  induction d as [|[k0 v0] d IH]; simpl; [done |].
  destruct (decide (k0 = k)) as [->|Hne].
  - intros [= ->]. apply list_elem_of_here.
  - intros Hget. by apply list_elem_of_further, IH.
Qed.

Lemma PyDict_elem_of_get d k v :
  NoDup (PyDict.keys d) → (k, v) ∈ d → PyDict.get d k = Some v.
Proof.
  unfold PyDict.keys. induction d as [|[k0 v0] d IH]; simpl.
  - by intros _ ?%elem_of_nil.
  - intros [Hnotin Hnodup]%NoDup_cons [Heq|Hin]%elem_of_cons.
    + injection Heq as -> ->. by rewrite decide_True.
    + destruct (decide (k0 = k)) as [->|Hne]; [|by apply IH].
      exfalso. apply Hnotin. apply list_elem_of_fmap. by exists (k, v).
Qed.
End PyDictMore.

Section RegistryMore.
Context {Any Value : Type}.
Implicit Types (self : @Handler Any Value).
Implicit Types (objectID deviceID : ObjectIdentifier).
Implicit Types (new_val : gmap PropertyIdentifier Value).

(** [update_object] always returns, with the merge done when the device
    is in the registry. *)
Lemma update_object_merged self objectID deviceID new_val :
  update_object objectID deviceID new_val self
  = (Return tt, merged_handler objectID deviceID new_val self).
Proof.
  destruct (PyDict.get (BACnetDeviceDict self) deviceID) as [device|] eqn:Hdev.
  - apply update_object_known. by eexists.
  - rewrite update_object_unknown by done.
    unfold merged_handler. by rewrite Hdev.
Qed.

(** X5. What [update_object] does for a device of the registry: it
    returns; in the object named, each key of [new_val] has the new value
    and every other key keeps its own, the object being created when it
    was absent; the change signal is set. The device keeps its address and
    identifier, every device keeps its address, the order of the registry
    is as before, and so are the id tables and what was sent. *)
Theorem update_object_merges self objectID deviceID new_val
    (device : @Device Value) :
  PyDict.get (BACnetDeviceDict self) deviceID = Some device →
  ∃ self' device' properties,
    update_object objectID deviceID new_val self = (Return tt, self')
    ∧ PyDict.get (BACnetDeviceDict self') deviceID = Some device'
    ∧ objects device' !! objectID = Some properties
    ∧ (∀ k, properties !! k
            = match new_val !! k with
              | Some v => Some v
              | None => default ∅ (objects device !! objectID) !! k
              end)
    ∧ address device' = address device
    ∧ deviceIdentifier device' = deviceIdentifier device
    ∧ (∀ d, dev_id_to_addr self' d = dev_id_to_addr self d)
    ∧ PyDict.keys (BACnetDeviceDict self') = PyDict.keys (BACnetDeviceDict self)
    ∧ updateEvent self' = true
    ∧ id_to_object self' = id_to_object self
    ∧ object_to_id self' = object_to_id self
    ∧ available_ids self' = available_ids self
    ∧ next_id self' = next_id self
    ∧ requests self' = requests self
    ∧ responses self' = responses self.
Proof.
  intros Hdev. rewrite update_object_merged.
  unfold merged_handler. rewrite Hdev.
  eexists _, _, _. split; [reflexivity |]. simpl.
  rewrite PyDict_get_set_eq. split; [reflexivity |]. simpl.
  rewrite lookup_insert_eq. split; [reflexivity |].
  split_and!; try done.
  - intros k. rewrite lookup_union. by destruct (new_val !! k), (_ !! k).
  - intros d. unfold dev_id_to_addr. simpl.
    destruct (decide (deviceID = d)) as [<-|Hne].
    + by rewrite PyDict_get_set_eq, Hdev.
    + by rewrite PyDict_get_set_ne.
  - apply PyDict_keys_set_present. by eexists.
Qed.

(** X6. Merging the same dictionary twice is merging it once, for a
    device of the registry or not. *)
Theorem update_object_idempotent self objectID deviceID new_val :
  (update_object objectID deviceID new_val;;
   update_object objectID deviceID new_val) self
  = update_object objectID deviceID new_val self.
Proof.
  unfold mbind at 1, Py_bind at 1.
  rewrite !update_object_merged. by rewrite merged_handler_idemp.
Qed.

Lemma first_with_address_Some (items : list (ObjectIdentifier * @Device Value))
    (a : Address) deviceID :
  first_with_address items a = Some deviceID →
  ∃ device, (deviceID, device) ∈ items ∧ address device = a.
Proof.
  induction items as [|[k v] items IH]; simpl; [done |].
  destruct (decide (address v = a)) as [Ha|Ha].
  - intros [= ->]. exists v. split; [apply list_elem_of_here | done].
  - intros (device & Hin & Haddr)%IH. exists device.
    split; [by apply list_elem_of_further | done].
Qed.

Lemma first_with_address_None (items : list (ObjectIdentifier * @Device Value))
    (a : Address) :
  first_with_address items a = None ↔
  ∀ deviceID device, (deviceID, device) ∈ items → address device ≠ a.
Proof.
  induction items as [|[k v] items IH]; simpl.
  - split; [by intros _ ? ? ?%elem_of_nil | done].
  - destruct (decide (address v = a)) as [Ha|Ha].
    + split; [done |]. intros Hall. exfalso.
      apply (Hall k v); [apply list_elem_of_here | done].
    + rewrite IH. split.
      * intros Hall d dev [[= -> ->]|Hin]%elem_of_cons; [done |].
        by apply (Hall d dev).
      * intros Hall d dev Hin. apply (Hall d dev).
        by apply list_elem_of_further.
Qed.

(** X7. The two lookups of the registry agree. The device that
    [addr_to_dev_id] finds for an address has that address by
    [dev_id_to_addr], and [addr_to_dev_id] finds no device exactly when no
    device of the registry has the address. *)
Theorem addr_to_dev_id_sound self (a : Address) :
  NoDup (PyDict.keys (BACnetDeviceDict self)) →
  (∀ deviceID, addr_to_dev_id self a = Some deviceID →
               dev_id_to_addr self deviceID = Some a)
  ∧ (addr_to_dev_id self a = None ↔
     ∀ deviceID, dev_id_to_addr self deviceID ≠ Some a).
Proof.
  intros Hnodup. unfold addr_to_dev_id, dev_id_to_addr.
  assert (Hsome : ∀ deviceID,
            first_with_address (BACnetDeviceDict self) a = Some deviceID →
            address <$> PyDict.get (BACnetDeviceDict self) deviceID = Some a).
  { intros deviceID (device & Hin & Haddr)%first_with_address_Some.
    rewrite (PyDict_elem_of_get _ _ _ Hnodup Hin). simpl. by rewrite Haddr. }
  split; [exact Hsome |]. split.
  - intros Hnone deviceID Hget.
    destruct (PyDict.get (BACnetDeviceDict self) deviceID) as [device|] eqn:E;
      [|done].
    injection Hget as Haddr.
    apply PyDict_get_elem_of in E.
    by apply (proj1 (first_with_address_None _ a) Hnone deviceID device).
  - intros Hall.
    destruct (first_with_address (BACnetDeviceDict self) a) as [d|] eqn:E;
      [|done].
    exfalso. by apply (Hall d), Hsome.
Qed.

Lemma first_with_address_app (items : list (ObjectIdentifier * @Device Value))
    deviceID (device : @Device Value) (a : Address) :
  first_with_address (items ++ [(deviceID, device)]) a
  = match first_with_address items a with
    | Some d => Some d
    | None => if decide (address device = a) then Some deviceID else None
    end.
Proof.
  induction items as [|[k v] items IH]; simpl; [done |].
  by destruct (decide (address v = a)).
Qed.

(** The announcement of a device the registry does not have *)
Lemma do_IAmRequest_unknown self (apdu : IAmRequest) :
  PyDict.get (BACnetDeviceDict self) (iAmDeviceIdentifier apdu) = None →
  do_IAmRequest apdu self
  = (Return tt,
     set_requests
       (requests self ++
        [ReadMultiple
           {| listOfReadAccessSpecs :=
                [{| objectIdentifier := iAmDeviceIdentifier apdu;
                    listOfPropertyReferences := device_property_list |}];
              rpm_pduDestination := iam_pduSource apdu |}])
       (set_BACnetDeviceDict
          (BACnetDeviceDict self ++
           [(iAmDeviceIdentifier apdu,
             {| address := iam_pduSource apdu;
                deviceIdentifier := iAmDeviceIdentifier apdu;
                objects := ∅ |})]) self)).
Proof.
  intros Hnone.
  unfold do_IAmRequest, mbind, Py_bind, reads, PyDict.contains.
  rewrite bool_decide_eq_false_2 by (rewrite Hnone; by intros [? ?]).
  simpl. by rewrite PyDict_set_absent.
Qed.

(** The announcement of a device the registry has *)
Lemma do_IAmRequest_known self (apdu : IAmRequest) :
  is_Some (PyDict.get (BACnetDeviceDict self) (iAmDeviceIdentifier apdu)) →
  do_IAmRequest apdu self = (Return tt, self).
Proof.
  intros Hsome.
  unfold do_IAmRequest, mbind, Py_bind, reads, PyDict.contains.
  by rewrite bool_decide_eq_true_2.
Qed.

Lemma PyDict_get_app_absent {K V : Type} `{EqDecision K}
    (d : list (K * V)) (k k' : K) (v : V) :
  PyDict.get (d ++ [(k, v)]) k'
  = match PyDict.get d k' with
    | Some v' => Some v'
    | None => if decide (k = k') then Some v else None
    end.
Proof.
  induction d as [|[k0 v0] d IH]; simpl; [done |].
  by destruct (decide (k0 = k')).
Qed.

(** X8. After the announcement of a new device its address is the
    announcing one, but an address resolves to the device that was
    registered with it first: if an earlier device has the announcing
    address, [addr_to_dev_id] keeps answering with the earlier device. *)
Theorem do_IAmRequest_address_resolution self (apdu : IAmRequest) :
  PyDict.get (BACnetDeviceDict self) (iAmDeviceIdentifier apdu) = None →
  ∃ self',
    do_IAmRequest apdu self = (Return tt, self')
    ∧ dev_id_to_addr self' (iAmDeviceIdentifier apdu)
      = Some (iam_pduSource apdu)
    ∧ (∀ deviceID, deviceID ≠ iAmDeviceIdentifier apdu →
         dev_id_to_addr self' deviceID = dev_id_to_addr self deviceID)
    ∧ ∀ a : Address,
        addr_to_dev_id self' a
        = match addr_to_dev_id self a with
          | Some d => Some d
          | None => if decide (iam_pduSource apdu = a)
                    then Some (iAmDeviceIdentifier apdu) else None
          end.
Proof.
  intros Hnone. eexists. split; [by apply do_IAmRequest_unknown |].
  unfold dev_id_to_addr, addr_to_dev_id. simpl.
  split_and!.
  - by rewrite PyDict_get_app_absent, Hnone, decide_True.
  - intros d Hd. rewrite PyDict_get_app_absent.
    destruct (PyDict.get (BACnetDeviceDict self) d); [done |].
    by rewrite decide_False.
  - intros a. apply first_with_address_app.
Qed.
End RegistryMore.

(** ** COV notifications and decoding, continued *)

Section DecodeMore.
Context {Any Value : Type}.
Variable get_datatype : string → PropertyIdentifier → option Datatype.
Variable cast_out : Any → Datatype → Value.
Implicit Types (self : @Handler Any Value).
Implicit Types (apdu : @COVNotificationRequest Any).



Lemma cov_property_dict_undecodable (object_type : string)
    (values : list (@ListValue Any)) :
  Exists (λ lv, get_datatype object_type (lv_propertyIdentifier lv) = None)
         values →
  ∀ property_dict,
  cov_property_dict get_datatype cast_out object_type values property_dict
  = Raise TypeError.
Proof.
  induction values as [|lv values IH]; intros Hex property_dict;
    [by apply Exists_nil in Hex |].
  simpl.
  destruct (get_datatype object_type (lv_propertyIdentifier lv)) as [dt|] eqn:E;
    [|done].
  destruct (cast_property_returns cast_out dt (lv_propertyArrayIndex lv)
              (lv_value lv)) as [v ->].
  simpl. apply IH.
  apply Exists_cons in Hex as [Hhead|Htail]; [congruence | done].
Qed.

Lemma merged_handler_frame self (objectID deviceID : ObjectIdentifier)
    (new_val : gmap PropertyIdentifier Value) :
  requests (merged_handler objectID deviceID new_val self) = requests self
  ∧ responses (merged_handler objectID deviceID new_val self) = responses self
  ∧ id_to_object (merged_handler objectID deviceID new_val self)
    = id_to_object self
  ∧ object_to_id (merged_handler objectID deviceID new_val self)
    = object_to_id self
  ∧ available_ids (merged_handler objectID deviceID new_val self)
    = available_ids self
  ∧ next_id (merged_handler objectID deviceID new_val self) = next_id self.
Proof.
  unfold merged_handler.
  by destruct (PyDict.get (BACnetDeviceDict self) deviceID).
Qed.


(** X10. A notification with a property that has no datatype is dropped
    whole: both callbacks raise [TypeError] and leave the handler as it
    was, so the properties that could be decoded are not merged either
    and a confirmed notification gets no response. *)
Theorem cov_notification_dropped self apdu :
  Exists (λ lv, get_datatype (n_monitoredObjectIdentifier apdu).1
                             (lv_propertyIdentifier lv) = None)
         (listOfValues apdu) →
  do_ConfirmedCOVNotificationRequest get_datatype cast_out apdu self
  = (Raise TypeError, self)
  ∧ do_UnconfirmedCOVNotificationRequest get_datatype cast_out apdu self
    = (Raise TypeError, self).
Proof.
  intros Hex.
  unfold do_ConfirmedCOVNotificationRequest,
    do_UnconfirmedCOVNotificationRequest, lift.
  split; unfold mbind at 1, Py_bind at 1;
    by rewrite cov_property_dict_undecodable.
Qed.

Lemma cov_property_dict_exn (object_type : string)
    (values : list (@ListValue Any)) (e : Exn) :
  ∀ property_dict,
  cov_property_dict get_datatype cast_out object_type values property_dict
  = Raise e →
  e = TypeError.
Proof.
  induction values as [|lv values IH]; intros property_dict; simpl; [done |].
  destruct (get_datatype object_type (lv_propertyIdentifier lv)) as [dt|];
    [|by intros [= <-]].
  destruct (cast_property_returns cast_out dt (lv_propertyArrayIndex lv)
              (lv_value lv)) as [v ->].
  simpl. apply IH.
Qed.

(** X11. What the COV callbacks never do. Whatever the notification, no
    request is issued and the id tables are untouched; the unconfirmed
    callback sends no response, and the confirmed one sends nothing or the
    simple acknowledgement of the notification, never a reject or an
    abort. It acknowledges exactly when it returns. *)
Theorem cov_callbacks_send_no_more self apdu :
  let confirmed :=
    do_ConfirmedCOVNotificationRequest get_datatype cast_out apdu self in
  let unconfirmed :=
    do_UnconfirmedCOVNotificationRequest get_datatype cast_out apdu self in
  requests confirmed.2 = requests self
  ∧ requests unconfirmed.2 = requests self
  ∧ responses unconfirmed.2 = responses self
  ∧ object_to_id confirmed.2 = object_to_id self
  ∧ object_to_id unconfirmed.2 = object_to_id self
  ∧ available_ids confirmed.2 = available_ids self
  ∧ available_ids unconfirmed.2 = available_ids self
  ∧ ((confirmed.1 = Return tt
      ∧ responses confirmed.2 = responses self ++ [SimpleAckPDU apdu])
     ∨ (confirmed.1 = Raise TypeError
        ∧ responses confirmed.2 = responses self)).
Proof.
  simpl.
  unfold do_ConfirmedCOVNotificationRequest,
    do_UnconfirmedCOVNotificationRequest, lift.
  unfold mbind at 1 3 4 5 7 8 9 11 12 13 15, Py_bind.
  destruct (cov_property_dict _ _ _ _ _) as [d|e] eqn:Hd.
  - unfold mbind, Py_bind. rewrite !update_object_merged. simpl.
    destruct (merged_handler_frame self (n_monitoredObjectIdentifier apdu)
                (n_initiatingDeviceIdentifier apdu) d)
      as (Hreq & Hresp & _ & Ho & Ha & _).
    split_and!; try done. left. by rewrite Hresp.
  - apply cov_property_dict_exn in Hd as ->. simpl.
    split_and!; try done. by right.
Qed.
End DecodeMore.

Section ReadDecodeMore.
Context {Any Value : Type}.
Variable get_datatype : string → PropertyIdentifier → option Datatype.
Variable cast_out : Any → Datatype → Value.

(** A result element that the read decoding stores: it has a datatype and
    carries a value, not an access error. *)
Definition stored_element (object_type : string)
    (e : @ReadAccessResultElement Any) : Prop :=
  get_datatype object_type (e_propertyIdentifier e) ≠ None
  ∧ ∃ any, readResult e = propertyValue any.

Lemma read_properties_keys (object_type : string)
    (results : list (@ReadAccessResultElement Any)) :
  ∀ propertydict,
  ∃ d, read_properties get_datatype cast_out object_type results propertydict
       = Return d
       ∧ ∀ k, is_Some (d !! k) ↔
              is_Some (propertydict !! k)
              ∨ ∃ e, e ∈ results ∧ e_propertyIdentifier e = k
                     ∧ stored_element object_type e.
Proof.
  induction results as [|e results IH]; intros propertydict; simpl.
  - exists propertydict. split; [done |]. intros k. split; [by left |].
    intros [?|(e & []%elem_of_nil & _)]; done.
  - destruct (get_datatype object_type (e_propertyIdentifier e)) as [dt|] eqn:Hdt.
    + destruct (readResult e) as [|any] eqn:Hres.
      * destruct (IH propertydict) as (d & -> & Hkeys). exists d.
        split; [done |]. intros k. rewrite Hkeys. split.
        -- intros [?|(e' & Hin & Hk & Hst)]; [by left | right].
           exists e'. split; [by apply list_elem_of_further | done].
        -- intros [?|(e' & [->|Hin]%elem_of_cons & Hk & Hst)]; [by left | |].
           ++ destruct Hst as (_ & any & Hany). congruence.
           ++ right. by exists e'.
      * destruct (cast_property_returns cast_out dt (e_propertyArrayIndex e) any)
          as [v ->].
        simpl.
        destruct (IH (<[e_propertyIdentifier e := v]> propertydict))
          as (d & -> & Hkeys).
        exists d. split; [done |]. intros k. rewrite Hkeys. split.
        -- intros [Hk|(e' & Hin & Hk & Hst)].
           ++ destruct (decide (e_propertyIdentifier e = k)) as [<-|Hne].
              ** right. exists e. split; [apply list_elem_of_here |].
                 split; [done |]. split; [congruence | by exists any].
              ** left. by rewrite lookup_insert_ne in Hk.
           ++ right. exists e'. split; [by apply list_elem_of_further | done].
        -- intros [Hk|(e' & [->|Hin]%elem_of_cons & Hk & Hst)].
           ++ left. destruct (decide (e_propertyIdentifier e = k)) as [<-|Hne].
              ** by rewrite lookup_insert_eq.
              ** by rewrite lookup_insert_ne.
           ++ left. subst k. by rewrite lookup_insert_eq.
           ++ right. by exists e'.
    + destruct (IH propertydict) as (d & -> & Hkeys). exists d.
      split; [done |]. intros k. rewrite Hkeys. split.
      * intros [?|(e' & Hin & Hk & Hst)]; [by left | right].
        exists e'. split; [by apply list_elem_of_further | done].
      * intros [?|(e' & [->|Hin]%elem_of_cons & Hk & Hst)]; [by left | |].
        -- destruct Hst as (Hknown & _). congruence.
        -- right. by exists e'.
Qed.

Lemma read_objects_entries (results : list (@ReadAccessResult Any)) :
  ∀ objectdict,
  ∃ d, read_objects get_datatype cast_out results objectdict = Return d
       ∧ dom d = dom objectdict ∪ list_to_set (r_objectIdentifier <$> results)
       ∧ ∀ oid properties, d !! oid = Some properties →
           objectdict !! oid = Some properties
           ∨ ∃ result, result ∈ results ∧ r_objectIdentifier result = oid
               ∧ read_properties get_datatype cast_out oid.1
                   (listOfResults result) ∅ = Return properties.
Proof.
  induction results as [|result results IH]; intros objectdict; simpl.
  - exists objectdict. split_and!; [done | | by left].
    by rewrite (right_id_L ∅ (∪)).
  - destruct (read_properties_keys (r_objectIdentifier result).1
                (listOfResults result) ∅) as (props & Hprops & _).
    rewrite Hprops. simpl.
    destruct (IH (<[r_objectIdentifier result := props]> objectdict))
      as (d & -> & Hdom & Hentries).
    exists d. split_and!; [done | |].
    + rewrite Hdom, dom_insert_L.
      apply set_eq. intros k. rewrite !elem_of_union. tauto.
    + intros oid properties Hd.
      destruct (Hentries oid properties Hd) as [Hin|(r & Hin & Hoid & Hr)].
      * destruct (decide (r_objectIdentifier result = oid)) as [<-|Hne].
        -- rewrite lookup_insert_eq in Hin. injection Hin as <-.
           right. exists result. split; [apply list_elem_of_here | done].
        -- left. by rewrite lookup_insert_ne in Hin.
      * right. exists r. split; [by apply list_elem_of_further | done].
Qed.

(** X12. The decoding of a read result always returns, and its result has
    one entry for every object of the response, so the callback's
    [obj_dict[result.objectIdentifier]] cannot fail. A property appears in
    an object's entry only if some result of that object carries it with a
    datatype and a value: a property without datatype or with an access
    error is never stored. *)
Theorem return_value_read_multiple_entries
    (response : @ReadPropertyMultipleACK Any) :
  ∃ objectdict,
    return_value_read_multiple get_datatype cast_out response
    = Return objectdict
    ∧ dom objectdict
      = list_to_set (r_objectIdentifier <$> listOfReadAccessResults response)
    ∧ ∀ oid properties k,
        objectdict !! oid = Some properties →
        is_Some (properties !! k) →
        ∃ result e,
          result ∈ listOfReadAccessResults response
          ∧ r_objectIdentifier result = oid
          ∧ e ∈ listOfResults result
          ∧ e_propertyIdentifier e = k
          ∧ stored_element oid.1 e.
Proof.
  unfold return_value_read_multiple.
  destruct (read_objects_entries (listOfReadAccessResults response) ∅)
    as (d & Hd & Hdom & Hentries).
  exists d. split; [done |].
  split; [by rewrite Hdom, dom_empty_L, (left_id_L ∅ (∪)) |].
  intros oid properties k Hoid Hk.
  destruct (Hentries oid properties Hoid) as [Hin|(result & Hin & Hr & Hprops)];
    [by rewrite lookup_empty in Hin |].
  destruct (read_properties_keys oid.1 (listOfResults result) ∅)
    as (props' & Hprops' & Hkeys).
  rewrite Hprops in Hprops'. injection Hprops' as <-.
  destruct (proj1 (Hkeys k) Hk) as [Hk'|(e & He & Hek & Hst)].
  - rewrite lookup_empty in Hk'. by destruct Hk'.
  - by exists result, e.
Qed.

(** X13. The read of one property decodes an array property by its index:
    index 0 is the length, cast to [Unsigned] whatever the element type
    is; another index is an element, cast to the element type; without
    index the whole array is cast. The result has the one key read. *)
Theorem return_value_read_array (response : @ReadPropertyACK Any)
    (subtype : Datatype) :
  get_datatype (a_objectIdentifier response).1 (a_propertyIdentifier response)
  = Some (ArrayOf subtype) →
  return_value_read get_datatype cast_out response
  = Return
      {[ a_propertyIdentifier response :=
           match a_propertyArrayIndex response with
           | Some 0 => cast_out (a_propertyValue response) Unsigned
           | Some _ => cast_out (a_propertyValue response) subtype
           | None => cast_out (a_propertyValue response) (ArrayOf subtype)
           end ]}.
Proof.
  intros Hdt. unfold return_value_read. rewrite Hdt.
  unfold cast_property. simpl.
  destruct (a_propertyArrayIndex response) as [[|p|p]|]; done.
Qed.
End ReadDecodeMore.

(** ** The success branch of [on_ReadMultipleResult] *)

Section ACKFacts.
Context {Any Value : Type}.
Variable get_datatype : string → PropertyIdentifier → option Datatype.
Variable cast_out : Any → Datatype → Value.
Variable iter_objects : Value → outcome (list ObjectIdentifier).
Variable accepted : ObjectIdentifier → bool.
Context `{!SetPop}.
Implicit Types (self : @Handler Any Value).
Implicit Types (response : @ReadPropertyMultipleACK Any).
Implicit Types (result : @ReadAccessResult Any).
Implicit Types (properties : gmap PropertyIdentifier Value).



Lemma update_object_at_run self (objectID : ObjectIdentifier) (a : Address)
    (new_val : gmap PropertyIdentifier Value) :
  update_object_at objectID a new_val self
  = (Return tt, merged_at objectID a new_val self).
Proof.
  unfold update_object_at, merged_at, mbind, Py_bind, reads.
  destruct (addr_to_dev_id self a); [apply update_object_merged | done].
Qed.


(** What [COVSubscribe] does for an identifier that [ObjectIdentifier]
    accepts, in full *)
Lemma COVSubscribe_run self (objectID : ObjectIdentifier)
    (confirmationType : bool) (a : Address) :
  accepted objectID = true →
  ∃ i self',
    COVSubscribe accepted objectID confirmationType a self = (Return tt, self')
    ∧ requests self'
      = requests self ++
        [Subscribe
           {| subscriberProcessIdentifier := i;
              monitoredObjectIdentifier := objectID;
              issueConfirmedNotifications :=
                if confirmationType then Some "true" else None;
              lifetime := None;
              cov_pduDestination := a |}]
    ∧ responses self' = responses self
    ∧ BACnetDeviceDict self' = BACnetDeviceDict self
    ∧ updateEvent self' = updateEvent self
    ∧ object_to_id self' !! (objectID, addr_to_dev_id self a) = Some i.
Proof.
  intros Hok.
  unfold COVSubscribe, try_except, mbind, Py_bind, reads, request_io, modify.
  destruct (assign_id_returns self (objectID, addr_to_dev_id self a))
    as (i & self1 & -> & Hreq & Hresp & Hreg & Hev & Hid).
  rewrite Hok. eexists i, _. split; [reflexivity |]. simpl. by rewrite Hreq.
Qed.

(** For an identifier that [ObjectIdentifier] does not accept the id is
    assigned and nothing is requested. *)
Lemma COVSubscribe_rejected self (objectID : ObjectIdentifier)
    (confirmationType : bool) (a : Address) :
  accepted objectID = false →
  ∃ i self',
    COVSubscribe accepted objectID confirmationType a self = (Return tt, self')
    ∧ requests self' = requests self
    ∧ responses self' = responses self
    ∧ BACnetDeviceDict self' = BACnetDeviceDict self
    ∧ updateEvent self' = updateEvent self
    ∧ object_to_id self' !! (objectID, addr_to_dev_id self a) = Some i.
Proof.
  intros Hno.
  unfold COVSubscribe, try_except, mbind, Py_bind, reads, request_io, modify.
  destruct (assign_id_returns self (objectID, addr_to_dev_id self a))
    as (i & self1 & -> & Hreq & Hresp & Hreg & Hev & Hid).
  rewrite Hno. by exists i, self1.
Qed.

(** The decoding of a response with one result *)
Lemma return_value_read_multiple_one response result properties :
  listOfReadAccessResults response = [result] →
  read_properties get_datatype cast_out (r_objectIdentifier result).1
    (listOfResults result) ∅ = Return properties →
  return_value_read_multiple get_datatype cast_out response
  = Return {[ r_objectIdentifier result := properties ]}.
Proof.
  intros Hres Hprops. unfold return_value_read_multiple.
  rewrite Hres. simpl. rewrite Hprops. simpl. by rewrite insert_empty.
Qed.

(** The callback on a response with one result runs the loop body once. *)
Lemma on_ReadPropertyMultipleACK_one response result properties self :
  listOfReadAccessResults response = [result] →
  read_properties get_datatype cast_out (r_objectIdentifier result).1
    (listOfResults result) ∅ = Return properties →
  on_ReadPropertyMultipleACK get_datatype cast_out iter_objects accepted
    response self
  = store_result iter_objects accepted response
      {[ r_objectIdentifier result := properties ]} result self.
Proof.
  intros Hres Hprops. unfold on_ReadPropertyMultipleACK.
  rewrite (return_value_read_multiple_one _ _ _ Hres Hprops), Hres.
  unfold mbind at 1, Py_bind at 1, lift. simpl.
  unfold mbind at 1, Py_bind at 1.
  by destruct (store_result _ _ _ _ _) as [[[]|e] self'].
Qed.


End ACKFacts.

Section ACKDeviceFacts.
Context {Any Value : Type}.
Variable get_datatype : string → PropertyIdentifier → option Datatype.
Variable cast_out : Any → Datatype → Value.
Variable iter_objects : Value → outcome (list ObjectIdentifier).
Variable accepted : ObjectIdentifier → bool.
Context `{!SetPop}.
Implicit Types (self : @Handler Any Value).
Implicit Types (response : @ReadPropertyMultipleACK Any).
Implicit Types (result : @ReadAccessResult Any).
Implicit Types (properties : gmap PropertyIdentifier Value).
Implicit Types (oid : ObjectIdentifier).

(** The loop body on the first result for a device whose address is the
    source of the response, up to the reading of [objectList] *)
Lemma store_device_result_first response result properties self
    (device : @Device Value) :
  (r_objectIdentifier result).1 = "device" →
  PyDict.get (BACnetDeviceDict self) (r_objectIdentifier result) = Some device →
  objects device !! r_objectIdentifier result = None →
  addr_to_dev_id self (ack_pduSource response)
  = Some (r_objectIdentifier result) →
  store_result iter_objects accepted response
    {[ r_objectIdentifier result := properties ]} result self
  = match properties !! "objectList" with
    | None =>
        (Raise KeyError,
         merged_handler (r_objectIdentifier result) (r_objectIdentifier result)
                        properties self)
    | Some value =>
        match iter_objects value with
        | Raise e =>
            (Raise e,
             merged_handler (r_objectIdentifier result)
                            (r_objectIdentifier result) properties self)
        | Return listed =>
            (Return tt,
             set_requests
               (requests self ++
                [read_all
                   (filter (λ object : ObjectIdentifier,
                              object.1 ∈ objectFilter) listed)
                   (address device)])
               (merged_handler (r_objectIdentifier result)
                               (r_objectIdentifier result) properties self))
        end
    end.
Proof.
  intros Hdev Hget Hnew Haddr.
  unfold store_result. rewrite bool_decide_eq_true_2 by done.
  unfold mbind at 1, Py_bind at 1, device_entry at 1. rewrite Hget. simpl.
  rewrite bool_decide_eq_false_2 by (rewrite Hnew; by intros [? ?]). simpl.
  rewrite lookup_singleton_eq.
  unfold mbind at 1, Py_bind at 1, lift, subscript.
  unfold mbind at 1, Py_bind at 1. rewrite update_object_at_run.
  unfold merged_at. rewrite Haddr.
  unfold mbind at 1, Py_bind at 1, device_entry at 1.
  unfold merged_handler at 1. rewrite Hget. simpl.
  rewrite PyDict_get_set_eq. simpl.
  unfold mbind at 1, Py_bind at 1. simpl.
  rewrite lookup_insert_eq, Hnew. simpl. rewrite (right_id_L ∅ (∪)).
  unfold mbind at 1, Py_bind at 1.
  destruct (properties !! "objectList") as [value|];
    [|by unfold merged_handler; rewrite Hget].
  unfold mbind at 1, Py_bind at 1.
  destruct (iter_objects value) as [listed|e];
    [|by unfold merged_handler; rewrite Hget].
  unfold mbind at 1, Py_bind at 1, device_entry.
  unfold merged_handler. rewrite Hget. simpl.
  rewrite PyDict_get_set_eq. simpl. done.
Qed.

(** In the branch. The result of a read of a device that is not in the registry: the
    callback raises [KeyError] at [self.BACnetDeviceDict[...]] and the
    handler is as before; nothing is stored for a device that has not
    announced itself. *)
Lemma device_result_unregistered_branch response result properties self :
  listOfReadAccessResults response = [result] →
  read_properties get_datatype cast_out (r_objectIdentifier result).1
    (listOfResults result) ∅ = Return properties →
  (r_objectIdentifier result).1 = "device" →
  PyDict.get (BACnetDeviceDict self) (r_objectIdentifier result) = None →
  on_ReadPropertyMultipleACK get_datatype cast_out iter_objects accepted
    response self
  = (Raise KeyError, self).
Proof.
  intros Hres Hprops Hdev Hget.
  rewrite (on_ReadPropertyMultipleACK_one _ _ _ _ _ _ _ _ Hres Hprops).
  unfold store_result. rewrite bool_decide_eq_true_2 by done.
  unfold mbind at 1, Py_bind at 1, device_entry at 1. by rewrite Hget.
Qed.


(** In the branch. The first result of a read of a registered device, from the
    device's own address: the decoded properties become the device's own
    object, and exactly one request follows, a read of the property [all]
    of those objects of its [objectList] whose type is in [objectFilter],
    in the order of the list, sent to the address the device announced. *)
Lemma device_result_reads_objects_branch response result properties self
    (device : @Device Value) (value : Value) (listed : list ObjectIdentifier) :
  listOfReadAccessResults response = [result] →
  read_properties get_datatype cast_out (r_objectIdentifier result).1
    (listOfResults result) ∅ = Return properties →
  (r_objectIdentifier result).1 = "device" →
  PyDict.get (BACnetDeviceDict self) (r_objectIdentifier result) = Some device →
  objects device !! r_objectIdentifier result = None →
  addr_to_dev_id self (ack_pduSource response)
  = Some (r_objectIdentifier result) →
  properties !! "objectList" = Some value →
  iter_objects value = Return listed →
  on_ReadPropertyMultipleACK get_datatype cast_out iter_objects accepted
    response self
  = (Return tt,
     set_requests
       (requests self ++
        [read_all
           (filter (λ object : ObjectIdentifier, object.1 ∈ objectFilter)
                   listed)
           (address device)])
       (merged_handler (r_objectIdentifier result) (r_objectIdentifier result)
                       properties self)).
Proof.
  intros Hres Hprops Hdev Hget Hnew Haddr Hlist Hiter.
  rewrite (on_ReadPropertyMultipleACK_one _ _ _ _ _ _ _ _ Hres Hprops).
  rewrite (store_device_result_first _ _ _ _ device) by done.
  by rewrite Hlist, Hiter.
Qed.

(** In the branch. When the first result of a registered device has no decoded
    [objectList] (the property was not returned, had an access error or
    no datatype), the device's own object is stored and the callback then
    raises [KeyError]: no read of its objects is issued. The own object
    being there, a later result of the device takes the branch that only
    merges. *)
Lemma device_result_without_objectList_branch response result properties self
    (device : @Device Value) :
  listOfReadAccessResults response = [result] →
  read_properties get_datatype cast_out (r_objectIdentifier result).1
    (listOfResults result) ∅ = Return properties →
  (r_objectIdentifier result).1 = "device" →
  PyDict.get (BACnetDeviceDict self) (r_objectIdentifier result) = Some device →
  objects device !! r_objectIdentifier result = None →
  addr_to_dev_id self (ack_pduSource response)
  = Some (r_objectIdentifier result) →
  properties !! "objectList" = None →
  ∃ self' device',
    on_ReadPropertyMultipleACK get_datatype cast_out iter_objects accepted
    response self
    = (Raise KeyError, self')
    ∧ requests self' = requests self
    ∧ PyDict.get (BACnetDeviceDict self') (r_objectIdentifier result)
      = Some device'
    ∧ objects device' !! r_objectIdentifier result = Some properties.
Proof.
  intros Hres Hprops Hdev Hget Hnew Haddr Hlist.
  rewrite (on_ReadPropertyMultipleACK_one _ _ _ _ _ _ _ _ Hres Hprops).
  rewrite (store_device_result_first _ _ _ _ device) by done.
  rewrite Hlist. eexists _, _. split; [reflexivity |].
  unfold merged_handler. rewrite Hget. simpl.
  rewrite PyDict_get_set_eq. split_and!; [done | reflexivity |]. simpl.
  rewrite lookup_insert_eq, Hnew. simpl. by rewrite (right_id_L ∅ (∪)).
Qed.


(** In the branch. A device none of whose listed objects has a type in
    [objectFilter] is sent a read that names no object; when that read
    fails, the error branch of [on_ReadMultipleResult] raises [IndexError]
    and issues nothing. *)
Lemma device_without_filtered_objects_branch response result properties self
    (device : @Device Value) (value : Value) (listed : list ObjectIdentifier)
    (on_ReadMultipleResponse : @IOResponse Any → Py (@Handler Any Value) unit) :
  listOfReadAccessResults response = [result] →
  read_properties get_datatype cast_out (r_objectIdentifier result).1
    (listOfResults result) ∅ = Return properties →
  (r_objectIdentifier result).1 = "device" →
  PyDict.get (BACnetDeviceDict self) (r_objectIdentifier result) = Some device →
  objects device !! r_objectIdentifier result = None →
  addr_to_dev_id self (ack_pduSource response)
  = Some (r_objectIdentifier result) →
  properties !! "objectList" = Some value →
  iter_objects value = Return listed →
  Forall (λ object : ObjectIdentifier, object.1 ∉ objectFilter) listed →
  ∃ self' r,
    on_ReadPropertyMultipleACK get_datatype cast_out iter_objects accepted
    response self
    = (Return tt, self')
    ∧ requests self' = requests self ++ [ReadMultiple r]
    ∧ listOfReadAccessSpecs r = []
    ∧ ∀ a : Address,
        on_ReadMultipleResult on_ReadMultipleResponse (failed r a) self'
        = (Raise IndexError, self').
Proof.
  intros Hres Hprops Hdev Hget Hnew Haddr Hlist Hiter Hnone.
  rewrite (on_ReadPropertyMultipleACK_one _ _ _ _ _ _ _ _ Hres Hprops).
  rewrite (store_device_result_first _ _ _ _ device) by done.
  rewrite Hlist, Hiter.
  assert (filter (λ object : ObjectIdentifier, object.1 ∈ objectFilter) listed
          = []) as ->.
  { clear -Hnone. induction Hnone as [|object listed Hobj _ IH]; [done |].
    by rewrite filter_cons_False. }
  eexists _, _. split; [reflexivity |]. simpl.
  split_and!; [reflexivity | done | done].
Qed.
End ACKDeviceFacts.

(** * The callback of a read, as a whole

    [on_ReadMultipleResult] with the response branch of the source: the
    properties of the branch that stores a [ReadPropertyMultipleACK] are
    stated here for the callback itself, which reaches that branch only
    when the message of line 504 can be written. *)
Section CallbackFacts.
Context {Any Value : Type}.
Variable get_datatype : string → PropertyIdentifier → option Datatype.
Variable cast_out : Any → Datatype → Value.
Variable iter_objects : Value → outcome (list ObjectIdentifier).
Variable accepted : ObjectIdentifier → bool.
Variable is_str : Address → bool.
Variable other_apdu : outcome unit.
Context `{!SetPop}.

Local Abbreviation callback :=
  (on_ReadMultipleResult
     (on_ReadMultipleResponse get_datatype cast_out iter_objects accepted
                              is_str other_apdu)).

(** When the source of the response is a [str] the callback is the branch
    that stores the response. *)
Lemma on_ReadMultipleResult_answered (r : ReadPropertyMultipleRequest)
    (response : @ReadPropertyMultipleACK Any) (self : @Handler Any Value) :
  is_str (ack_pduSource response) = true →
  callback (answered r response) self
  = on_ReadPropertyMultipleACK get_datatype cast_out iter_objects accepted
      response self.
Proof.
  intros Hstr. unfold on_ReadMultipleResult, answered. simpl.
  unfold on_ReadMultipleResponse. rewrite Hstr.
  unfold mbind at 1, Py_bind at 1. simpl. done.
Qed.

(** When it is not, the callback raises [TypeError] before it reads the
    response. *)
Lemma on_ReadMultipleResult_not_str (r : ReadPropertyMultipleRequest)
    (response : @ReadPropertyMultipleACK Any) (self : @Handler Any Value) :
  is_str (ack_pduSource response) = false →
  callback (answered r response) self = (Raise TypeError, self).
Proof.
  intros Hstr. unfold on_ReadMultipleResult, answered. simpl.
  unfold on_ReadMultipleResponse. rewrite Hstr.
  unfold mbind at 1, Py_bind at 1. simpl. done.
Qed.



(** X16. Given the result of a read of a device that is not in the
    registry (from a [str] source), the callback raises [KeyError] at
    [self.BACnetDeviceDict[...]] and the handler is as before; nothing is
    stored for a device that has not announced itself. *)
Theorem device_result_unregistered r response result properties self :
  is_str (ack_pduSource response) = true →
  listOfReadAccessResults response = [result] →
  read_properties get_datatype cast_out (r_objectIdentifier result).1
    (listOfResults result) ∅ = Return properties →
  (r_objectIdentifier result).1 = "device" →
  PyDict.get (BACnetDeviceDict self) (r_objectIdentifier result) = None →
  callback (answered r response) self
  = (Raise KeyError, self).
Proof.
  intros Hstr. rewrite (on_ReadMultipleResult_answered _ _ _ Hstr).
  by apply device_result_unregistered_branch.
Qed.


(** X18. Given the first result of a read of a registered device, from
    the device's own address (a [str]), the callback makes the decoded
    properties the device's own object and issues exactly one request, a
    read of the property [all] of those objects of its [objectList] whose
    type is in [objectFilter], in the order of the list, sent to the
    address the device announced. *)
Theorem device_result_reads_objects r response result properties self
    (device : @Device Value) (value : Value) (listed : list ObjectIdentifier) :
  is_str (ack_pduSource response) = true →
  listOfReadAccessResults response = [result] →
  read_properties get_datatype cast_out (r_objectIdentifier result).1
    (listOfResults result) ∅ = Return properties →
  (r_objectIdentifier result).1 = "device" →
  PyDict.get (BACnetDeviceDict self) (r_objectIdentifier result) = Some device →
  objects device !! r_objectIdentifier result = None →
  addr_to_dev_id self (ack_pduSource response)
  = Some (r_objectIdentifier result) →
  properties !! "objectList" = Some value →
  iter_objects value = Return listed →
  callback (answered r response) self
  = (Return tt,
     set_requests
       (requests self ++
        [read_all
           (filter (λ object : ObjectIdentifier, object.1 ∈ objectFilter)
                   listed)
           (address device)])
       (merged_handler (r_objectIdentifier result) (r_objectIdentifier result)
                       properties self)).
Proof.
  intros Hstr. rewrite (on_ReadMultipleResult_answered _ _ _ Hstr).
  by apply device_result_reads_objects_branch.
Qed.

(** X19. When the first result of a registered device has no decoded
    [objectList] (the property was not returned, had an access error or
    no datatype), the callback stores the device's own object and then
    raises [KeyError]: no read of its objects is issued. The own object
    being there, a later result of the device takes the branch that only
    merges. The source of the response is a [str]. *)
Theorem device_result_without_objectList r response result properties self
    (device : @Device Value) :
  is_str (ack_pduSource response) = true →
  listOfReadAccessResults response = [result] →
  read_properties get_datatype cast_out (r_objectIdentifier result).1
    (listOfResults result) ∅ = Return properties →
  (r_objectIdentifier result).1 = "device" →
  PyDict.get (BACnetDeviceDict self) (r_objectIdentifier result) = Some device →
  objects device !! r_objectIdentifier result = None →
  addr_to_dev_id self (ack_pduSource response)
  = Some (r_objectIdentifier result) →
  properties !! "objectList" = None →
  ∃ self' device',
    callback (answered r response) self
    = (Raise KeyError, self')
    ∧ requests self' = requests self
    ∧ PyDict.get (BACnetDeviceDict self') (r_objectIdentifier result)
      = Some device'
    ∧ objects device' !! r_objectIdentifier result = Some properties.
Proof.
  intros Hstr. rewrite (on_ReadMultipleResult_answered _ _ _ Hstr).
  by apply device_result_without_objectList_branch.
Qed.


(** X21. A device none of whose listed objects has a type in
    [objectFilter] is sent a read that names no object; when that read
    fails, the error branch of the callback raises [IndexError] and issues
    nothing. The source of the response is a [str]. *)
Theorem device_without_filtered_objects r response result properties self
    (device : @Device Value) (value : Value) (listed : list ObjectIdentifier) :
  is_str (ack_pduSource response) = true →
  listOfReadAccessResults response = [result] →
  read_properties get_datatype cast_out (r_objectIdentifier result).1
    (listOfResults result) ∅ = Return properties →
  (r_objectIdentifier result).1 = "device" →
  PyDict.get (BACnetDeviceDict self) (r_objectIdentifier result) = Some device →
  objects device !! r_objectIdentifier result = None →
  addr_to_dev_id self (ack_pduSource response)
  = Some (r_objectIdentifier result) →
  properties !! "objectList" = Some value →
  iter_objects value = Return listed →
  Forall (λ object : ObjectIdentifier, object.1 ∉ objectFilter) listed →
  ∃ self' r',
    callback (answered r response) self
    = (Return tt, self')
    ∧ requests self' = requests self ++ [ReadMultiple r']
    ∧ listOfReadAccessSpecs r' = []
    ∧ ∀ a : Address,
        callback (failed r' a) self'
        = (Raise IndexError, self').
Proof.
  intros Hstr Hres Hprops Hdev Hget Hnew Haddr Hlist Hiter Hnone.
  rewrite (on_ReadMultipleResult_answered _ _ _ Hstr).
  by apply (device_without_filtered_objects_branch get_datatype cast_out
              iter_objects accepted response result properties self device
              value listed).
Qed.

(** X28. Given a response whose source is not a [str] (the stack supplies
    an [Address] object), the callback of a read raises [TypeError] where
    it concatenates the source to its message (line 504), before the
    response is looked at: nothing is stored, requested or subscribed, the
    handler is as it was. *)
Theorem response_source_not_str (r : ReadPropertyMultipleRequest)
    (response : @ReadPropertyMultipleACK Any) (self : @Handler Any Value) :
  is_str (ack_pduSource response) = false →
  callback (answered r response) self = (Raise TypeError, self).
Proof. apply on_ReadMultipleResult_not_str. Qed.
End CallbackFacts.

(** ** Subscriptions and retries, continued *)

Section SubscribeMore.
Context {Any Value : Type}.
Implicit Types (self : @Handler Any Value) (objectID : ObjectIdentifier).

(** The request [COVSubscribe] builds for [objectID] under subscriber id
    [i] *)
Definition subscription (i : Z) objectID (confirmationType : bool)
    (a : Address) : SubscribeCOVRequest :=
  {| subscriberProcessIdentifier := i;
     monitoredObjectIdentifier := objectID;
     issueConfirmedNotifications :=
       if confirmationType then Some "true" else None;
     lifetime := None;
     cov_pduDestination := a |}.

(** [COVSubscribe] for a key that holds id [i] *)
Lemma COVSubscribe_known (pop : SetPop) (accepted : ObjectIdentifier → bool)
    self objectID (c : bool) (a : Address) (i : Z) :
  object_to_id self !! (objectID, addr_to_dev_id self a) = Some i →
  COVSubscribe (H := pop) accepted objectID c a self
  = (Return tt,
     if accepted objectID then
       set_requests
         (requests self ++ [Subscribe (subscription i objectID c a)]) self
     else self).
Proof.
  intros Hid.
  unfold COVSubscribe, try_except, mbind, Py_bind, reads, request_io, modify,
    assign_id.
  rewrite Hid. by destruct (accepted objectID).
Qed.

(** X22. Subscribing the same object at the same address twice assigns it
    one subscriber id, whatever the confirmation types and whatever
    [set.pop()] would choose. When [ObjectIdentifier] accepts the
    identifier two requests are issued under that id; when it raises, the
    id is assigned all the same and nothing is requested. *)
Theorem COVSubscribe_twice (pop1 pop2 : SetPop)
    (accepted : ObjectIdentifier → bool) self objectID (c1 c2 : bool)
    (a : Address) :
  ∃ i self',
    (COVSubscribe (H := pop1) accepted objectID c1 a;;
     COVSubscribe (H := pop2) accepted objectID c2 a) self = (Return tt, self')
    ∧ object_to_id self' !! (objectID, addr_to_dev_id self a) = Some i
    ∧ requests self'
      = requests self ++
        if accepted objectID then
          [Subscribe (subscription i objectID c1 a);
           Subscribe (subscription i objectID c2 a)]
        else [].
Proof.
  unfold mbind at 1, Py_bind at 1.
  destruct (accepted objectID) eqn:Hok.
  - destruct (COVSubscribe_run accepted (H := pop1) self objectID c1 a Hok)
      as (i & self1 & Hrun & Hreq & _ & Hreg & _ & Hid).
    rewrite Hrun.
    assert (Haddr : addr_to_dev_id self1 a = addr_to_dev_id self a)
      by (unfold addr_to_dev_id; by rewrite Hreg).
    rewrite (COVSubscribe_known pop2 accepted self1 objectID c2 a i)
      by by rewrite Haddr.
    rewrite Hok. eexists i, _. split; [reflexivity |]. simpl.
    split; [done |]. by rewrite Hreq, <- app_assoc.
  - destruct (COVSubscribe_rejected accepted (H := pop1) self objectID c1 a
                Hok)
      as (i & self1 & Hrun & Hreq & _ & Hreg & _ & Hid).
    rewrite Hrun.
    assert (Haddr : addr_to_dev_id self1 a = addr_to_dev_id self a)
      by (unfold addr_to_dev_id; by rewrite Hreg).
    rewrite (COVSubscribe_known pop2 accepted self1 objectID c2 a i)
      by by rewrite Haddr.
    rewrite Hok. exists i, self1. split; [reflexivity |].
    split; [done |]. by rewrite Hreq, app_nil_r.
Qed.

(** X23. A rejected subscription frees its id. With consistent tables and
    an empty pool, [COVSubscribe] for an object without id (whose
    identifier [ObjectIdentifier] accepts) issues its request under a new
    id; when [on_Subscribed] is called with an error for that request
    whose [errorClass] and [errorCode] are [str], so that the message of
    line 610 can be written, both dictionaries are as before the
    subscription; and the next [COVSubscribe], for any accepted object
    without id, issues its request under the very id that was freed. *)
Theorem rejected_subscription_frees_id (pop1 pop2 : SetPop)
    (accepted : ObjectIdentifier → bool) self
    objectID objectID' (c c' : bool) (a a' : Address) (class code : string) :
  ids_consistent self →
  available_ids self = ∅ →
  accepted objectID = true →
  accepted objectID' = true →
  object_to_id self !! (objectID, addr_to_dev_id self a) = None →
  object_to_id self !! (objectID', addr_to_dev_id self a') = None →
  ∃ i self1 self2 self3,
    COVSubscribe (H := pop1) accepted objectID c a self = (Return tt, self1)
    ∧ requests self1
      = requests self ++ [Subscribe (subscription i objectID c a)]
    ∧ on_Subscribed
        {| s_args0 := subscription i objectID c a;
           s_ioError := Some {| errorClass := Str class;
                                errorCode := Str code |};
           s_ioResponse := false |} self1
      = (Return tt, self2)
    ∧ object_to_id self2 = object_to_id self
    ∧ id_to_object self2 = id_to_object self
    ∧ COVSubscribe (H := pop2) accepted objectID' c' a' self2
      = (Return tt, self3)
    ∧ requests self3
      = requests self2 ++ [Subscribe (subscription i objectID' c' a')].
Proof.
  intros [Hinv Huse Hpool Hfree Hpos] Hempty Hok Hok' Hfresh Hfresh'.
  assert (Hnext : id_to_object self !! next_id self = None).
  { destruct (id_to_object self !! next_id self) as [o|] eqn:E; [|done].
    apply Hinv, Huse in E. lia. }
  exists (next_id self).
  unfold COVSubscribe at 1, try_except, mbind, Py_bind, reads, request_io,
    modify, assign_id.
  rewrite Hfresh, Hempty, Hok. rewrite decide_False by by intros Hne.
  eexists _, _, _. split; [reflexivity |]. simpl.
  split; [reflexivity |].
  unfold on_Subscribed. simpl.
  unfold mbind, Py_bind, reads, lift, unassign_id, addr_to_dev_id. simpl.
  fold (addr_to_dev_id self a). rewrite !lookup_insert_eq. simpl.
  split; [reflexivity |]. simpl.
  rewrite !delete_insert_id by done.
  split; [reflexivity |]. split; [reflexivity |].
  unfold COVSubscribe, try_except, mbind, Py_bind, reads, request_io, modify,
    assign_id, addr_to_dev_id. simpl.
  fold (addr_to_dev_id self a'). rewrite Hfresh', Hempty, Hok'.
  rewrite (right_id_L ∅ (∪)).
  assert (Hne : ({[next_id self]} : gset Z) ≠ ∅).
  { intros Heq. apply (not_elem_of_empty (C := gset Z) (next_id self)).
    rewrite <- Heq. by apply elem_of_singleton. }
  rewrite decide_True by done.
  pose proof (set_pop_elem_of (SetPop := pop2) _ Hne) as Hin.
  apply elem_of_singleton in Hin. rewrite Hin. simpl.
  split; reflexivity.
Qed.

(** X29. A subscription error that cannot be written. When [on_Subscribed]
    is called with an error whose [errorClass] or [errorCode] is missing
    (a reject or an abort) or is not a [str] (the enumerations of an
    [Error]), the concatenation of line 610 raises before [unassign_id] is
    reached: the callback raises [AttributeError] or [TypeError] and the
    handler is as it was, so the id of the failed subscription stays
    assigned. *)
Theorem subscription_error_not_written (iocb : SubscribeIOCB)
    (error : SubscribeError) self :
  s_ioResponse iocb = false →
  s_ioError iocb = Some error →
  (∀ s, errorClass error ≠ Str s) ∨ (∀ s, errorCode error ≠ Str s) →
  ∃ e, on_Subscribed iocb self = (Raise e, self)
       ∧ (e = TypeError ∨ ∃ name, e = AttributeError name).
Proof.
  intros Hresp Herr Hbad. unfold on_Subscribed. rewrite Hresp, Herr.
  unfold mbind, Py_bind, lift.
  destruct (errorClass error) as [s| |] eqn:Hclass; simpl.
  - destruct Hbad as [Hbad|Hbad]; [by destruct (Hbad s) |].
    destruct (errorCode error) as [s'| |]; simpl.
    + by destruct (Hbad s').
    + exists TypeError. by split; [|left].
    + exists (AttributeError "errorCode"). split; [done |]. right. by eexists.
  - exists TypeError. by split; [|left].
  - exists (AttributeError "errorClass"). split; [done |]. right. by eexists.
Qed.
End SubscribeMore.

Section DeviceRetry.
Context {Any Value : Type}.
Variable on_ReadMultipleResponse : @IOResponse Any → Py (@Handler Any Value) unit.
Implicit Types (self : @Handler Any Value) (r : ReadPropertyMultipleRequest).

(** X24. A failed read of a device never falls back to the reduced list.
    When the request made last is the read of one device with the device
    property list and it fails [n] times in a row, each failure issues the
    same request again: [n] further copies of it, for every [n]. *)
Theorem failed_device_read_is_retried self r (oid : ObjectIdentifier)
    (n : nat) :
  listOfReadAccessSpecs r
  = [{| objectIdentifier := oid;
        listOfPropertyReferences := device_property_list |}] →
  oid.1 = "device" →
  last (requests self) = Some (ReadMultiple r) →
  fail_repeatedly on_ReadMultipleResponse n self
  = (Return tt,
     set_requests (requests self ++ replicate n (ReadMultiple r)) self).
Proof.
  intros Hspecs Hdev. revert self.
  induction n as [|n IH]; intros self Hlast; simpl.
  - rewrite app_nil_r. by destruct self.
  - unfold mbind at 1, Py_bind at 1, reads. rewrite Hlast.
    unfold mbind at 1, Py_bind at 1.
    assert (Hstep :
      on_ReadMultipleResult on_ReadMultipleResponse
        (failed r (rpm_pduDestination r)) self
      = (Return tt, set_requests (requests self ++ [ReadMultiple r]) self)).
    { unfold on_ReadMultipleResult, failed. simpl. rewrite Hspecs.
      unfold mbind, Py_bind, lift. simpl.
      rewrite bool_decide_eq_true_2 by done. simpl.
      unfold ReadPropertyMultiple, try_except, request_io, modify. simpl.
      do 4 f_equal. destruct r as [specs dest]. simpl in *. by subst specs. }
    rewrite Hstep, IH by (simpl; apply last_snoc).
    simpl. unfold set_requests. simpl. by rewrite <- app_assoc.
Qed.
End DeviceRetry.

(** ** What every method keeps *)

Section PreservesFacts.
Context {S : Type} (P : S → Prop).

Lemma Preserves_ret {A} (a : A) : Preserves P (mret a : Py S A).
Proof. by intros s. Qed.

Lemma Preserves_raise {A} (e : Exn) : Preserves P (raise e : Py S A).
Proof. by intros s. Qed.

Lemma Preserves_lift {A} (o : outcome A) : Preserves P (lift o : Py S A).
Proof. by intros s. Qed.

Lemma Preserves_reads {A} (f : S → A) : Preserves P (reads f).
Proof. by intros s. Qed.

Lemma Preserves_bind {A B} (m : Py S A) (f : A → Py S B) :
  Preserves P m → (∀ a, Preserves P (f a)) → Preserves P (m ≫= f).
Proof.
  intros Hm Hf s Hs. unfold mbind, Py_bind.
  specialize (Hm s Hs). destruct (m s) as [[a|e] s']; simpl in *; [|done].
  by apply Hf.
Qed.

Lemma Preserves_try {A} (m : Py S A) (h : Exn → Py S A) :
  Preserves P m → (∀ e, Preserves P (h e)) → Preserves P (try_except m h).
Proof.
  intros Hm Hh s Hs. unfold try_except.
  specialize (Hm s Hs). destruct (m s) as [[a|e] s']; simpl in *; [done |].
  by apply Hh.
Qed.

Lemma Preserves_for_each {A} (l : list A) (body : A → Py S unit) :
  (∀ x, Preserves P (body x)) → Preserves P (for_each l body).
Proof.
  intros Hbody. induction l as [|x l IH]; simpl.
  - apply Preserves_ret.
  - apply Preserves_bind; [apply Hbody | by intros _].
Qed.
End PreservesFacts.

Section HandlerPreserves.
Context {Any Value : Type}.
Variable get_datatype : string → PropertyIdentifier → option Datatype.
Variable cast_out : Any → Datatype → Value.
Variable iter_objects : Value → outcome (list ObjectIdentifier).
Variable accepted : ObjectIdentifier → bool.
Variable is_str : Address → bool.
Variable other_apdu : outcome unit.
Variable P : @Handler Any Value → Prop.
Hypothesis HP : Stable P.

Lemma Preserves_update_object (objectID deviceID : ObjectIdentifier)
    (new_val : gmap PropertyIdentifier Value) :
  Preserves P (update_object objectID deviceID new_val).
Proof.
  intros self Hself. rewrite update_object_merged. simpl.
  by apply (stable_merge P HP).
Qed.

Lemma Preserves_request_io (r : Request) : Preserves P (request_io r).
Proof. intros self Hself. by apply (stable_request P HP). Qed.

Lemma Preserves_ReadPropertyMultiple (objectList : list ObjectIdentifier)
    (propertyList : list PropertyReference) (a : Address) :
  Preserves P (ReadPropertyMultiple objectList propertyList a).
Proof.
  apply Preserves_try; [apply Preserves_request_io |].
  intros _. apply Preserves_ret.
Qed.

Lemma Preserves_assign_id (pop : SetPop) (obj : SubscriptionKey) :
  Preserves P (assign_id (H := pop) obj).
Proof. intros self Hself. by apply (stable_assign P HP). Qed.

Lemma Preserves_COVSubscribe (pop : SetPop) (objectID : ObjectIdentifier)
    (confirmationType : bool) (a : Address) :
  Preserves P (COVSubscribe (H := pop) accepted objectID confirmationType a).
Proof.
  apply Preserves_try; [|intros _; apply Preserves_ret].
  apply Preserves_bind; [apply Preserves_reads |]. intros dev.
  apply Preserves_bind; [apply Preserves_assign_id |]. intros i.
  apply Preserves_bind; [|intros _; apply Preserves_request_io].
  destruct (accepted objectID); [apply Preserves_ret | apply Preserves_raise].
Qed.

Lemma Preserves_COVUnsubscribe (pop : SetPop) (objectID : ObjectIdentifier)
    (confirmationType : bool) (a : Address) :
  Preserves P (COVUnsubscribe (H := pop) objectID confirmationType a).
Proof.
  apply Preserves_try; [|intros _; apply Preserves_ret].
  apply Preserves_bind; [apply Preserves_reads |]. intros dev.
  apply Preserves_bind; [apply Preserves_assign_id |]. intros i.
  apply Preserves_bind; [apply Preserves_raise |]. intros _.
  apply Preserves_request_io.
Qed.

Lemma Preserves_do_IAmRequest (apdu : IAmRequest) :
  Preserves P (do_IAmRequest apdu).
Proof.
  intros self Hself.
  destruct (PyDict.get (BACnetDeviceDict self) (iAmDeviceIdentifier apdu))
    as [device|] eqn:Hget.
  - rewrite do_IAmRequest_known by by eexists. done.
  - rewrite do_IAmRequest_unknown by done. simpl.
    apply (stable_request P HP _
             (set_BACnetDeviceDict _ self)).
    by apply (stable_announce P HP).
Qed.

Lemma Preserves_response (r : @Response Any) : Preserves P (response r).
Proof. intros self Hself. by apply (stable_response P HP). Qed.

Lemma Preserves_do_ConfirmedCOVNotificationRequest
    (apdu : @COVNotificationRequest Any) :
  Preserves P (do_ConfirmedCOVNotificationRequest get_datatype cast_out apdu).
Proof.
  apply Preserves_bind; [apply Preserves_lift |]. intros property_dict.
  apply Preserves_bind; [apply Preserves_update_object |]. intros _.
  apply Preserves_response.
Qed.

Lemma Preserves_do_UnconfirmedCOVNotificationRequest
    (apdu : @COVNotificationRequest Any) :
  Preserves P (do_UnconfirmedCOVNotificationRequest get_datatype cast_out apdu).
Proof.
  apply Preserves_bind; [apply Preserves_lift |]. intros property_dict.
  apply Preserves_update_object.
Qed.

Lemma Preserves_on_ReadMultipleResult_failed
    (on_ReadMultipleResponse : @IOResponse Any → Py (@Handler Any Value) unit)
    (r : ReadPropertyMultipleRequest) (a : Address) :
  Preserves P (on_ReadMultipleResult on_ReadMultipleResponse (failed r a)).
Proof.
  unfold on_ReadMultipleResult. simpl.
  apply Preserves_bind; [apply Preserves_lift |]. intros spec0.
  destruct (_ && _); apply Preserves_ReadPropertyMultiple.
Qed.

Lemma Preserves_update_object_at (objectID : ObjectIdentifier) (a : Address)
    (new_val : gmap PropertyIdentifier Value) :
  Preserves P (update_object_at objectID a new_val).
Proof.
  apply Preserves_bind; [apply Preserves_reads |].
  intros [d|]; [apply Preserves_update_object | apply Preserves_ret].
Qed.

Lemma Preserves_device_entry (deviceID : ObjectIdentifier) :
  Preserves P (device_entry deviceID).
Proof. by intros self. Qed.

Lemma Preserves_store_result (pop : SetPop)
    (response : @ReadPropertyMultipleACK Any)
    (obj_dict : gmap ObjectIdentifier (gmap PropertyIdentifier Value))
    (result : @ReadAccessResult Any) :
  Preserves P (store_result (H := pop) iter_objects accepted response obj_dict
                 result).
Proof.
  unfold store_result. case_bool_decide.
  - apply Preserves_bind; [apply Preserves_device_entry |]. intros device.
    destruct (negb _).
    + apply Preserves_bind; [apply Preserves_lift |]. intros new_val.
      apply Preserves_bind; [apply Preserves_update_object_at |]. intros _.
      apply Preserves_bind; [apply Preserves_device_entry |]. intros device'.
      apply Preserves_bind; [apply Preserves_lift |]. intros properties.
      apply Preserves_bind; [apply Preserves_lift |]. intros value.
      apply Preserves_bind; [apply Preserves_lift |]. intros listed.
      apply Preserves_bind; [apply Preserves_device_entry |]. intros device''.
      apply Preserves_ReadPropertyMultiple.
    + apply Preserves_bind; [apply Preserves_lift |]. intros new_val.
      apply Preserves_update_object_at.
  - apply Preserves_bind; [apply Preserves_lift |]. intros new_val.
    apply Preserves_bind; [apply Preserves_update_object_at |]. intros _.
    apply Preserves_bind; [apply Preserves_reads |]. intros deviceID.
    apply Preserves_bind; [apply Preserves_reads |]. intros subscribed.
    destruct (_ && _); [apply Preserves_COVSubscribe | apply Preserves_ret].
Qed.

Lemma Preserves_on_ReadPropertyMultipleACK (pop : SetPop)
    (response : @ReadPropertyMultipleACK Any) :
  Preserves P (on_ReadPropertyMultipleACK (H := pop) get_datatype cast_out
                 iter_objects accepted response).
Proof.
  apply Preserves_bind; [apply Preserves_lift |]. intros obj_dict.
  apply Preserves_for_each. intros result. apply Preserves_store_result.
Qed.

Lemma Preserves_on_Subscribed (iocb : SubscribeIOCB) :
  Preserves P (on_Subscribed iocb).
Proof.
  unfold on_Subscribed.
  destruct (s_ioResponse iocb); [apply Preserves_ret |].
  destruct (s_ioError iocb) as [error|]; [|apply Preserves_ret].
  apply Preserves_bind; [apply Preserves_lift |]. intros _.
  apply Preserves_bind; [apply Preserves_lift |]. intros _.
  apply Preserves_bind; [apply Preserves_reads |]. intros dev.
  intros self Hself. by apply (stable_unassign P HP).
Qed.

Lemma Preserves_on_ReadMultipleResponse (pop : SetPop) (r : @IOResponse Any) :
  Preserves P (on_ReadMultipleResponse (H := pop) get_datatype cast_out
                 iter_objects accepted is_str other_apdu r).
Proof.
  destruct r as [response|]; simpl; [|apply Preserves_lift].
  apply Preserves_bind; [|intros _; apply Preserves_on_ReadPropertyMultipleACK].
  destruct (is_str _); [apply Preserves_ret | apply Preserves_raise].
Qed.

Lemma Preserves_on_ReadMultipleResult
    (on_ReadMultipleResponse : @IOResponse Any → Py (@Handler Any Value) unit)
    (iocb : @IOCB Any) :
  (∀ r, Preserves P (on_ReadMultipleResponse r)) →
  Preserves P (on_ReadMultipleResult on_ReadMultipleResponse iocb).
Proof.
  intros Hresponse. unfold on_ReadMultipleResult.
  destruct (ioError iocb) as [error|].
  - apply Preserves_bind; [apply Preserves_lift |]. intros spec0.
    destruct (_ && _); apply Preserves_ReadPropertyMultiple.
  - destruct (ioResponse iocb) as [r|]; [apply Hresponse | apply Preserves_ret].
Qed.

(** Every method keeps a stable property, whether it returns or raises. *)
Lemma Preserves_handle (e : Event Any Value) :
  Preserves P (handle get_datatype cast_out iter_objects accepted is_str
                 other_apdu e).
Proof.
  destruct e; simpl.
  - apply Preserves_do_IAmRequest.
  - apply Preserves_do_ConfirmedCOVNotificationRequest.
  - apply Preserves_do_UnconfirmedCOVNotificationRequest.
  - apply Preserves_on_ReadMultipleResult_failed.
  - apply Preserves_on_ReadMultipleResult.
    apply Preserves_on_ReadMultipleResponse.
  - apply Preserves_COVSubscribe.
  - apply Preserves_COVUnsubscribe.
  - apply Preserves_ReadPropertyMultiple.
  - apply Preserves_on_Subscribed.
  - apply Preserves_update_object.
Qed.

Lemma run_events_keeps (events : list (Event Any Value)) :
  ∀ self, P self →
  P (run_events get_datatype cast_out iter_objects accepted is_str other_apdu
       events self).
Proof.
  unfold run_events.
  induction events as [|e events IH]; intros self Hself; simpl; [done |].
  apply IH. by apply Preserves_handle.
Qed.
End HandlerPreserves.

Section Invariants.
Context {Any Value : Type}.
Variable get_datatype : string → PropertyIdentifier → option Datatype.
Variable cast_out : Any → Datatype → Value.
Variable iter_objects : Value → outcome (list ObjectIdentifier).
Variable accepted : ObjectIdentifier → bool.
Variable is_str : Address → bool.
Variable other_apdu : outcome unit.
Implicit Types (self : @Handler Any Value).

Lemma unassign_id_frame self (obj : SubscriptionKey) :
  requests (unassign_id obj self).2 = requests self
  ∧ responses (unassign_id obj self).2 = responses self
  ∧ BACnetDeviceDict (unassign_id obj self).2 = BACnetDeviceDict self
  ∧ updateEvent (unassign_id obj self).2 = updateEvent self.
Proof.
  unfold unassign_id.
  destruct (object_to_id self !! obj) as [i|]; [|done].
  by destruct (id_to_object self !! i).
Qed.

Lemma assign_id_frame (pop : SetPop) self (obj : SubscriptionKey) :
  requests (assign_id (H := pop) obj self).2 = requests self
  ∧ responses (assign_id (H := pop) obj self).2 = responses self
  ∧ BACnetDeviceDict (assign_id (H := pop) obj self).2 = BACnetDeviceDict self
  ∧ updateEvent (assign_id (H := pop) obj self).2 = updateEvent self.
Proof.
  destruct (assign_id_returns (H := pop) self obj)
    as (i & self' & -> & ? & ? & ? & ? & _).
  done.
Qed.

(** The id tables decide [ids_consistent] and [ids_accounted]. *)
Lemma ids_consistent_ext self self' :
  id_to_object self' = id_to_object self →
  object_to_id self' = object_to_id self →
  available_ids self' = available_ids self →
  next_id self' = next_id self →
  ids_consistent self ∧ ids_accounted self →
  ids_consistent self' ∧ ids_accounted self'.
Proof.
  intros H1 H2 H3 H4 [[Hinv Huse Hpool Hfree Hpos] Hacc].
  split; [split |]; unfold ids_accounted; rewrite ?H1, ?H2, ?H3, ?H4; done.
Qed.

Lemma ids_stable :
  Stable (λ self : @Handler Any Value, ids_consistent self ∧ ids_accounted self).
Proof.
  split.
  - intros objectID deviceID new_val self.
    destruct (merged_handler_frame self objectID deviceID new_val)
      as (_ & _ & ? & ? & ? & ?).
    by apply ids_consistent_ext.
  - intros r self. by apply ids_consistent_ext.
  - intros r self. by apply ids_consistent_ext.
  - intros pop obj self [Hcons Hacc].
    destruct (assign_id_consistent (H := pop) self obj Hcons)
      as (i & self1 & Hrun & Hcons1 & _).
    destruct (assign_id_accounted pop self obj Hacc)
      as (i' & self1' & Hrun' & Hacc1 & _).
    rewrite Hrun in Hrun'. injection Hrun' as <- <-.
    by rewrite Hrun.
  - intros obj self [Hcons Hacc].
    destruct (unassign_id_consistent self obj Hcons)
      as (self1 & Hrun & Hcons1).
    destruct (unassign_id_accounted self obj Hcons Hacc)
      as (self1' & Hrun' & Hacc1 & _).
    rewrite Hrun in Hrun'. injection Hrun' as <-.
    by rewrite Hrun.
  - intros apdu self _. by apply ids_consistent_ext.
Qed.

(** X25. The id tables stay sound through everything that happens to a
    handler. After any sequence of announcements, notifications, read
    results and failures, subscribe and unsubscribe calls, subscription
    results and merges, starting from a new handler and whichever of them
    raise: the two dictionaries are inverse to each other, so no two keys
    share an id; every id in use or pooled lies between 1 and [next_id];
    the pool holds no id in use; and no id below [next_id] is lost. *)
Theorem id_tables_stay_sound (events : list (Event Any Value)) :
  ids_consistent
    (run_events get_datatype cast_out iter_objects accepted is_str
       other_apdu events new_handler)
  ∧ ids_accounted
      (run_events get_datatype cast_out iter_objects accepted is_str
       other_apdu events new_handler)
  ∧ ∀ obj1 obj2 i,
      object_to_id
        (run_events get_datatype cast_out iter_objects accepted is_str
       other_apdu events new_handler)
        !! obj1 = Some i →
      object_to_id
        (run_events get_datatype cast_out iter_objects accepted is_str
       other_apdu events new_handler)
        !! obj2 = Some i →
      obj1 = obj2.
Proof.
  destruct (run_events_keeps get_datatype cast_out iter_objects accepted
              is_str other_apdu _ ids_stable
              events new_handler) as [Hcons Hacc].
  { split; [apply new_handler_ids_consistent | apply new_handler_ids_accounted]. }
  split_and!; [done | done |].
  intros obj1 obj2 i H1 H2. destruct Hcons as [Hinv _ _ _ _].
  apply Hinv in H1, H2. congruence.
Qed.

Lemma registry_wf_ext self self' :
  BACnetDeviceDict self' = BACnetDeviceDict self →
  registry_wf self → registry_wf self'.
Proof. unfold registry_wf. by intros ->. Qed.

Lemma registry_wf_stable : Stable (@registry_wf Any Value).
Proof.
  split.
  - intros objectID deviceID new_val self [Hnodup Hkey].
    unfold merged_handler.
    destruct (PyDict.get (BACnetDeviceDict self) deviceID) as [device|] eqn:Hdev;
      [|done].
    split; simpl.
    + rewrite PyDict_keys_set_present by by eexists. done.
    + intros d device'. destruct (decide (deviceID = d)) as [<-|Hne].
      * rewrite PyDict_get_set_eq. intros [= <-]. simpl. by apply Hkey.
      * rewrite PyDict_get_set_ne by done. apply Hkey.
  - intros r self. by apply registry_wf_ext.
  - intros r self. by apply registry_wf_ext.
  - intros pop obj self. apply registry_wf_ext.
    by destruct (assign_id_frame pop self obj) as (_ & _ & ? & _).
  - intros obj self. apply registry_wf_ext.
    by destruct (unassign_id_frame self obj) as (_ & _ & ? & _).
  - intros apdu self Hnone [Hnodup Hkey]. split; simpl.
    + unfold PyDict.keys in *. rewrite fmap_app. simpl.
      apply NoDup_app. split_and!; [done | | apply NoDup_singleton].
      intros d Hin [->|[]%elem_of_nil]%elem_of_cons.
      by apply PyDict_get_None_keys in Hnone.
    + intros d device. rewrite PyDict_get_app_absent.
      destruct (PyDict.get (BACnetDeviceDict self) d) as [device'|] eqn:Hd.
      * intros [= <-]. by apply Hkey.
      * case_decide; [|done]. by intros [= <-].
Qed.

(** X26. The registry stays a dictionary of devices under their own
    identifiers. After any sequence of events from a new handler, its keys
    are distinct and every entry carries its key as [deviceIdentifier]. *)
Theorem registry_stays_well_formed (events : list (Event Any Value)) :
  registry_wf
    (run_events get_datatype cast_out iter_objects accepted is_str
       other_apdu events new_handler).
Proof.
  apply (run_events_keeps get_datatype cast_out iter_objects accepted
              is_str other_apdu _
           registry_wf_stable).
  split; [apply NoDup_nil_2 | done].
Qed.

(** A property [k] of object [objectID] of device [deviceID] is stored,
    and the device has address [a]. *)
Definition stored_property (deviceID : ObjectIdentifier) (a : Address)
    (objectID : ObjectIdentifier) (k : PropertyIdentifier) self : Prop :=
  ∃ (device : @Device Value) properties,
    PyDict.get (BACnetDeviceDict self) deviceID = Some device
    ∧ address device = a
    ∧ objects device !! objectID = Some properties
    ∧ is_Some (properties !! k).

Lemma registered_stable (deviceID : ObjectIdentifier) (a : Address) :
  Stable (λ self : @Handler Any Value, dev_id_to_addr self deviceID = Some a).
Proof.
  unfold dev_id_to_addr. split.
  - intros objectID d new_val self. unfold merged_handler.
    destruct (PyDict.get (BACnetDeviceDict self) d) as [device|] eqn:Hdev;
      [|done].
    simpl. destruct (decide (d = deviceID)) as [->|Hne].
    + rewrite PyDict_get_set_eq, Hdev. done.
    + by rewrite PyDict_get_set_ne.
  - done.
  - done.
  - intros pop obj self.
    by destruct (assign_id_frame pop self obj) as (_ & _ & -> & _).
  - intros obj self.
    by destruct (unassign_id_frame self obj) as (_ & _ & -> & _).
  - intros apdu self _. simpl. rewrite PyDict_get_app_absent.
    by destruct (PyDict.get (BACnetDeviceDict self) deviceID).
Qed.

Lemma stored_property_stable (deviceID : ObjectIdentifier) (a : Address)
    (objectID : ObjectIdentifier) (k : PropertyIdentifier) :
  Stable (stored_property deviceID a objectID k).
Proof.
  unfold stored_property. split.
  - intros o d new_val self (device & properties & Hget & Ha & Ho & Hk).
    unfold merged_handler.
    destruct (PyDict.get (BACnetDeviceDict self) d) as [device'|] eqn:Hdev;
      [|by exists device, properties].
    simpl. destruct (decide (d = deviceID)) as [->|Hne].
    + rewrite PyDict_get_set_eq. rewrite Hget in Hdev. injection Hdev as <-.
      destruct (decide (o = objectID)) as [->|Hno].
      * eexists _, _. split; [reflexivity |]. simpl.
        rewrite lookup_insert_eq, Ho. simpl.
        split_and!; [done | reflexivity |].
        rewrite lookup_union. destruct Hk as [v ->].
        by destruct (new_val !! k).
      * eexists _, properties. split; [reflexivity |]. simpl.
        by rewrite lookup_insert_ne.
    + exists device, properties. by rewrite PyDict_get_set_ne.
  - done.
  - done.
  - intros pop obj self.
    by destruct (assign_id_frame pop self obj) as (_ & _ & -> & _).
  - intros obj self.
    by destruct (unassign_id_frame self obj) as (_ & _ & -> & _).
  - intros apdu self _ (device & properties & Hget & Ha & Ho & Hk).
    exists device, properties. simpl.
    by rewrite PyDict_get_app_absent, Hget.
Qed.

(** X27. The registry only grows. Whatever happens to a handler later, a
    device stays registered under the address it was first announced
    with, and a property that is stored for one of its objects stays
    stored (its value may be replaced): no method removes a device, an
    object or a property, or changes an address. *)
Theorem registry_only_grows (events : list (Event Any Value)) self
    (deviceID : ObjectIdentifier) (a : Address) :
  dev_id_to_addr self deviceID = Some a →
  dev_id_to_addr
    (run_events get_datatype cast_out iter_objects accepted is_str
       other_apdu events self) deviceID
  = Some a
  ∧ ∀ objectID k,
      stored_property deviceID a objectID k self →
      stored_property deviceID a objectID k
        (run_events get_datatype cast_out iter_objects accepted is_str
       other_apdu events self).
Proof.
  intros Ha. split.
  - by apply (run_events_keeps get_datatype cast_out iter_objects accepted
              is_str other_apdu _
                (registered_stable deviceID a)).
  - intros objectID k.
    apply (run_events_keeps get_datatype cast_out iter_objects accepted
              is_str other_apdu _
             (stored_property_stable deviceID a objectID k)).
Qed.

End Invariants.

(** ** The further properties on examples *)

Lemma update_object_merges_witness :
  ∃ (self' : @Handler Z Z) device' properties,
    update_object ("analogInput", 1) ("device", 100)
      {[ "presentValue" := 21 ]} announced_handler = (Return tt, self')
    ∧ PyDict.get (BACnetDeviceDict self') ("device", 100) = Some device'
    ∧ objects device' !! ("analogInput", 1) = Some properties
    ∧ properties !! "presentValue" = Some 21
    ∧ address device' = "192.168.1.20"
    ∧ updateEvent self' = true
    ∧ requests self' = requests announced_handler.
Proof.
  destruct (update_object_merges announced_handler ("analogInput", 1)
              ("device", 100) {[ "presentValue" := 21 ]}
              {| address := "192.168.1.20";
                 deviceIdentifier := ("device", 100);
                 objects := ∅ |} eq_refl)
    as (self' & device' & properties & Hrun & Hget & Hobj & Hprops & Haddr
        & _ & _ & _ & Hev & _ & _ & _ & _ & Hreq & _).
  exists self', device', properties.
  split_and!; [exact Hrun | exact Hget | exact Hobj | | exact Haddr
               | exact Hev | exact Hreq].
  rewrite Hprops. reflexivity.
Defined.

Lemma announced_handler_keys :
  NoDup (PyDict.keys (BACnetDeviceDict announced_handler)).
Proof. apply NoDup_singleton. Qed.

Lemma addr_to_dev_id_sound_witness :
  dev_id_to_addr announced_handler ("device", 100) = Some "192.168.1.20".
Proof.
  apply (proj1 (addr_to_dev_id_sound announced_handler "192.168.1.20"
                  announced_handler_keys) ("device", 100)).
  reflexivity.
Defined.

Lemma do_IAmRequest_address_resolution_witness :
  ∃ self' : @Handler Z Z,
    do_IAmRequest {| iam_pduSource := "192.168.1.20";
                     iAmDeviceIdentifier := ("device", 200) |}
                  announced_handler = (Return tt, self')
    ∧ dev_id_to_addr self' ("device", 200) = Some "192.168.1.20"
    ∧ addr_to_dev_id self' "192.168.1.20" = Some ("device", 100).
Proof.
  destruct (do_IAmRequest_address_resolution announced_handler
              {| iam_pduSource := "192.168.1.20";
                 iAmDeviceIdentifier := ("device", 200) |} eq_refl)
    as (self' & Hrun & Haddr & _ & Hres).
  exists self'. split_and!; [exact Hrun | exact Haddr |].
  rewrite Hres. reflexivity.
Defined.

(** A notification whose two properties both have a datatype *)
Definition decodable_notification : @COVNotificationRequest Z :=
  {| n_monitoredObjectIdentifier := ("analogInput", 1);
     n_initiatingDeviceIdentifier := ("device", 100);
     listOfValues :=
       [{| lv_propertyIdentifier := "presentValue";
           lv_propertyArrayIndex := None; lv_value := 21 |};
        {| lv_propertyIdentifier := "statusFlags";
           lv_propertyArrayIndex := None; lv_value := 0 |}] |}.


Lemma cov_notification_dropped_witness :
  do_ConfirmedCOVNotificationRequest datatype_table keep_value
    notification announced_handler
  = (Raise TypeError, announced_handler).
Proof.
  apply (cov_notification_dropped datatype_table keep_value announced_handler
           notification).
  apply Exists_cons_tl, Exists_cons_hd. reflexivity.
Defined.

Lemma return_value_read_array_witness :
  return_value_read datatype_table keep_value
    {| a_objectIdentifier := ("analogInput", 1);
       a_propertyIdentifier := "priorityArray";
       a_propertyArrayIndex := Some 0;
       a_propertyValue := 16 |}
  = Return {[ "priorityArray" := keep_value 16 Unsigned ]}.
Proof.
  apply (return_value_read_array datatype_table keep_value
           {| a_objectIdentifier := ("analogInput", 1);
              a_propertyIdentifier := "priorityArray";
              a_propertyArrayIndex := Some 0;
              a_propertyValue := 16 |}
           (Atomic "PriorityValue")).
  reflexivity.
Defined.



Lemma device_result_unregistered_witness :
  read_callback (answered device_read (ack_of device_result "192.168.1.20"))
    new_handler
  = (Raise KeyError, new_handler).
Proof.
  apply (device_result_unregistered (H := pop_least) device_table keep iterate
           in_range plain_str (Return tt) device_read
           (ack_of device_result "192.168.1.20") device_result
           (<["objectList" :=
                VObjects [("device", 100); ("analogInput", 1); ("file", 1);
                          ("binaryValue", 3)]]>
              {[ "vendorIdentifier" := VNum 15 ]}) new_handler).
  - reflexivity.
  - reflexivity.
  - vm_compute. reflexivity.
  - reflexivity.
  - reflexivity.
Defined.

Lemma device_result_reads_objects_witness :
  read_callback (answered device_read (ack_of device_result "192.168.1.20"))
    announced
  = (Return tt,
     set_requests
       (requests announced ++
        [read_all [("analogInput", 1); ("binaryValue", 3)] "192.168.1.20"])
       (merged_handler ("device", 100) ("device", 100)
          (<["objectList" :=
               VObjects [("device", 100); ("analogInput", 1); ("file", 1);
                         ("binaryValue", 3)]]>
             {[ "vendorIdentifier" := VNum 15 ]}) announced)).
Proof.
  apply (device_result_reads_objects (H := pop_least) device_table keep iterate
           in_range plain_str (Return tt) device_read
           (ack_of device_result "192.168.1.20") device_result
           (<["objectList" :=
                VObjects [("device", 100); ("analogInput", 1); ("file", 1);
                          ("binaryValue", 3)]]>
              {[ "vendorIdentifier" := VNum 15 ]}) announced device_100
           (VObjects [("device", 100); ("analogInput", 1); ("file", 1);
                      ("binaryValue", 3)])
           [("device", 100); ("analogInput", 1); ("file", 1);
            ("binaryValue", 3)]).
  - reflexivity.
  - reflexivity.
  - vm_compute. reflexivity.
  - reflexivity.
  - reflexivity.
  - reflexivity.
  - reflexivity.
  - vm_compute. reflexivity.
  - reflexivity.
Defined.


Lemma device_result_without_objectList_witness :
  ∃ (self' : @Handler PyValue PyValue) device',
    read_callback
      (answered device_read (ack_of device_result_bare "192.168.1.20"))
      announced
    = (Raise KeyError, self')
    ∧ requests self' = requests announced
    ∧ PyDict.get (BACnetDeviceDict self') ("device", 100) = Some device'
    ∧ objects device' !! ("device", 100)
      = Some {[ "vendorIdentifier" := VNum 15 ]}.
Proof.
  apply (device_result_without_objectList (H := pop_least) device_table keep
           iterate in_range plain_str (Return tt) device_read
           (ack_of device_result_bare "192.168.1.20")
           device_result_bare {[ "vendorIdentifier" := VNum 15 ]} announced
           device_100).
  - reflexivity.
  - reflexivity.
  - vm_compute. reflexivity.
  - reflexivity.
  - reflexivity.
  - reflexivity.
  - reflexivity.
  - reflexivity.
Defined.


Lemma device_without_filtered_objects_witness :
  ∃ (self' : @Handler PyValue PyValue) r,
    read_callback
      (answered device_read (ack_of device_result_unfiltered "192.168.1.20"))
      announced
    = (Return tt, self')
    ∧ requests self' = requests announced ++ [ReadMultiple r]
    ∧ listOfReadAccessSpecs r = []
    ∧ read_callback (failed r "192.168.1.20") self'
      = (Raise IndexError, self').
Proof.
  destruct (device_without_filtered_objects (H := pop_least) device_table keep
              iterate in_range plain_str (Return tt) device_read
              (ack_of device_result_unfiltered "192.168.1.20")
              device_result_unfiltered
              {[ "objectList" := VObjects [("device", 100); ("file", 1)] ]}
              announced device_100
              (VObjects [("device", 100); ("file", 1)])
              [("device", 100); ("file", 1)])
    as (self' & r & Hrun & Hreq & Hspecs & Hfail).
  - reflexivity.
  - reflexivity.
  - vm_compute. reflexivity.
  - reflexivity.
  - reflexivity.
  - reflexivity.
  - reflexivity.
  - reflexivity.
  - reflexivity.
  - repeat constructor; apply (bool_decide_unpack _); vm_compute; exact I.
  - exists self', r.
    split_and!; [exact Hrun | exact Hreq | exact Hspecs | apply Hfail].
Defined.

Lemma response_source_not_str_witness :
  read_callback
    (answered device_read
       (ack_of device_result "Address:192.168.1.20"))
    announced
  = (Raise TypeError, announced).
Proof.
  apply (response_source_not_str (H := pop_least) device_table keep iterate
           in_range plain_str (Return tt) device_read
           (ack_of device_result "Address:192.168.1.20") announced).
  reflexivity.
Defined.

Lemma announced_handler_ids :
  ids_consistent announced_handler ∧ ids_accounted announced_handler.
Proof.
  apply (ids_consistent_ext new_handler announced_handler);
    try reflexivity.
  split; [apply new_handler_ids_consistent | apply new_handler_ids_accounted].
Qed.

Lemma rejected_subscription_frees_id_witness :
  ∃ i (self1 self2 self3 : @Handler Z Z),
    COVSubscribe (H := pop_least) in_range ("analogInput", 1) true
      "192.168.1.20" announced_handler = (Return tt, self1)
    ∧ on_Subscribed
        {| s_args0 := subscription i ("analogInput", 1) true "192.168.1.20";
           s_ioError := Some {| errorClass := Str "object";
                                errorCode := Str "unknown-object" |};
           s_ioResponse := false |} self1
      = (Return tt, self2)
    ∧ COVSubscribe (H := pop_least) in_range ("analogInput", 2) true
        "192.168.1.20" self2 = (Return tt, self3)
    ∧ requests self3
      = requests self2 ++
        [Subscribe (subscription i ("analogInput", 2) true "192.168.1.20")].
Proof.
  destruct (rejected_subscription_frees_id pop_least pop_least in_range
              announced_handler ("analogInput", 1) ("analogInput", 2)
              true true "192.168.1.20" "192.168.1.20"
              "object" "unknown-object"
              (proj1 announced_handler_ids) eq_refl eq_refl eq_refl eq_refl
              eq_refl)
    as (i & self1 & self2 & self3 & H1 & _ & H2 & _ & _ & H3 & H4).
  exists i, self1, self2, self3.
  split_and!; [exact H1 | exact H2 | exact H3 | exact H4].
Defined.

Lemma subscription_error_not_written_witness :
  ∃ e,
    on_Subscribed
      {| s_args0 := subscription 1 ("analogInput", 1) true "192.168.1.20";
         s_ioError := Some {| errorClass := NotStr; errorCode := NotStr |};
         s_ioResponse := false |} one_assigned_handler
    = (Raise e, one_assigned_handler)
    ∧ (e = TypeError ∨ ∃ name, e = AttributeError name).
Proof.
  apply (subscription_error_not_written
           {| s_args0 := subscription 1 ("analogInput", 1) true "192.168.1.20";
              s_ioError := Some {| errorClass := NotStr; errorCode := NotStr |};
              s_ioResponse := false |}
           {| errorClass := NotStr; errorCode := NotStr |}
           one_assigned_handler).
  - reflexivity.
  - reflexivity.
  - left. discriminate.
Defined.

Lemma failed_device_read_is_retried_witness :
  ∃ r,
    last (requests announced_handler) = Some (ReadMultiple r)
    ∧ fail_repeatedly ignore_response 2 announced_handler
      = (Return tt,
         set_requests
           (requests announced_handler ++ replicate 2 (ReadMultiple r))
           announced_handler).
Proof.
  exists {| listOfReadAccessSpecs :=
              [{| objectIdentifier := ("device", 100);
                  listOfPropertyReferences := device_property_list |}];
            rpm_pduDestination := "192.168.1.20" |}.
  split; [reflexivity |].
  apply (failed_device_read_is_retried ignore_response announced_handler
           {| listOfReadAccessSpecs :=
                [{| objectIdentifier := ("device", 100);
                    listOfPropertyReferences := device_property_list |}];
              rpm_pduDestination := "192.168.1.20" |}
           ("device", 100) 2);
    reflexivity.
Defined.

Lemma registry_only_grows_witness :
  dev_id_to_addr
    (run_events datatype_table keep_value (λ _, Return []) in_range
       plain_str (Return tt)
       [IAm {| iam_pduSource := "192.168.1.77";
               iAmDeviceIdentifier := ("device", 100) |};
        ReadMultipleFailed object_read "192.168.1.20";
        ConfirmedCOV decodable_notification]
       announced_handler)
    ("device", 100)
  = Some "192.168.1.20".
Proof.
  apply (registry_only_grows datatype_table keep_value (λ _, Return [])
           in_range plain_str (Return tt)
           [IAm {| iam_pduSource := "192.168.1.77";
                   iAmDeviceIdentifier := ("device", 100) |};
            ReadMultipleFailed object_read "192.168.1.20";
            ConfirmedCOV decodable_notification]
           announced_handler ("device", 100) "192.168.1.20").
  reflexivity.
Defined.
